(** * Personal finance tracker: sign convention, store and monthly views

    A shallow embedding of [Personal_finance_tracker.py]
    (class [PersonalFinanceDashboard]) and the properties of its
    transaction store and aggregation functions.

    Modelling conventions
    - The store and the views are modelled on exact numbers: an amount is a
      rational ([Q]), the whole numbers and decimal fractions that a user
      enters, without the rounding of binary floating point.  The special
      values that a float64 column can hold (NaN and the two infinities)
      are modelled where the code can produce them: in the columns of the
      monthly summary, see [float64].
    - Where a property depends on the numbers of the machine, the store is
      modelled on them too: the same functions on a float64 column
      (binary64 with its NaN, infinities, signed zeros and rounding, the
      definitions named [f64_...]) and on an int64 column (which wraps
      around, [int64_...]).  A statement that compares sums on exact
      numbers is made for [whole_amounts], on which the sums of the machine
      are exact.
    - A [Timestamp] is the number of nanoseconds since 1970-01-01T00:00, the
      representation of a datetime64 column; [Series.dt.date] is the day
      number and [Series.dt.to_period('M')] the month number since the epoch.
      NaT and time zones are not modelled.  The dtype of the Date column,
      on which [Series.dt] depends, is a parameter of the functions that
      are stated with it ([dtype]).
    - A DataFrame of transactions is the list of its rows, in row order.
    - The CSV file is represented by the table that [read_csv] returns for
      it.  Whether this is the table that [to_csv] wrote is a matter of the
      text of the fields, and a condition of the statements that need it. *)

From Stdlib Require Import Floats.
From Stdlib Require Import ZArith QArith Qabs Lqa Lia Bool.
From Stdlib Require Import String Ascii List Permutation Sorting.Sorted.
From Stdlib Require Import Setoid Morphisms.
From Stdlib Require OrdersEx DecimalString.
Import ListNotations.

Local Open Scope Z_scope.

(* ------------------------------------------------------------------ *)
(** ** Calendar: days, civil dates and monthly periods *)

Module Calendar.

Definition Timestamp := Z.

Definition ns_per_day : Z := 86400 * 1000000000.

(** [Timestamp.date()]: the calendar day, as days since 1970-01-01. *)
Definition date (ts : Timestamp) : Z := ts / ns_per_day.

(** Proleptic Gregorian civil date of a day number: (year, month, day). *)
Definition civil_from_days (z : Z) : Z * Z * Z :=
  let z := z + 719468 in
  let era := z / 146097 in
  let doe := z - era * 146097 in
  let yoe := (doe - doe / 1460 + doe / 36524 - doe / 146096) / 365 in
  let y := yoe + era * 400 in
  let doy := doe - (365 * yoe + yoe / 4 - yoe / 100) in
  let mp := (5 * doy + 2) / 153 in
  let d := doy - (153 * mp + 2) / 5 + 1 in
  let m := if mp <? 10 then mp + 3 else mp - 9 in
  (if m <=? 2 then y + 1 else y, m, d).

(** Day number of a civil date. *)
Definition days_from_civil (y m d : Z) : Z :=
  let y := if m <=? 2 then y - 1 else y in
  let era := y / 400 in
  let yoe := y - era * 400 in
  let doy := (153 * (if 2 <? m then m - 3 else m + 9) + 2) / 5 + d - 1 in
  let doe := yoe * 365 + yoe / 4 - yoe / 100 + doy in
  era * 146097 + doe - 719468.

(** Midnight at the start of a civil date. *)
Definition midnight (y m d : Z) : Timestamp := days_from_civil y m d * ns_per_day.

(** [to_period('M')]: a monthly period is the number of months since
    1970-01, which is also how the library stores it. *)
Definition Period := Z.

Definition period_of_day (z : Z) : Period :=
  let '(y, m, _) := civil_from_days z in (y - 1970) * 12 + (m - 1).

Definition to_period_M (ts : Timestamp) : Period := period_of_day (date ts).

Definition month_period (y m : Z) : Period := (y - 1970) * 12 + (m - 1).

Definition is_leap (y : Z) : bool :=
  ((y mod 4 =? 0) && negb (y mod 100 =? 0)) || (y mod 400 =? 0).

Definition days_in_month (y m : Z) : Z :=
  if m =? 2 then (if is_leap y then 29 else 28)
  else if (m =? 4) || (m =? 6) || (m =? 9) || (m =? 11) then 30 else 31.

(** The day after a civil date, by the lengths of the months. *)
Definition next_civil (c : Z * Z * Z) : Z * Z * Z :=
  let '(y, m, d) := c in
  if d <? days_in_month y m then (y, m, d + 1)
  else if m <? 12 then (y, m + 1, 1)
  else (y + 1, 1, 1).

Definition civil_eqb (a b : Z * Z * Z) : bool :=
  let '(y, m, d) := a in
  let '(y', m', d') := b in
  (y =? y') && (m =? m') && (d =? d').

(** [civil_from_days] steps like the calendar from day [z] to the next day,
    and [days_from_civil] inverts it at [z]. *)
Definition calendar_step_ok (z : Z) : bool :=
  let '(y, m, d) := civil_from_days z in
  civil_eqb (civil_from_days (z + 1)) (next_civil (y, m, d)) &&
  (days_from_civil y m d =? z).

(** [calendar_step_ok] on [n] consecutive days from [z]. *)
Fixpoint calendar_steps_ok (n : nat) (z : Z) : bool :=
  match n with
  | O => true
  | S n' => calendar_step_ok z && calendar_steps_ok n' (z + 1)
  end.

(** *** Reading a date written as YYYY-MM-DD *)

Definition digit (c : ascii) : option Z :=
  let n := Z.of_nat (nat_of_ascii c) - 48 in
  if (0 <=? n) && (n <=? 9) then Some n else None.

Fixpoint number (acc : Z) (cs : list ascii) : option Z :=
  match cs with
  | [] => Some acc
  | c :: cs' =>
      match digit c with
      | Some n => number (acc * 10 + n) cs'
      | None => None
      end
  end.

Definition iso_date (s : string) : option Timestamp :=
  match list_ascii_of_string s with
  | [y1; y2; y3; y4; "-"%char; m1; m2; "-"%char; d1; d2] =>
      match number 0 [y1; y2; y3; y4], number 0 [m1; m2], number 0 [d1; d2] with
      | Some y, Some m, Some d =>
          if (1 <=? m) && (m <=? 12) && (1 <=? d) && (d <=? days_in_month y m)
          then Some (midnight y m d) else None
      | _, _, _ => None
      end
  | _ => None
  end.

End Calendar.

Import Calendar.

(* ------------------------------------------------------------------ *)
(** ** Numbers *)

(** Python's [a < b] on finite numbers. *)
Definition Qltb (a b : Q) : bool := negb (Qle_bool b a).

(** [sum()] of a column. *)
Definition Qsum (l : list Q) : Q := fold_right Qplus 0%Q l.

(** A float64 cell: a finite number, an infinity or NaN (missing). *)
Inductive float64 : Type :=
| Finite (q : Q)
| PosInf
| NegInf
| NaN.

Definition Qis_zero (q : Q) : bool := Qeq_bool q 0.

(** Subtraction, multiplication and division of float64 cells, with the
    IEEE rules for the special values.  A zero is the positive zero: the
    only zero divisor of this program is the one [fillna(0)] writes. *)
Definition fsub (a b : float64) : float64 :=
  match a, b with
  | NaN, _ | _, NaN => NaN
  | Finite x, Finite y => Finite (x - y)
  | PosInf, PosInf | NegInf, NegInf => NaN
  | PosInf, _ => PosInf
  | NegInf, _ => NegInf
  | Finite _, PosInf => NegInf
  | Finite _, NegInf => PosInf
  end.

Definition fsign (pos : bool) : float64 := if pos then PosInf else NegInf.

Definition fmul (a b : float64) : float64 :=
  match a, b with
  | NaN, _ | _, NaN => NaN
  | Finite x, Finite y => Finite (x * y)
  | Finite x, PosInf | PosInf, Finite x =>
      if Qis_zero x then NaN else fsign (Qltb 0 x)
  | Finite x, NegInf | NegInf, Finite x =>
      if Qis_zero x then NaN else fsign (Qltb x 0)
  | PosInf, PosInf | NegInf, NegInf => PosInf
  | PosInf, NegInf | NegInf, PosInf => NegInf
  end.

Definition fdiv (a b : float64) : float64 :=
  match a, b with
  | NaN, _ | _, NaN => NaN
  | Finite x, Finite y =>
      if Qis_zero y
      then (if Qis_zero x then NaN else fsign (Qltb 0 x))
      else Finite (x / y)
  | Finite _, (PosInf | NegInf) => Finite 0
  | (PosInf | NegInf), (PosInf | NegInf) => NaN
  | PosInf, Finite y => fsign (negb (Qltb y 0))
  | NegInf, Finite y => fsign (Qltb y 0)
  end.

(** [fillna(v)]: only NaN is missing; an infinity is a value. *)
Definition fillna (v : Q) (a : float64) : float64 :=
  match a with
  | NaN => Finite v
  | _ => a
  end.

(* ------------------------------------------------------------------ *)
(** ** Exceptions *)

(** An exception is identified by the name of its class. *)
Definition exn := string.

Inductive outcome (A : Type) : Type :=
| Ok (a : A)
| Raise (e : exn).

Arguments Ok {A} a.
Arguments Raise {A} e.

Definition bind {A B : Type} (m : outcome A) (k : A -> outcome B) : outcome B :=
  match m with
  | Ok a => k a
  | Raise e => Raise e
  end.

Notation "x <- m ;; k" := (bind m (fun x => k))
  (at level 61, m at next level, right associativity).

(* ------------------------------------------------------------------ *)
(** ** Sorted index of distinct keys *)

Section SortedUnique.
Context {A : Type} (cmp : A -> A -> comparison).

Fixpoint insert_unique (x : A) (l : list A) : list A :=
  match l with
  | [] => [x]
  | y :: l' =>
      match cmp x y with
      | Lt => x :: l
      | Eq => l
      | Gt => y :: insert_unique x l'
      end
  end.

(** The distinct values of [l] in ascending order. *)
Definition sorted_unique (l : list A) : list A :=
  fold_right insert_unique [] l.
End SortedUnique.

(* ------------------------------------------------------------------ *)
(** ** The transaction table *)

Record Transaction : Type := mkTransaction {
  Date : Timestamp;
  Amount : Q;
  Category : string;
  Description : string
}.

Definition DataFrame := list Transaction.

Definition set_Amount (t : Transaction) (a : Q) : Transaction :=
  mkTransaction (Date t) a (Category t) (Description t).

(** [self.categories] *)
Definition categories : list string :=
  ["Food"; "Transportation"; "Housing"; "Entertainment"; "Utilities";
   "Shopping"; "Health"; "Education"; "Income"; "Other"]%string.

Definition is_Income (c : string) : bool := String.eqb c "Income".

(** [df.loc[mask, 'Amount'] = f(df.loc[mask, 'Amount'])] *)
Definition assign_Amount_where (mask : Transaction -> bool) (f : Q -> Q)
    (df : DataFrame) : DataFrame :=
  map (fun t => if mask t then set_Amount t (f (Amount t)) else t) df.

(** The two masked assignments at the end of [load_data]. *)
Definition apply_sign_convention (df : DataFrame) : DataFrame :=
  let df := assign_Amount_where (fun t => is_Income (Category t)) Qabs df in
  assign_Amount_where (fun t => negb (is_Income (Category t)))
                      (fun a => - Qabs a)%Q df.

(** [sort_values('Date', ascending=False)]: rows by timestamp, latest first.
    The library leaves the relative order of rows with equal timestamps
    to its sorting routine; here they keep their order. *)
Fixpoint insert_desc (t : Transaction) (l : DataFrame) : DataFrame :=
  match l with
  | [] => [t]
  | u :: l' => if Date t <? Date u then u :: insert_desc t l' else t :: l
  end.

Definition sort_values_Date_desc (df : DataFrame) : DataFrame :=
  fold_right insert_desc [] df.

(** The dashboard object: the table in memory and the content of
    [finance_data.csv] ([None] while the file does not exist). *)
Record Dashboard : Type := mkDashboard {
  transactions : DataFrame;
  data_file : option DataFrame
}.

(** [save_data] *)
Definition save_data (d : Dashboard) : Dashboard :=
  mkDashboard (transactions d) (Some (transactions d)).

(** [load_data], run by [__init__].  [sample] stands for the thirty rows
    drawn from the clock and the random generator when there is no file. *)
Definition load_data (sample : DataFrame) (file : option DataFrame) : Dashboard :=
  let d :=
    match file with
    | Some rows => mkDashboard rows file
    | None => save_data (mkDashboard sample None)
    end in
  mkDashboard (apply_sign_convention (transactions d)) (data_file d).

(** The [date] argument of [add_transaction]: a string or a datetime. *)
Inductive date_arg : Type :=
| DateStr (s : string)
| DateTime (ts : Timestamp).

Section AddTransaction.
(** [pd.to_datetime] on a string: a timestamp, or an exception. *)
Variable to_datetime : string -> outcome Timestamp.

(** [if isinstance(date, str): date = pd.to_datetime(date)] *)
Definition parse_date (date : date_arg) : outcome Timestamp :=
  match date with
  | DateStr s => to_datetime s
  | DateTime ts => Ok ts
  end.

(** The [if]/[elif] on the sign: "Make amount negative for expenses,
    positive for income". *)
Definition normalize_amount (category : string) (amount : Q) : Q :=
  if negb (is_Income category) && Qltb 0 amount then (- amount)%Q
  else if is_Income category && Qltb amount 0 then Qabs amount
  else amount.

Definition add_transaction (d : Dashboard) (date : date_arg) (amount : Q)
    (category description : string) : outcome Dashboard :=
  ts <- parse_date date ;;
  let amount := normalize_amount category amount in
  let new_transaction := [mkTransaction ts amount category description] in
  let df := transactions d ++ new_transaction in
  let df := sort_values_Date_desc df in
  Ok (save_data (mkDashboard df (data_file d))).
End AddTransaction.

(** The parser used in the examples: it reads the format the prompt asks
    for, YYYY-MM-DD, as midnight of that day. *)
Definition iso_to_datetime (s : string) : outcome Timestamp :=
  match iso_date s with
  | Some ts => Ok ts
  | None => Raise "ValueError"%string
  end.

(* ------------------------------------------------------------------ *)
(** ** Series, grouped sums and re-indexing *)

(** A Series: its index and its values, in index order. *)
Definition Series := list (Z * Q).

(** The value at a label of an index. *)
Fixpoint lookup {V : Type} (k : Z) (s : list (Z * V)) : option V :=
  match s with
  | [] => None
  | (k', v) :: s' => if k' =? k then Some v else lookup k s'
  end.

(** The rows of the group of key [k]. *)
Definition group (key : Transaction -> Z) (k : Z) (df : DataFrame) : DataFrame :=
  filter (fun t => key t =? k) df.

(** [df.groupby(key)['Amount'].sum()]: one entry per distinct key, keys
    ascending, each with the sum of the amounts of its group. *)
Definition groupby_sum (key : Transaction -> Z) (df : DataFrame) : Series :=
  map (fun k => (k, Qsum (map Amount (group key k df))))
      (sorted_unique Z.compare (map key df)).

(** [Series.min()] and [Series.max()] of a datetime column; [None] is NaT,
    the result on an empty column. *)
Definition Series_min (l : list Timestamp) : option Timestamp :=
  match l with
  | [] => None
  | x :: l' => Some (fold_left Z.min l' x)
  end.

Definition Series_max (l : list Timestamp) : option Timestamp :=
  match l with
  | [] => None
  | x :: l' => Some (fold_left Z.max l' x)
  end.

(** [pd.date_range(start, end, freq='D')] on the dates of two timestamps:
    every day from [start] to [end]; NaT at either end is a ValueError. *)
Definition date_range (start stop : option Timestamp) : outcome (list Z) :=
  match start, stop with
  | Some lo, Some hi =>
      Ok (map (fun i => date lo + Z.of_nat i)
              (seq 0 (Z.to_nat (date hi - date lo + 1))))
  | _, _ => Raise "ValueError"%string
  end.

(** [Series.reindex(index, fill_value=v)] *)
Definition reindex (s : Series) (index : list Z) (fill_value : Q) : Series :=
  map (fun k => (k, match lookup k s with Some v => v | None => fill_value end))
      index.

Fixpoint cumsum_from (acc : Q) (s : Series) : Series :=
  match s with
  | [] => []
  | (k, v) :: s' => let acc := (acc + v)%Q in (k, acc) :: cumsum_from acc s'
  end.

(** [Series.cumsum()] *)
Definition cumsum (s : Series) : Series :=
  match s with
  | [] => []
  | (k, v) :: s' => (k, v) :: cumsum_from v s'
  end.

(* ------------------------------------------------------------------ *)
(** ** Aggregations *)

(** [get_balance_over_time_history] *)
Definition get_balance_over_time_history (df : DataFrame) : outcome Series :=
  let daily_sums := groupby_sum (fun t => date (Date t)) df in
  date_range <- date_range (Series_min (map Date df)) (Series_max (map Date df)) ;;
  let daily_sums := reindex daily_sums date_range 0 in
  let cumulative_balance := cumsum daily_sums in
  Ok cumulative_balance.

(** The column [df['Month']]. *)
Definition Month (t : Transaction) : Period := to_period_M (Date t).

(** [expenses = df[df['Amount'] < 0]; expenses['Amount'] = abs(...)] *)
Definition expenses_of (df : DataFrame) : DataFrame :=
  let expenses := filter (fun t => Qltb (Amount t) 0) df in
  map (fun t => set_Amount t (Qabs (Amount t))) expenses.

(** A pivot table: row labels, column labels and the cells, row by row. *)
Record PivotTable : Type := mkPivotTable {
  index : list Period;
  columns : list string;
  values : list (list Q)
}.

(** The sum of the group of a (month, category) pair, if the group has a row. *)
Definition pair_sum (rows : DataFrame) (m : Period) (c : string) : option Q :=
  match filter (fun t => (Month t =? m) && String.eqb (Category t) c) rows with
  | [] => None
  | g => Some (Qsum (map Amount g))
  end.

(** [pivot_table(index='Month', columns='Category', values='Amount',
    aggfunc='sum', fill_value=v)] *)
Definition pivot_table (rows : DataFrame) (fill_value : Q) : PivotTable :=
  let index := sorted_unique Z.compare (map Month rows) in
  let columns := sorted_unique String.compare (map Category rows) in
  mkPivotTable index columns
    (map (fun m =>
            map (fun c => match pair_sum rows m c with
                          | Some v => v
                          | None => fill_value
                          end) columns) index).

(** [get_monthly_spending_by_category] *)
Definition get_monthly_spending_by_category (df : DataFrame) : PivotTable :=
  pivot_table (expenses_of df) 0.

(** The cell of a pivot table at a row label and a column label. *)
Fixpoint position {A : Type} (eqb : A -> A -> bool) (x : A) (l : list A) : option nat :=
  match l with
  | [] => None
  | y :: l' => if eqb y x then Some O else option_map S (position eqb x l')
  end.

Definition cell (p : PivotTable) (m : Period) (c : string) : option Q :=
  match position Z.eqb m (index p), position String.eqb c (columns p) with
  | Some i, Some j =>
      match nth_error (values p) i with
      | Some row => nth_error row j
      | None => None
      end
  | _, _ => None
  end.

(** A row of the monthly summary. *)
Record SummaryRow : Type := mkSummaryRow {
  Income : float64;
  Expenses : float64;
  Savings : float64;
  Savings_Rate : float64
}.

(** A cell of a column aligned on a wider index: NaN where the column
    has no entry. *)
Definition aligned (s : Series) (k : Z) : float64 :=
  match lookup k s with
  | Some v => Finite v
  | None => NaN
  end.

(** The row of month [m]: the two monthly sums aligned on the common
    index and filled with 0, their difference, and the rate. *)
Definition summary_of_month (monthly_income monthly_expenses : Series) (m : Period)
    : SummaryRow :=
  let inc := fillna 0 (aligned monthly_income m) in
  let exp := fillna 0 (aligned monthly_expenses m) in
  let sav := fsub inc exp in
  let rate := fillna 0 (fmul (fdiv sav inc) (Finite 100)) in
  mkSummaryRow inc exp sav rate.

(** [income = df[df['Amount'] > 0]] *)
Definition income_of (df : DataFrame) : DataFrame :=
  filter (fun t => Qltb 0 (Amount t)) df.

(** [get_income_vs_expenses_chart]: a DataFrame built from the two monthly
    Series has the sorted union of their indexes as its index. *)
Definition get_income_vs_expenses_chart (df : DataFrame)
    : list (Period * SummaryRow) :=
  let expenses := expenses_of df in
  let income := income_of df in
  let monthly_expenses := groupby_sum Month expenses in
  let monthly_income := groupby_sum Month income in
  let months :=
    sorted_unique Z.compare (map fst monthly_income ++ map fst monthly_expenses) in
  map (fun m => (m, summary_of_month monthly_income monthly_expenses m)) months.

(** The row of a month in the summary. *)
Definition summary_row (m : Period) (s : list (Period * SummaryRow))
    : option SummaryRow :=
  lookup m s.

(** A transaction at midnight of a civil date, for the examples. *)
Definition on_day (y m d : Z) (a : Q) (c desc : string) : Transaction :=
  mkTransaction (midnight y m d) a c desc.

(** The states the program can be in: [__init__] loads, then
    [add_transaction] is the only mutator. *)
Inductive reachable (to_datetime : string -> outcome Timestamp) : Dashboard -> Prop :=
| reach_load (sample : DataFrame) (file : option DataFrame) :
    reachable to_datetime (load_data sample file)
| reach_add (d d' : Dashboard) (date : date_arg) (amount : Q)
    (category description : string) :
    reachable to_datetime d ->
    add_transaction to_datetime d date amount category description = Ok d' ->
    reachable to_datetime d'.

(** The sign convention as the code establishes it. *)
Definition sign_ok (t : Transaction) : Prop :=
  (Category t = "Income"%string -> (0 <= Amount t)%Q) /\
  (Category t <> "Income"%string -> (Amount t <= 0)%Q).

(** What the sign convention does to one row. *)
Definition sign_row (t : Transaction) : Transaction :=
  if is_Income (Category t)
  then set_Amount t (Qabs (Amount t))
  else set_Amount t (- Qabs (Amount t))%Q.

(** Latest first: each row is no earlier than the rows after it. *)
Definition date_desc (a b : Transaction) : Prop := Date b <= Date a.

(** The days from [first] to [last], both included. *)
Definition days_between (first last : Z) : list Z :=
  map (fun i => first + Z.of_nat i) (seq 0 (Z.to_nat (last - first + 1))).

(** The income and the expenses of a month: the sums of the two groups. *)
Definition month_income (df : DataFrame) (m : Period) : Q :=
  Qsum (map Amount (group Month m (income_of df))).

Definition month_expenses (df : DataFrame) (m : Period) : Q :=
  Qsum (map Amount (group Month m (expenses_of df))).

(* ------------------------------------------------------------------ *)
(** ** The dtype of the Date column

    Every view reads the Date column through [Series.dt], which exists on a
    datetime column only.  [pd.read_csv(..., parse_dates=['Date'])] has
    nothing to parse in a file that holds only the header line, and leaves
    the column with the dtype object; the sample table and a file with rows
    give a datetime column. *)

Inductive dtype : Type :=
| datetime64
| object.

(** [Series.dt] *)
Definition dt (Date_dtype : dtype) : outcome unit :=
  match Date_dtype with
  | datetime64 => Ok tt
  | object => Raise "AttributeError"%string
  end.

Definition read_csv_Date_dtype (rows : DataFrame) : dtype :=
  match rows with
  | [] => object
  | _ :: _ => datetime64
  end.

(** [get_balance_over_time_history] on a table whose Date column has the
    given dtype: [self.transactions['Date'].dt.date] is evaluated first. *)
Definition get_balance_over_time_history_on (Date_dtype : dtype) (df : DataFrame)
    : outcome Series :=
  _ <- dt Date_dtype ;;
  get_balance_over_time_history df.

(* ------------------------------------------------------------------ *)
(** ** Amounts on which the sums of the machine are exact

    Whole numbers whose magnitudes add up to at most 2^53: every sum of
    some of them, in any order and grouping, is a whole number of magnitude
    at most 2^53, which a float64 holds exactly and an int64 without
    wrapping around.  On such a table the sums of the program are the exact
    sums. *)

Definition is_whole (a : Q) : bool := Qnum a mod Zpos (Qden a) =? 0.

Definition whole_amounts (df : DataFrame) : bool :=
  forallb (fun t => is_whole (Amount t)) df &&
  Qle_bool (Qsum (map (fun t => Qabs (Amount t)) df)) (inject_Z (2 ^ 53)).

(* ------------------------------------------------------------------ *)
(** ** Text fields of the file

    [read_csv] reads a field that is one of its default missing-value
    markers as NaN ([None]), in a column of strings too; every other field
    of such a column is read as it was written. *)



(* ------------------------------------------------------------------ *)
(** ** The current month, the dashboard and the menu *)

(** [get_current_month_spending]: [now] is what [pd.Timestamp.now()]
    returns.  The result is indexed by category, ascending. *)
Definition get_current_month_spending (now : Timestamp) (df : DataFrame)
    : list (string * Q) :=
  let current_month := to_period_M now in
  let current_expenses :=
    filter (fun t => (Month t =? current_month) && Qltb (Amount t) 0) df in
  let current_expenses :=
    map (fun t => set_Amount t (Qabs (Amount t))) current_expenses in
  map (fun c => (c, Qsum (map Amount
                       (filter (fun t => String.eqb (Category t) c)
                               current_expenses))))
      (sorted_unique String.compare (map Category current_expenses)).

(** [x.iloc[-n:]]: the last [n] rows; with [n = 0] the slice starts at
    row 0 and is the whole table. *)
Definition iloc_last {A : Type} (n : nat) (l : list A) : list A :=
  if Nat.eqb n 0 then l else skipn (length l - n) l.

(** [num_months = min(6, len(x)); x = x.iloc[-num_months:]] *)
Definition last_six {A : Type} (l : list A) : list A :=
  iloc_last (Nat.min 6 (length l)) l.

(** The same slice of the rows of a pivot table. *)
Definition pivot_last_six (p : PivotTable) : PivotTable :=
  mkPivotTable (last_six (index p)) (columns p)
               (iloc_last (Nat.min 6 (length (index p))) (values p)).

(** [DataFrame.empty] of a pivot table: one of its axes has no label. *)
Definition pivot_empty (p : PivotTable) : bool :=
  match index p, columns p with
  | [], _ | _, [] => true
  | _, _ => false
  end.

(** What [visualize_dashboard] hands to the five plots; [None] is the
    "No data available" (or "No expenses this month") text. *)
Record DashboardData : Type := mkDashboardData {
  balance_plot : Series;
  category_plot : option PivotTable;
  income_expenses_plot : option (list (Period * SummaryRow));
  current_month_plot : option (list (string * Q));
  savings_rate_plot : option (list (Period * float64))
}.

(** [visualize_dashboard], up to the drawing itself. *)
Definition visualize_dashboard (now : Timestamp) (df : DataFrame)
    : outcome DashboardData :=
  balance_data <- get_balance_over_time_history df ;;
  let monthly_cat_data := get_monthly_spending_by_category df in
  let category_plot :=
    if pivot_empty monthly_cat_data then None
    else Some (pivot_last_six monthly_cat_data) in
  let monthly_summary := get_income_vs_expenses_chart df in
  let monthly_summary :=
    match monthly_summary with
    | [] => monthly_summary
    | _ => last_six monthly_summary
    end in
  let income_expenses_plot :=
    match monthly_summary with
    | [] => None
    | _ => Some monthly_summary
    end in
  let current_spending := get_current_month_spending now df in
  let current_month_plot :=
    match current_spending with
    | [] => None
    | _ => Some (filter (fun cv => Qltb 0 (snd cv)) current_spending)
    end in
  let savings_rate_plot :=
    match monthly_summary with
    | [] => None
    | _ => Some (map (fun mr => (fst mr, Savings_Rate (snd mr))) monthly_summary)
    end in
  Ok (mkDashboardData balance_data category_plot income_expenses_plot
                      current_month_plot savings_rate_plot).

(** Menu entry 3: [self.transactions.head(min(10, len(self.transactions)))] *)
Definition recent_transactions (d : Dashboard) : DataFrame :=
  let num_transactions := Nat.min 10 (length (transactions d)) in
  firstn num_transactions (transactions d).

(** [input()]: the next line of the standard input, EOFError at its end. *)
Definition input (stdin : list string) : outcome (string * list string) :=
  match stdin with
  | [] => Raise "EOFError"%string
  | line :: rest => Ok (line, rest)
  end.

(** [category in self.categories] *)
Definition in_categories (category : string) : bool :=
  existsb (String.eqb category) categories.

(** The category prompt of menu entry 2: it asks again until the line
    read is one of the categories. *)
Fixpoint prompt_category (stdin : list string) : outcome (string * list string) :=
  match stdin with
  | [] => Raise "EOFError"%string
  | category :: rest =>
      if in_categories category then Ok (category, rest)
      else prompt_category rest
  end.

(** One turn of the menu leaves the loop or goes on. *)
Inductive turn : Type :=
| GoOn (d : Dashboard) (stdin : list string)
| Leave (d : Dashboard) (stdin : list string).

Section Menu.
(** The library functions the menu calls on the lines it reads:
    [pd.to_datetime], [float] on a line that denotes a finite number, and
    [str.strip]. *)
Variable to_datetime : string -> outcome Timestamp.
Variable float : string -> outcome Q.
Variable strip : string -> string.

(** The date prompt: an empty answer and an answer that cannot be read
    both give the current time. *)
Definition prompt_date (now : Timestamp) (stdin : list string)
    : outcome (Timestamp * list string) :=
  answer <- input stdin ;;
  let '(date_str, rest) := answer in
  if String.eqb (strip date_str) EmptyString then Ok (now, rest)
  else match to_datetime date_str with
       | Ok date => Ok (date, rest)
       | Raise _ => Ok (now, rest)
       end.

(** The amount prompt: it asks again until the line read is a number. *)
Fixpoint prompt_amount (stdin : list string) : outcome (Q * list string) :=
  match stdin with
  | [] => Raise "EOFError"%string
  | amount_str :: rest =>
      match float amount_str with
      | Ok amount => Ok (amount, rest)
      | Raise _ => prompt_amount rest
      end
  end.

(** Menu entry 2, "Add Transaction". *)
Definition menu_add_transaction (now : Timestamp) (d : Dashboard)
    (stdin : list string) : outcome (Dashboard * list string) :=
  r <- prompt_date now stdin ;;
  let '(date, stdin) := r in
  r <- prompt_amount stdin ;;
  let '(amount, stdin) := r in
  r <- prompt_category stdin ;;
  let '(category, stdin) := r in
  r <- input stdin ;;
  let '(description, stdin) := r in
  d' <- add_transaction to_datetime d (DateTime date) amount category description ;;
  Ok (d', stdin).

(** One turn of the loop of [run_cli]; what is printed or drawn is not
    modelled.  [Date_dtype] is the dtype of the Date column of the table in
    this turn.  Entries 1, 3 and 4 read the column through [Series.dt]
    before anything else: entry 1 in [get_balance_over_time_history], entry
    3 in [display_df['Date'].dt.strftime] and entry 4 in
    [get_income_vs_expenses_chart]. *)
Definition menu_turn (Date_dtype : dtype) (now : Timestamp) (d : Dashboard)
    (stdin : list string) : outcome turn :=
  r <- input stdin ;;
  let '(choice, stdin) := r in
  if String.eqb choice "1" then
    _ <- dt Date_dtype ;;
    _ <- visualize_dashboard now (transactions d) ;; Ok (GoOn d stdin)
  else if String.eqb choice "2" then
    r <- menu_add_transaction now d stdin ;;
    let '(d', stdin) := r in Ok (GoOn d' stdin)
  else if String.eqb choice "3" then
    _ <- dt Date_dtype ;; Ok (GoOn d stdin)
  else if String.eqb choice "4" then
    _ <- dt Date_dtype ;; Ok (GoOn d stdin)
  else if String.eqb choice "5" then Ok (Leave d stdin)
  else Ok (GoOn d stdin).

(** What one turn can do to the state: nothing, or add one transaction
    whose category is one of the ten. *)
Definition menu_step (d d' : Dashboard) : Prop :=
  d' = d \/
  exists date amount category description,
    In category categories /\
    add_transaction to_datetime d (DateTime date) amount category description = Ok d'.

(** [run_cli]: turns until entry 5 or an exception.  [clock n] is the
    current time, and [Date_dtypes n] the dtype of the Date column, in the
    turn that has [n] turns of fuel left; the dtype is the library's choice
    when the table is read and when a row is appended to it.  Every turn
    reads a line, so [S (length stdin)] turns are enough and the marker
    "OutOfFuel", which is no exception of the program, is never returned
    (see [run_cli_spec]). *)
Fixpoint run_cli_turns (fuel : nat) (Date_dtypes : nat -> dtype)
    (clock : nat -> Timestamp) (d : Dashboard) (stdin : list string)
    : outcome (Dashboard * list string) :=
  match fuel with
  | O => Raise "OutOfFuel"%string
  | S fuel' =>
      t <- menu_turn (Date_dtypes fuel') (clock fuel') d stdin ;;
      match t with
      | GoOn d' stdin' => run_cli_turns fuel' Date_dtypes clock d' stdin'
      | Leave d' stdin' => Ok (d', stdin')
      end
  end.

Definition run_cli (Date_dtypes : nat -> dtype) (clock : nat -> Timestamp)
    (d : Dashboard) (stdin : list string) : outcome (Dashboard * list string) :=
  run_cli_turns (S (length stdin)) Date_dtypes clock d stdin.
End Menu.

(** The sample table of [load_data].  [nows k], [amounts k] and [choices k]
    are what [dt.datetime.now()], [np.random.randint(-100, 100)] and
    [np.random.choice(self.categories, 30)] give for row [k], counted
    from 0: row [k] is dated [30 - k] days before now and described as
    sample transaction number [k + 1]. *)
Definition sample_dataset (nows : nat -> Timestamp) (amounts : nat -> Z)
    (choices : nat -> string) : DataFrame :=
  map (fun k =>
         mkTransaction (nows k - Z.of_nat (30 - k) * ns_per_day)
                       (inject_Z (amounts k))
                       (choices k)
                       ("Sample Transaction " ++
                        DecimalString.NilEmpty.string_of_uint (Nat.to_uint (S k))))
      (seq 0 30).

(** Earlier first, strictly. *)
Definition date_asc (a b : Transaction) : Prop := Date a < Date b.

(** The finite value of a cell, 0 for the others. *)
Definition finite_part (x : float64) : Q :=
  match x with
  | Finite q => q
  | _ => 0%Q
  end.

(** The order of the column labels. *)
Definition string_lt (a b : string) : Prop := String.compare a b = Lt.

(* ------------------------------------------------------------------ *)
(** ** The store over the number types of an Amount column

    The functions of the store once more, with the amount of a row in any
    number type: [col_abs] and [col_neg] are [Series.abs()] and unary minus
    on the column (in [load_data]), [num_abs] and [num_neg] are [abs] and
    unary minus on the scalar given to [add_transaction], and [num_pos],
    [num_negative] are its tests [amount > 0] and [amount < 0]. *)

Section AnyNumber.
Variable number : Type.
Variables col_abs col_neg : number -> number.
Variables num_abs num_neg : number -> number.
Variables num_pos num_negative : number -> bool.

Record Row : Type := mkRow {
  row_Date : Timestamp;
  row_Amount : number;
  row_Category : string;
  row_Description : string
}.

Definition row_set_Amount (t : Row) (a : number) : Row :=
  mkRow (row_Date t) a (row_Category t) (row_Description t).

Definition assign_Amount_where_of (mask : Row -> bool) (f : number -> number)
    (df : list Row) : list Row :=
  map (fun t => if mask t then row_set_Amount t (f (row_Amount t)) else t) df.

(** The two masked assignments at the end of [load_data]. *)
Definition apply_sign_convention_of (df : list Row) : list Row :=
  let df := assign_Amount_where_of (fun t => is_Income (row_Category t)) col_abs df in
  assign_Amount_where_of (fun t => negb (is_Income (row_Category t)))
                         (fun a => col_neg (col_abs a)) df.

Fixpoint insert_desc_of (t : Row) (l : list Row) : list Row :=
  match l with
  | [] => [t]
  | u :: l' => if row_Date t <? row_Date u then u :: insert_desc_of t l' else t :: l
  end.

Definition sort_values_Date_desc_of (df : list Row) : list Row :=
  fold_right insert_desc_of [] df.

Record Dashboard_of : Type := mkDashboard_of {
  transactions_of : list Row;
  data_file_of : option (list Row)
}.

Definition save_data_of (d : Dashboard_of) : Dashboard_of :=
  mkDashboard_of (transactions_of d) (Some (transactions_of d)).

(** [load_data]: [file] is what [read_csv] returns, if the file exists. *)
Definition load_data_of (sample : list Row) (file : option (list Row)) : Dashboard_of :=
  let d :=
    match file with
    | Some rows => mkDashboard_of rows file
    | None => save_data_of (mkDashboard_of sample None)
    end in
  mkDashboard_of (apply_sign_convention_of (transactions_of d)) (data_file_of d).

Definition normalize_amount_of (category : string) (amount : number) : number :=
  if negb (is_Income category) && num_pos amount then num_neg amount
  else if is_Income category && num_negative amount then num_abs amount
  else amount.

Definition add_transaction_of (to_datetime : string -> outcome Timestamp)
    (d : Dashboard_of) (date : date_arg) (amount : number)
    (category description : string) : outcome Dashboard_of :=
  ts <- parse_date to_datetime date ;;
  let amount := normalize_amount_of category amount in
  let new_transaction := [mkRow ts amount category description] in
  let df := transactions_of d ++ new_transaction in
  let df := sort_values_Date_desc_of df in
  Ok (save_data_of (mkDashboard_of df (data_file_of d))).

(** The states the program can be in. *)
Inductive reachable_of (to_datetime : string -> outcome Timestamp)
    : Dashboard_of -> Prop :=
| reach_load_of (sample : list Row) (file : option (list Row)) :
    reachable_of to_datetime (load_data_of sample file)
| reach_add_of (d d' : Dashboard_of) (date : date_arg) (amount : number)
    (category description : string) :
    reachable_of to_datetime d ->
    add_transaction_of to_datetime d date amount category description = Ok d' ->
    reachable_of to_datetime d'.
End AnyNumber.

(** The sign convention on a number type.  [unordered a]: the number [a]
    is outside the order (NaN), or has no magnitude in its type (the
    smallest int64); [ge0] and [le0] are "at least 0" and "at most 0". *)
Definition sign_ok_of (number : Type) (unordered le0 ge0 : number -> Prop)
    (t : Row number) : Prop :=
  unordered (row_Amount number t) \/
  ((row_Category number t = "Income"%string -> ge0 (row_Amount number t)) /\
   (row_Category number t <> "Income"%string -> le0 (row_Amount number t))).

Arguments row_Date {number} _.
Arguments row_Amount {number} _.
Arguments row_Category {number} _.
Arguments row_Description {number} _.
Arguments mkRow {number} _ _ _ _.
Arguments transactions_of {number} _.
Arguments data_file_of {number} _.
Arguments mkDashboard_of {number} _ _.

(** *** float64: the amounts the menu reads with [float], and every column
    that holds a number with a fraction. *)

Definition f64_pos (a : float) : bool := PrimFloat.ltb 0 a.
Definition f64_negative (a : float) : bool := PrimFloat.ltb a 0.

(** NaN is the one value that differs from itself. *)
Definition f64_isnan (a : float) : bool := negb (PrimFloat.eqb a a).

Definition f64_unordered (a : float) : Prop := f64_isnan a = true.
Definition f64_le0 (a : float) : Prop := PrimFloat.leb a 0 = true.
Definition f64_ge0 (a : float) : Prop := PrimFloat.leb 0 a = true.

Definition f64_apply_sign_convention : list (Row float) -> list (Row float) :=
  apply_sign_convention_of float PrimFloat.abs PrimFloat.opp.

Definition f64_normalize_amount : string -> float -> float :=
  normalize_amount_of float PrimFloat.abs PrimFloat.opp f64_pos f64_negative.

Definition f64_load_data :=
  load_data_of float PrimFloat.abs PrimFloat.opp.

Definition f64_add_transaction :=
  add_transaction_of float PrimFloat.abs PrimFloat.opp f64_pos f64_negative.

Definition f64_reachable :=
  reachable_of float PrimFloat.abs PrimFloat.opp PrimFloat.abs PrimFloat.opp
               f64_pos f64_negative.

(** *** int64: a column read from a file in which every amount is a whole
    number.  The column operations wrap around. *)

Definition int64_min : Z := - 2 ^ 63.
Definition int64_max : Z := 2 ^ 63 - 1.

Definition int64_wrap (z : Z) : Z := (z + 2 ^ 63) mod 2 ^ 64 - 2 ^ 63.

Definition int64_abs (z : Z) : Z := int64_wrap (Z.abs z).
Definition int64_neg (z : Z) : Z := int64_wrap (- z).

Definition int64_range (z : Z) : Prop := int64_min <= z <= int64_max.

(** The one int64 without a magnitude. *)
Definition int64_unordered (z : Z) : Prop := z = int64_min.

Definition int64_apply_sign_convention : list (Row Z) -> list (Row Z) :=
  apply_sign_convention_of Z int64_abs int64_neg.

(** *** The balance history on the numbers of the machine

    [get_balance_over_time_history] once more, on an Amount column of any
    number type, with the addition [num_add] of that type, its zero and its
    test for a missing value.  A group sum skips missing values and adds
    the amounts of the group in row order, starting from zero (on float64
    the library also compensates the rounding inside a group, which changes
    nothing in a group of one row); the running sum adds the daily sums in
    date order, and on float64 every addition is rounded. *)

Section MachineSums.
Variable number : Type.
Variable num_add : number -> number -> number.
Variable num_zero : number.
Variable num_isna : number -> bool.

Definition sum_of (l : list number) : number :=
  fold_left (fun s v => if num_isna v then s else num_add s v) l num_zero.

Definition groupby_sum_of (key : Row number -> Z) (df : list (Row number))
    : list (Z * number) :=
  map (fun k => (k, sum_of (map row_Amount (filter (fun t => key t =? k) df))))
      (sorted_unique Z.compare (map key df)).

Definition reindex_of (s : list (Z * number)) (index : list Z) (fill_value : number)
    : list (Z * number) :=
  map (fun k => (k, match lookup k s with Some v => v | None => fill_value end))
      index.

(** [Series.cumsum()] with its default [skipna=True]: a missing entry stays
    missing and counts as zero in the sum that runs on. *)
Fixpoint cumsum_from_of (acc : number) (s : list (Z * number)) : list (Z * number) :=
  match s with
  | [] => []
  | (k, v) :: s' =>
      if num_isna v then (k, v) :: cumsum_from_of acc s'
      else let acc := num_add acc v in (k, acc) :: cumsum_from_of acc s'
  end.

Definition cumsum_of (s : list (Z * number)) : list (Z * number) :=
  match s with
  | [] => []
  | (k, v) :: s' => (k, v) :: cumsum_from_of (if num_isna v then num_zero else v) s'
  end.

Definition get_balance_over_time_history_of (Date_dtype : dtype)
    (df : list (Row number)) : outcome (list (Z * number)) :=
  _ <- dt Date_dtype ;;
  let daily_sums := groupby_sum_of (fun t => date (row_Date t)) df in
  date_range <- date_range (Series_min (map row_Date df))
                           (Series_max (map row_Date df)) ;;
  let daily_sums := reindex_of daily_sums date_range num_zero in
  let cumulative_balance := cumsum_of daily_sums in
  Ok cumulative_balance.
End MachineSums.

(** On float64. *)
Definition f64_sum : list float -> float := sum_of float PrimFloat.add 0%float f64_isnan.

Definition f64_get_balance_over_time_history
    : dtype -> list (Row float) -> outcome (list (Z * float)) :=
  get_balance_over_time_history_of float PrimFloat.add 0%float f64_isnan.

(** On int64, where the addition wraps around and no value is missing. *)
Definition int64_add (a b : Z) : Z := int64_wrap (a + b).

Definition int64_get_balance_over_time_history
    : dtype -> list (Row Z) -> outcome (list (Z * Z)) :=
  get_balance_over_time_history_of Z int64_add 0 (fun _ => false).

(** On the integers themselves: the exact sums. *)
Definition exact_get_balance_over_time_history
    : dtype -> list (Row Z) -> outcome (list (Z * Z)) :=
  get_balance_over_time_history_of Z Z.add 0 (fun _ => false).

(** A table of whole amounts in a number type: [of_Z] is the number that
    stands for an integer. *)
Definition row_of_Z {number : Type} (of_Z : Z -> number) (t : Row Z) : Row number :=
  mkRow (row_Date t) (of_Z (row_Amount t)) (row_Category t) (row_Description t).

Definition Zsum (l : list Z) : Z := fold_right Z.add 0 l.

(** The sum of the magnitudes of the amounts of a table. *)
Definition magnitudes (df : list (Row Z)) : Z :=
  Zsum (map (fun t => Z.abs (row_Amount t)) df).

(** The addition of the type is exact on the integers up to [bound]. *)
Definition exact_up_to {number : Type} (num_add : number -> number -> number)
    (of_Z : Z -> number) (bound : Z) : Prop :=
  forall a b : Z,
    Z.abs a <= bound -> Z.abs b <= bound -> Z.abs (a + b) <= bound ->
    num_add (of_Z a) (of_Z b) = of_Z (a + b).

(** The rational number a finite float64 stands for (0 for the others). *)
Definition f64_exact (a : float) : Q :=
  match Prim2SF a with
  | S754_finite s m e =>
      let q := (inject_Z (Zpos m) * Qpower 2 e)%Q in
      if s then (- q)%Q else q
  | _ => 0%Q
  end.

(* ------------------------------------------------------------------ *)
(** * Properties *)

(** ** Calendar *)

Lemma civil_from_days_epoch : civil_from_days 0 = (1970, 1, 1).
Proof. reflexivity. Qed.

(** From 1950-01-01 to the end of 2079 the conversion agrees, day by day,
    with the calendar of month lengths and leap years. *)
Lemma civil_from_days_follows_calendar :
  civil_from_days (-7305) = (1950, 1, 1) /\
  calendar_steps_ok (Z.to_nat 47482) (-7305) = true /\
  civil_from_days (-7305 + 47482) = (2080, 1, 1).
Proof. vm_compute. repeat split. Qed.

Lemma iso_date_example :
  iso_date "2024-02-01" = Some (midnight 2024 2 1) /\
  civil_from_days (date (midnight 2024 2 1)) = (2024, 2, 1) /\
  to_period_M (midnight 2024 2 1) = month_period 2024 2.
Proof. repeat split. Qed.

(** ** Numbers *)

Lemma Qltb_lt (a b : Q) : Qltb a b = true <-> (a < b)%Q.
Proof.
  unfold Qltb. rewrite negb_true_iff. split.
  - intros H. apply Qnot_le_lt. intros Hle.
    apply Qle_bool_iff in Hle. congruence.
  - intros H. destruct (Qle_bool b a) eqn:E; [|reflexivity].
    apply Qle_bool_iff in E. exfalso. exact (Qlt_not_le _ _ H E).
Qed.

Lemma Qltb_ge (a b : Q) : Qltb a b = false <-> (b <= a)%Q.
Proof.
  unfold Qltb. rewrite negb_false_iff. apply Qle_bool_iff.
Qed.

Lemma is_Income_true (c : string) : is_Income c = true <-> c = "Income"%string.
Proof. apply String.eqb_eq. Qed.

Lemma is_Income_false (c : string) : is_Income c = false <-> c <> "Income"%string.
Proof. apply String.eqb_neq. Qed.

Lemma Qabs_fixed_nonneg (a : Q) : (0 <= a)%Q -> Qabs a = a.
Proof.
  destruct a as [n d]. unfold Qle. simpl. intros H.
  f_equal. apply Z.abs_eq. lia.
Qed.

Lemma Qopp_Qabs_fixed_nonpos (a : Q) : (a <= 0)%Q -> (- Qabs a)%Q = a.
Proof.
  destruct a as [n d]. unfold Qle. simpl. intros H.
  unfold Qopp. simpl. f_equal. rewrite Z.abs_neq by lia. lia.
Qed.

Lemma Qopp_Qabs_nonpos (a : Q) : (- Qabs a <= 0)%Q.
Proof. pose proof (Qabs_nonneg a). lra. Qed.

(** ** The sign convention *)

Lemma apply_sign_convention_map (df : DataFrame) :
  apply_sign_convention df = map sign_row df.
Proof.
  unfold apply_sign_convention, assign_Amount_where.
  rewrite map_map. apply map_ext. intros t. unfold sign_row.
  destruct (is_Income (Category t)) eqn:E; simpl; rewrite E; reflexivity.
Qed.

Lemma sign_row_ok (t : Transaction) : sign_ok (sign_row t).
Proof.
  unfold sign_ok, sign_row.
  destruct (is_Income (Category t)) eqn:E; simpl; split; intros H.
  - apply Qabs_nonneg.
  - apply is_Income_true in E. contradiction.
  - apply is_Income_false in E. contradiction.
  - apply Qopp_Qabs_nonpos.
Qed.

Lemma sign_row_fixed (t : Transaction) : sign_ok t -> sign_row t = t.
Proof.
  intros [Hi Ho]. unfold sign_row. destruct t as [dt a c ds]. simpl in *.
  unfold set_Amount. simpl.
  destruct (is_Income c) eqn:E.
  - apply is_Income_true in E. rewrite Qabs_fixed_nonneg; auto.
  - apply is_Income_false in E. rewrite Qopp_Qabs_fixed_nonpos; auto.
Qed.

Lemma sign_row_idempotent (t : Transaction) : sign_row (sign_row t) = sign_row t.
Proof. apply sign_row_fixed, sign_row_ok. Qed.

Lemma normalize_amount_ok (category : string) (amount : Q) (ts : Timestamp)
    (description : string) :
  sign_ok (mkTransaction ts (normalize_amount category amount) category description).
Proof.
  unfold sign_ok, normalize_amount. simpl.
  destruct (is_Income category) eqn:E; simpl.
  - split; intros H; [|apply is_Income_true in E; contradiction].
    destruct (Qltb amount 0) eqn:L.
    + apply Qabs_nonneg.
    + apply Qltb_ge in L. exact L.
  - split; intros H; [apply is_Income_false in E; contradiction|].
    destruct (Qltb 0 amount) eqn:L.
    + apply Qltb_lt in L. lra.
    + apply Qltb_ge in L. exact L.
Qed.

(** ** Sorting by date *)

Lemma insert_desc_perm (t : Transaction) (l : DataFrame) :
  Permutation (insert_desc t l) (t :: l).
Proof.
  induction l as [|u l IH]; simpl.
  - apply Permutation_refl.
  - destruct (Date t <? Date u).
    + rewrite IH. apply perm_swap.
    + apply Permutation_refl.
Qed.

Lemma sort_values_Date_desc_perm (df : DataFrame) :
  Permutation (sort_values_Date_desc df) df.
Proof.
  induction df as [|t df IH]; simpl.
  - constructor.
  - rewrite insert_desc_perm. constructor. exact IH.
Qed.

Lemma insert_desc_sorted (t : Transaction) (l : DataFrame) :
  StronglySorted date_desc l -> StronglySorted date_desc (insert_desc t l).
Proof.
  induction 1 as [|u l Hs IH Hu]; simpl.
  - repeat constructor.
  - destruct (Date t <? Date u) eqn:E.
    + apply Z.ltb_lt in E. constructor; [exact IH|].
      eapply Permutation_Forall.
      * symmetry. apply insert_desc_perm.
      * constructor; [unfold date_desc; lia | exact Hu].
    + apply Z.ltb_ge in E. constructor.
      * constructor; assumption.
      * constructor; [unfold date_desc; lia|].
        eapply Forall_impl; [|exact Hu]. unfold date_desc. intros; lia.
Qed.

Lemma sort_values_Date_desc_sorted (df : DataFrame) :
  StronglySorted date_desc (sort_values_Date_desc df).
Proof.
  induction df as [|t df IH]; simpl.
  - constructor.
  - apply insert_desc_sorted, IH.
Qed.

(** ** What [add_transaction] returns *)

Lemma add_transaction_ok to_datetime (d : Dashboard) (date : date_arg)
    (amount : Q) (category description : string) (ts : Timestamp) :
  parse_date to_datetime date = Ok ts ->
  add_transaction to_datetime d date amount category description =
  Ok (let df := sort_values_Date_desc
                  (transactions d ++
                   [mkTransaction ts (normalize_amount category amount)
                                  category description]) in
      mkDashboard df (Some df)).
Proof.
  intros H. unfold add_transaction. rewrite H. reflexivity.
Qed.

Lemma add_transaction_raise to_datetime (d : Dashboard) (date : date_arg)
    (amount : Q) (category description : string) (e : exn) :
  add_transaction to_datetime d date amount category description = Raise e <->
  parse_date to_datetime date = Raise e.
Proof.
  unfold add_transaction.
  destruct (parse_date to_datetime date); simpl; split; intros H;
    try discriminate; injection H as ->; reflexivity.
Qed.

(** ** Sorted indexes *)

Section SortedUniqueFacts.
Context {A : Type} (cmp : A -> A -> comparison).

Lemma insert_unique_In_inv (x z : A) (l : list A) :
  In z (insert_unique cmp x l) -> z = x \/ In z l.
Proof.
  induction l as [|y l IH]; simpl.
  - intros [H|[]]; auto.
  - destruct (cmp x y); simpl.
    + intros [H|H]; auto.
    + intros [H|[H|H]]; auto.
    + intros [H|H]; auto. destruct (IH H); auto.
Qed.

Lemma sorted_unique_In_inv (z : A) (l : list A) :
  In z (sorted_unique cmp l) -> In z l.
Proof.
  induction l as [|x l IH]; simpl; [auto|].
  intros H. apply insert_unique_In_inv in H. destruct H; auto.
Qed.

Hypothesis cmp_eq : forall a b, cmp a b = Eq -> a = b.

Lemma insert_unique_In (x z : A) (l : list A) :
  z = x \/ In z l -> In z (insert_unique cmp x l).
Proof.
  induction l as [|y l IH]; simpl.
  - intros [H|[]]; auto.
  - destruct (cmp x y) eqn:E; simpl.
    + apply cmp_eq in E. subst y. intros [H|[H|H]]; auto.
    + intros [H|[H|H]]; auto.
    + intros [H|[H|H]]; auto.
Qed.

Lemma sorted_unique_In (z : A) (l : list A) :
  In z l -> In z (sorted_unique cmp l).
Proof.
  induction l as [|x l IH]; simpl; [auto|].
  intros [H|H]; apply insert_unique_In; auto.
Qed.
End SortedUniqueFacts.

Lemma Z_compare_eq (a b : Z) : (a ?= b) = Eq -> a = b.
Proof. apply Z.compare_eq. Qed.

Lemma sorted_unique_Z_In (z : Z) (l : list Z) :
  In z (sorted_unique Z.compare l) <-> In z l.
Proof.
  split.
  - apply sorted_unique_In_inv.
  - apply sorted_unique_In, Z_compare_eq.
Qed.

Lemma sorted_unique_string_In (z : string) (l : list string) :
  In z (sorted_unique String.compare l) <-> In z l.
Proof.
  split.
  - apply sorted_unique_In_inv.
  - apply sorted_unique_In. intros a b. apply String.compare_eq_iff.
Qed.

Lemma insert_unique_Z_sorted (x : Z) (l : list Z) :
  StronglySorted Z.lt l -> StronglySorted Z.lt (insert_unique Z.compare x l).
Proof.
  induction 1 as [|y l Hs IH Hy]; simpl.
  - repeat constructor.
  - destruct (x ?= y) eqn:E.
    + constructor; assumption.
    + rewrite Z.compare_lt_iff in E. constructor.
      * constructor; assumption.
      * constructor; [exact E|].
        eapply Forall_impl; [|exact Hy]. intros a Ha. lia.
    + rewrite Z.compare_gt_iff in E. constructor; [exact IH|].
      apply Forall_forall. intros z Hz.
      apply insert_unique_In_inv in Hz. destruct Hz as [->|Hz]; [exact E|].
      rewrite Forall_forall in Hy. auto.
Qed.

Lemma sorted_unique_Z_sorted (l : list Z) :
  StronglySorted Z.lt (sorted_unique Z.compare l).
Proof.
  induction l as [|x l IH]; simpl.
  - constructor.
  - apply insert_unique_Z_sorted, IH.
Qed.

(** ** Series *)

Lemma lookup_tabulate_In {V : Type} (f : Z -> V) (k : Z) (keys : list Z) :
  In k keys -> lookup k (map (fun k => (k, f k)) keys) = Some (f k).
Proof.
  induction keys as [|k' keys IH]; simpl; [intros []|].
  intros H. destruct (k' =? k) eqn:E.
  - apply Z.eqb_eq in E. subst. reflexivity.
  - apply Z.eqb_neq in E. destruct H as [H|H]; [contradiction|auto].
Qed.

Lemma lookup_tabulate_notin {V : Type} (f : Z -> V) (k : Z) (keys : list Z) :
  ~ In k keys -> lookup k (map (fun k => (k, f k)) keys) = None.
Proof.
  induction keys as [|k' keys IH]; simpl; [reflexivity|].
  intros H. destruct (k' =? k) eqn:E.
  - apply Z.eqb_eq in E. subst. exfalso. auto.
  - apply IH. auto.
Qed.

Lemma group_nil_iff (key : Transaction -> Z) (k : Z) (df : DataFrame) :
  group key k df = [] <-> ~ In k (map key df).
Proof.
  unfold group. induction df as [|t df IH]; simpl.
  - tauto.
  - destruct (key t =? k) eqn:E.
    + apply Z.eqb_eq in E. split; [discriminate|]. intros H. exfalso. auto.
    + apply Z.eqb_neq in E. rewrite IH. tauto.
Qed.

(** The grouped sum of a key, read back from the Series. *)
Lemma lookup_groupby_sum (key : Transaction -> Z) (k : Z) (df : DataFrame) :
  lookup k (groupby_sum key df) =
  if existsb (Z.eqb k) (map key df)
  then Some (Qsum (map Amount (group key k df)))
  else None.
Proof.
  unfold groupby_sum.
  destruct (existsb (Z.eqb k) (map key df)) eqn:E.
  - apply existsb_exists in E. destruct E as [k' [Hin Hk]].
    apply Z.eqb_eq in Hk. subst k'.
    apply (lookup_tabulate_In (fun k => Qsum (map Amount (group key k df)))).
    apply sorted_unique_Z_In. exact Hin.
  - apply (lookup_tabulate_notin (fun k => Qsum (map Amount (group key k df)))).
    intros Hin. apply (proj1 (sorted_unique_Z_In _ _)) in Hin.
    assert (existsb (Z.eqb k) (map key df) = true); [|congruence].
    apply existsb_exists. exists k. split; [exact Hin|apply Z.eqb_refl].
Qed.

Lemma reindex_groupby_sum (key : Transaction -> Z) (df : DataFrame) (idx : list Z) :
  reindex (groupby_sum key df) idx 0 =
  map (fun k => (k, Qsum (map Amount (group key k df)))) idx.
Proof.
  unfold reindex. apply map_ext. intros k. f_equal.
  rewrite lookup_groupby_sum.
  destruct (existsb (Z.eqb k) (map key df)) eqn:E; [reflexivity|].
  assert (H : group key k df = []).
  { apply group_nil_iff. intros Hin.
    assert (existsb (Z.eqb k) (map key df) = true); [|congruence].
    apply existsb_exists. exists k. split; [exact Hin|apply Z.eqb_refl]. }
  rewrite H. reflexivity.
Qed.

Lemma Qsum_partition (p : Transaction -> bool) (df : DataFrame) :
  (Qsum (map Amount df) ==
   Qsum (map Amount (filter p df)) +
   Qsum (map Amount (filter (fun t => negb (p t)) df)))%Q.
Proof.
  induction df as [|t df IH]; simpl.
  - lra.
  - destruct (p t); simpl; rewrite IH; lra.
Qed.

Lemma group_filter_other (key : Transaction -> Z) (k k0 : Z) (df : DataFrame) :
  k <> k0 ->
  group key k (filter (fun t => negb (key t =? k0)) df) = group key k df.
Proof.
  intros Hk. unfold group. induction df as [|t df IH]; simpl; [reflexivity|].
  destruct (key t =? k0) eqn:E0; simpl.
  - apply Z.eqb_eq in E0.
    destruct (key t =? k) eqn:E; [apply Z.eqb_eq in E; congruence|exact IH].
  - destruct (key t =? k); [f_equal|]; exact IH.
Qed.

(** Summing the groups of every key of a duplicate-free index that covers
    the table gives the sum of the whole column. *)
Lemma Qsum_groups (key : Transaction -> Z) (idx : list Z) :
  NoDup idx ->
  forall df : DataFrame,
    (forall t, In t df -> In (key t) idx) ->
    (Qsum (map (fun k => Qsum (map Amount (group key k df))) idx) ==
     Qsum (map Amount df))%Q.
Proof.
  induction 1 as [|k0 idx Hk0 Hnd IH]; intros df Hcover.
  - destruct df as [|t df]; [simpl; lra|].
    exfalso. exact (Hcover t (or_introl eq_refl)).
  - simpl.
    rewrite (Qsum_partition (fun t => key t =? k0) df).
    fold (group key k0 df).
    set (rest := filter (fun t => negb (key t =? k0)) df).
    assert (Hrest : forall t, In t rest -> In (key t) idx).
    { intros t Ht. apply filter_In in Ht. destruct Ht as [Ht Hne].
      apply negb_true_iff, Z.eqb_neq in Hne.
      destruct (Hcover t Ht) as [H|H]; [congruence|exact H]. }
    rewrite <- (IH rest Hrest).
    assert (Heq : map (fun k => Qsum (map Amount (group key k rest))) idx =
                  map (fun k => Qsum (map Amount (group key k df))) idx).
    { apply map_ext_in. intros k Hk. unfold rest.
      rewrite group_filter_other; [reflexivity|].
      intros ->. contradiction. }
    rewrite Heq. lra.
Qed.

Lemma last_cons {A : Type} (a d : A) (l : list A) : last (a :: l) d = last l a.
Proof.
  revert a d. induction l as [|b l IH]; intros a d; [reflexivity|].
  change (last (a :: b :: l) d) with (last (b :: l) d).
  rewrite (IH b d). symmetry. apply IH.
Qed.

Lemma cumsum_from_fst (acc : Q) (s : Series) :
  map fst (cumsum_from acc s) = map fst s.
Proof.
  revert acc. induction s as [|[k v] s IH]; intros acc; simpl; [reflexivity|].
  f_equal. apply IH.
Qed.

Lemma cumsum_fst (s : Series) : map fst (cumsum s) = map fst s.
Proof.
  destruct s as [|[k v] s]; simpl; [reflexivity|].
  f_equal. apply cumsum_from_fst.
Qed.

Lemma cumsum_from_last (acc : Q) (s : Series) :
  (last (map snd (cumsum_from acc s)) acc == acc + Qsum (map snd s))%Q.
Proof.
  revert acc. induction s as [|[k v] s IH]; intros acc; simpl map.
  - simpl. lra.
  - rewrite last_cons. rewrite IH. simpl. lra.
Qed.

(** The last value of a running sum is the sum of the column. *)
Lemma cumsum_last (s : Series) (d : Q) :
  s <> [] -> (last (map snd (cumsum s)) d == Qsum (map snd s))%Q.
Proof.
  destruct s as [|[k v] s]; [congruence|]. intros _.
  simpl map. rewrite last_cons. rewrite cumsum_from_last. simpl. lra.
Qed.

(** ** The range of dates *)

Lemma fold_min_spec (l : list Z) (x : Z) :
  In (fold_left Z.min l x) (x :: l) /\
  forall y, In y (x :: l) -> fold_left Z.min l x <= y.
Proof.
  revert x. induction l as [|a l IH]; intros x; simpl.
  - split; [auto|]. intros y [->|[]]. lia.
  - destruct (IH (Z.min x a)) as [Hin Hle]. split.
    + destruct Hin as [Hin|Hin]; [|auto].
      rewrite <- Hin. destruct (Z.min_spec x a) as [[_ ->]|[_ ->]]; auto.
    + intros y Hy.
      assert (Hm : fold_left Z.min l (Z.min x a) <= Z.min x a)
        by (apply Hle; left; reflexivity).
      destruct Hy as [<-|[<-|Hy]]; [lia|lia|].
      apply Hle. right. exact Hy.
Qed.

Lemma fold_max_spec (l : list Z) (x : Z) :
  In (fold_left Z.max l x) (x :: l) /\
  forall y, In y (x :: l) -> y <= fold_left Z.max l x.
Proof.
  revert x. induction l as [|a l IH]; intros x; simpl.
  - split; [auto|]. intros y [->|[]]. lia.
  - destruct (IH (Z.max x a)) as [Hin Hle]. split.
    + destruct Hin as [Hin|Hin]; [|auto].
      rewrite <- Hin. destruct (Z.max_spec x a) as [[_ ->]|[_ ->]]; auto.
    + intros y Hy.
      assert (Hm : Z.max x a <= fold_left Z.max l (Z.max x a))
        by (apply Hle; left; reflexivity).
      destruct Hy as [<-|[<-|Hy]]; [lia|lia|].
      apply Hle. right. exact Hy.
Qed.

Lemma date_monotone (a b : Timestamp) : a <= b -> date a <= date b.
Proof.
  intros H. unfold date. apply Z.div_le_mono; [reflexivity|exact H].
Qed.

Lemma days_between_In (first last k : Z) :
  In k (days_between first last) <-> first <= k <= last.
Proof.
  unfold days_between. rewrite in_map_iff. split.
  - intros [i [<- Hi]]. apply in_seq in Hi. lia.
  - intros H. exists (Z.to_nat (k - first)). split; [lia|].
    apply in_seq. lia.
Qed.

Lemma days_between_NoDup (first last : Z) : NoDup (days_between first last).
Proof.
  unfold days_between. apply Finite.Injective_map_NoDup.
  - intros i j H. lia.
  - apply seq_NoDup.
Qed.

Lemma days_between_length (first last : Z) :
  length (days_between first last) = Z.to_nat (last - first + 1).
Proof. unfold days_between. rewrite length_map, length_seq. reflexivity. Qed.

(** ** Balance history *)

Lemma balance_history_nonempty (df : DataFrame) :
  df <> [] ->
  exists (h : Series) (first_day last_day : Z),
    get_balance_over_time_history df = Ok h /\
    (exists t, In t df /\ date (Date t) = first_day) /\
    (exists t, In t df /\ date (Date t) = last_day) /\
    (forall t, In t df -> first_day <= date (Date t) <= last_day) /\
    map fst h = days_between first_day last_day /\
    length h = Z.to_nat (last_day - first_day + 1) /\
    (last (map snd h) 0 == Qsum (map Amount df))%Q.
Proof.
  destruct df as [|t0 df]; [congruence|]. intros _.
  set (all := t0 :: df).
  destruct (fold_min_spec (map Date df) (Date t0)) as [Hlo_in Hlo].
  destruct (fold_max_spec (map Date df) (Date t0)) as [Hhi_in Hhi].
  set (lo := fold_left Z.min (map Date df) (Date t0)) in *.
  set (hi := fold_left Z.max (map Date df) (Date t0)) in *.
  change (Date t0 :: map Date df) with (map Date all) in *.
  assert (Hcover : forall t, In t all -> date lo <= date (Date t) <= date hi).
  { intros t Ht. split; apply date_monotone.
    - apply Hlo. apply in_map. exact Ht.
    - apply Hhi. apply in_map. exact Ht. }
  set (s := reindex (groupby_sum (fun t => date (Date t)) all)
                    (days_between (date lo) (date hi)) 0).
  exists (cumsum s), (date lo), (date hi).
  assert (Hs : s = map (fun k => (k, Qsum (map Amount
                          (group (fun t => date (Date t)) k all))))
                   (days_between (date lo) (date hi)))
    by apply reindex_groupby_sum.
  assert (Hfst : map fst s = days_between (date lo) (date hi)).
  { rewrite Hs, map_map. simpl. apply map_id. }
  assert (Hne : s <> []).
  { intros E. rewrite E in Hfst. simpl in Hfst.
    assert (Hin : In (date (Date t0)) (days_between (date lo) (date hi))).
    { apply days_between_In. apply Hcover. left. reflexivity. }
    rewrite <- Hfst in Hin. exact Hin. }
  split; [reflexivity|].
  split.
  { apply in_map_iff in Hlo_in. destruct Hlo_in as [t [Ht Hin]].
    exists t. split; [exact Hin|]. rewrite Ht. reflexivity. }
  split.
  { apply in_map_iff in Hhi_in. destruct Hhi_in as [t [Ht Hin]].
    exists t. split; [exact Hin|]. rewrite Ht. reflexivity. }
  split; [exact Hcover|].
  split; [rewrite cumsum_fst; exact Hfst|].
  split.
  { rewrite <- (length_map fst), cumsum_fst, Hfst. apply days_between_length. }
  rewrite (cumsum_last s 0 Hne). rewrite Hs, map_map.
  apply (Qsum_groups (fun t => date (Date t)) _ (days_between_NoDup _ _) all).
  intros t Ht. apply days_between_In. apply Hcover. exact Ht.
Qed.

(** ** Balance history on the two dtypes of the Date column *)

Lemma get_balance_over_time_history_on_datetime64 (df : DataFrame) :
  get_balance_over_time_history_on datetime64 df = get_balance_over_time_history df.
Proof. reflexivity. Qed.

(** ** Sums of the machine on whole amounts *)

Lemma Zsum_partition (f : Row Z -> Z) (p : Row Z -> bool) (df : list (Row Z)) :
  Zsum (map f df) =
  Zsum (map f (filter p df)) + Zsum (map f (filter (fun t => negb (p t)) df)).
Proof.
  induction df as [|t df IH]; simpl; [reflexivity|].
  destruct (p t); simpl; rewrite IH; lia.
Qed.

Lemma Zsum_nonneg (f : Row Z -> Z) (df : list (Row Z)) :
  (forall t, 0 <= f t) -> 0 <= Zsum (map f df).
Proof.
  intros Hf. induction df as [|t df IH]; simpl; [lia|]. specialize (Hf t). lia.
Qed.

Lemma Zsum_abs_le (df : list (Row Z)) :
  Z.abs (Zsum (map row_Amount df)) <= magnitudes df.
Proof.
  unfold magnitudes. induction df as [|t df IH]; simpl; lia.
Qed.

Lemma magnitudes_nonneg (df : list (Row Z)) : 0 <= magnitudes df.
Proof. apply Zsum_nonneg. intros t. lia. Qed.

Lemma magnitudes_filter_le (p : Row Z -> bool) (df : list (Row Z)) :
  magnitudes (filter p df) <= magnitudes df.
Proof.
  unfold magnitudes.
  rewrite (Zsum_partition (fun t => Z.abs (row_Amount t)) p df).
  pose proof (Zsum_nonneg (fun t => Z.abs (row_Amount t))
                (filter (fun t => negb (p t)) df) ltac:(intros; lia)).
  lia.
Qed.

Lemma rows_filter_other (key : Row Z -> Z) (k k0 : Z) (df : list (Row Z)) :
  k <> k0 ->
  filter (fun t => key t =? k) (filter (fun t => negb (key t =? k0)) df) =
  filter (fun t => key t =? k) df.
Proof.
  intros Hk. induction df as [|t df IH]; simpl; [reflexivity|].
  destruct (key t =? k0) eqn:E0; simpl.
  - apply Z.eqb_eq in E0.
    destruct (key t =? k) eqn:E; [apply Z.eqb_eq in E; congruence|exact IH].
  - destruct (key t =? k); [f_equal|]; exact IH.
Qed.

(** Summing the groups of a duplicate-free index that covers the table
    gives the sum of the whole column. *)
Lemma Zsum_groups (f : Row Z -> Z) (key : Row Z -> Z) (idx : list Z) :
  NoDup idx ->
  forall df : list (Row Z),
    (forall t, In t df -> In (key t) idx) ->
    Zsum (map (fun k => Zsum (map f (filter (fun t => key t =? k) df))) idx) =
    Zsum (map f df).
Proof.
  induction 1 as [|k0 idx Hk0 Hnd IH]; intros df Hcover.
  - destruct df as [|t df]; [reflexivity|].
    exfalso. exact (Hcover t (or_introl eq_refl)).
  - cbn [map Zsum fold_right].
    rewrite (Zsum_partition f (fun t => key t =? k0) df).
    set (rest := filter (fun t => negb (key t =? k0)) df).
    assert (Hrest : forall t, In t rest -> In (key t) idx).
    { intros t Ht. apply filter_In in Ht. destruct Ht as [Ht Hne].
      apply negb_true_iff, Z.eqb_neq in Hne.
      destruct (Hcover t Ht) as [H|H]; [congruence|exact H]. }
    rewrite <- (IH rest Hrest). f_equal.
    change (fold_right Z.add 0) with Zsum. f_equal.
    apply map_ext_in. intros k Hk. unfold rest.
    rewrite rows_filter_other; [reflexivity|].
    intros ->. contradiction.
Qed.

(** The groups of a duplicate-free index hold no more than the table. *)
Lemma magnitudes_groups_le (key : Row Z -> Z) (idx : list Z) :
  NoDup idx ->
  forall df : list (Row Z),
    Zsum (map (fun k => magnitudes (filter (fun t => key t =? k) df)) idx) <=
    magnitudes df.
Proof.
  induction 1 as [|k0 idx Hk0 Hnd IH]; intros df.
  - simpl. apply magnitudes_nonneg.
  - cbn [map Zsum fold_right]. change (fold_right Z.add 0) with Zsum.
    unfold magnitudes at 3.
    rewrite (Zsum_partition (fun t => Z.abs (row_Amount t))
               (fun t => key t =? k0) df).
    fold (magnitudes (filter (fun t => key t =? k0) df)).
    fold (magnitudes (filter (fun t => negb (key t =? k0)) df)).
    specialize (IH (filter (fun t => negb (key t =? k0)) df)).
    assert (Heq : map (fun k => magnitudes (filter (fun t => key t =? k)
                         (filter (fun t => negb (key t =? k0)) df))) idx =
                  map (fun k => magnitudes (filter (fun t => key t =? k) df)) idx).
    { apply map_ext_in. intros k Hk.
      rewrite rows_filter_other; [reflexivity|]. intros ->. contradiction. }
    rewrite Heq in IH. lia.
Qed.

Lemma rows_group_nil (key : Row Z -> Z) (k : Z) (df : list (Row Z)) :
  ~ In k (map key df) -> filter (fun t => key t =? k) df = [].
Proof.
  induction df as [|t df IH]; simpl; [reflexivity|].
  intros Hn. destruct (key t =? k) eqn:E.
  - apply Z.eqb_eq in E. exfalso. auto.
  - apply IH. auto.
Qed.

Lemma exact_cumsum_from_last (acc : Z) (s : list (Z * Z)) :
  last (map snd (cumsum_from_of Z Z.add (fun _ => false) acc s)) acc =
  acc + Zsum (map snd s).
Proof.
  revert acc. induction s as [|[k v] s IH]; intros acc; [simpl; lia|].
  cbn [cumsum_from_of map snd]. rewrite last_cons, IH. simpl. lia.
Qed.

Lemma exact_cumsum_last (s : list (Z * Z)) (d : Z) :
  s <> [] ->
  last (map snd (cumsum_of Z Z.add 0 (fun _ => false) s)) d = Zsum (map snd s).
Proof.
  destruct s as [|[k v] s]; [congruence|]. intros _.
  cbn [cumsum_of map snd]. rewrite last_cons.
  rewrite exact_cumsum_from_last. reflexivity.
Qed.

Section MachineSumsFacts.
Variable number : Type.
Variable num_add : number -> number -> number.
Variable num_zero : number.
Variable num_isna : number -> bool.
Variable of_Z : Z -> number.
Variable bound : Z.

Hypothesis add_exact : exact_up_to num_add of_Z bound.
Hypothesis zero_exact : num_zero = of_Z 0.
Hypothesis never_na : forall z : Z, num_isna (of_Z z) = false.

Lemma sum_of_from_exact (l : list Z) :
  forall acc : Z,
    Z.abs acc + Zsum (map Z.abs l) <= bound ->
    fold_left (fun s v => if num_isna v then s else num_add s v)
              (map of_Z l) (of_Z acc) =
    of_Z (acc + Zsum l).
Proof.
  induction l as [|a l IH]; intros acc Hb; simpl in *.
  - f_equal. lia.
  - assert (H0 : 0 <= Zsum (map Z.abs l)).
    { clear. induction l as [|b l IH]; simpl; lia. }
    rewrite never_na, add_exact by lia.
    rewrite IH by lia. f_equal. lia.
Qed.

Lemma sum_of_exact (df : list (Row Z)) :
  magnitudes df <= bound ->
  sum_of number num_add num_zero num_isna (map of_Z (map row_Amount df)) =
  of_Z (Zsum (map row_Amount df)).
Proof.
  intros Hb. unfold sum_of. rewrite zero_exact.
  rewrite sum_of_from_exact; [reflexivity|].
  unfold magnitudes in Hb. rewrite map_map. simpl. exact Hb.
Qed.

Lemma filter_row_of_Z (k : Z) (df : list (Row Z)) :
  filter (fun t => date (row_Date t) =? k) (map (row_of_Z of_Z) df) =
  map (row_of_Z of_Z) (filter (fun t => date (row_Date t) =? k) df).
Proof.
  induction df as [|t df IH]; simpl; [reflexivity|].
  destruct (date (row_Date t) =? k); simpl; [f_equal|]; exact IH.
Qed.

Lemma cumsum_from_of_exact (s : list (Z * Z)) :
  forall acc : Z,
    Z.abs acc + Zsum (map (fun kv => Z.abs (snd kv)) s) <= bound ->
    cumsum_from_of number num_add num_isna (of_Z acc)
      (map (fun kv => (fst kv, of_Z (snd kv))) s) =
    map (fun kv => (fst kv, of_Z (snd kv)))
        (cumsum_from_of Z Z.add (fun _ => false) acc s).
Proof.
  induction s as [|[k v] s IH]; intros acc Hb; simpl in *; [reflexivity|].
  assert (H0 : 0 <= Zsum (map (fun kv => Z.abs (snd kv)) s)).
  { clear. induction s as [|b s IH]; simpl; lia. }
  rewrite never_na, add_exact by lia. simpl. f_equal. apply IH. lia.
Qed.

Lemma cumsum_of_exact (s : list (Z * Z)) :
  Zsum (map (fun kv => Z.abs (snd kv)) s) <= bound ->
  cumsum_of number num_add num_zero num_isna
    (map (fun kv => (fst kv, of_Z (snd kv))) s) =
  map (fun kv => (fst kv, of_Z (snd kv)))
      (cumsum_of Z Z.add 0 (fun _ => false) s).
Proof.
  destruct s as [|[k v] s]; intros Hb; simpl in *; [reflexivity|].
  rewrite never_na. f_equal. apply cumsum_from_of_exact. exact Hb.
Qed.

(** On a table of whole amounts whose magnitudes add up to no more than the
    bound up to which the addition is exact, the balance history of the
    machine is the exact one, and it ends at the sum of all amounts. *)
Lemma machine_balance_history (df : list (Row Z)) :
  df <> [] ->
  magnitudes df <= bound ->
  exists hz : list (Z * Z),
    exact_get_balance_over_time_history datetime64 df = Ok hz /\
    get_balance_over_time_history_of number num_add num_zero num_isna datetime64
      (map (row_of_Z of_Z) df) =
      Ok (map (fun kv => (fst kv, of_Z (snd kv))) hz) /\
    last (map snd hz) 0 = Zsum (map row_Amount df) /\
    last (map snd (map (fun kv => (fst kv, of_Z (snd kv))) hz)) num_zero =
      of_Z (Zsum (map row_Amount df)).
Proof.
  intros Hne Hb.
  destruct df as [|t0 df]; [congruence|]. clear Hne.
  set (all := t0 :: df) in *.
  set (key := fun t : Row Z => date (row_Date t)).
  destruct (fold_min_spec (map row_Date df) (row_Date t0)) as [_ Hlo].
  destruct (fold_max_spec (map row_Date df) (row_Date t0)) as [_ Hhi].
  set (lo := fold_left Z.min (map row_Date df) (row_Date t0)) in *.
  set (hi := fold_left Z.max (map row_Date df) (row_Date t0)) in *.
  set (days := days_between (date lo) (date hi)).
  set (g := fun k : Z => Zsum (map row_Amount (filter (fun t => key t =? k) all))).
  assert (Hcover : forall t, In t all -> In (key t) days).
  { intros t Ht. apply days_between_In. unfold key. split; apply date_monotone.
    - apply Hlo. change (In (row_Date t) (map row_Date all)). apply in_map, Ht.
    - apply Hhi. change (In (row_Date t) (map row_Date all)). apply in_map, Ht. }
  assert (Hdays : days <> []).
  { intros E. specialize (Hcover t0 (or_introl eq_refl)). rewrite E in Hcover.
    exact Hcover. }
  assert (Hrange : date_range (Series_min (map row_Date all))
                              (Series_max (map row_Date all)) = Ok days)
    by reflexivity.
  assert (Hreindex_exact :
            reindex_of Z (groupby_sum_of Z Z.add 0 (fun _ => false) key all) days 0 =
            map (fun k => (k, g k)) days).
  { unfold reindex_of, groupby_sum_of. apply map_ext. intros k. f_equal.
    destruct (in_dec Z.eq_dec k (sorted_unique Z.compare (map key all))) as [Hin|Hin].
    - rewrite (lookup_tabulate_In
                 (fun k => sum_of Z Z.add 0 (fun _ => false)
                             (map row_Amount (filter (fun t => key t =? k) all)))
                 k _ Hin).
      unfold sum_of, g.
      generalize (map row_Amount (filter (fun t => key t =? k) all)). intros l.
      assert (H : forall acc, fold_left (fun s v : Z => s + v) l acc = acc + Zsum l).
      { induction l as [|a l IH]; intros acc; simpl; [lia|]. rewrite IH. lia. }
      apply H.
    - rewrite (lookup_tabulate_notin
                 (fun k => sum_of Z Z.add 0 (fun _ => false)
                             (map row_Amount (filter (fun t => key t =? k) all)))
                 k _ Hin).
      unfold g. rewrite rows_group_nil; [reflexivity|].
      intros H. apply Hin. apply sorted_unique_Z_In. exact H. }
  assert (Hexact : exact_get_balance_over_time_history datetime64 all =
                   Ok (cumsum_of Z Z.add 0 (fun _ => false)
                         (map (fun k => (k, g k)) days))).
  { unfold exact_get_balance_over_time_history, get_balance_over_time_history_of.
    cbn [dt bind]. rewrite Hrange. cbn [bind].
    change (fun t : Row Z => date (row_Date t)) with key.
    rewrite Hreindex_exact. reflexivity. }
  assert (Hgroup_b : forall k, magnitudes (filter (fun t => key t =? k) all) <= bound).
  { intros k. pose proof (magnitudes_filter_le (fun t => key t =? k) all). lia. }
  assert (Hreindex :
            reindex_of number
              (groupby_sum_of number num_add num_zero num_isna
                 (fun t => date (row_Date t)) (map (row_of_Z of_Z) all))
              days num_zero =
            map (fun kv => (fst kv, of_Z (snd kv))) (map (fun k => (k, g k)) days)).
  { unfold reindex_of, groupby_sum_of.
    rewrite (map_map (fun k => (k, g k))). cbn [fst snd].
    apply map_ext. intros k. f_equal.
    assert (Hkeys : map (fun t : Row number => date (row_Date t))
                        (map (row_of_Z of_Z) all) = map key all).
    { rewrite map_map. reflexivity. }
    rewrite Hkeys.
    assert (Hsum : forall k,
               sum_of number num_add num_zero num_isna
                 (map row_Amount
                    (filter (fun t => date (row_Date t) =? k)
                            (map (row_of_Z of_Z) all))) = of_Z (g k)).
    { intros k'. rewrite filter_row_of_Z, map_map.
      rewrite <- (map_map row_Amount of_Z).
      apply sum_of_exact. apply Hgroup_b. }
    destruct (in_dec Z.eq_dec k (sorted_unique Z.compare (map key all))) as [Hin|Hin].
    - rewrite (lookup_tabulate_In
                 (fun k => sum_of number num_add num_zero num_isna
                             (map row_Amount
                                (filter (fun t => date (row_Date t) =? k)
                                        (map (row_of_Z of_Z) all))))
                 k _ Hin).
      apply Hsum.
    - rewrite (lookup_tabulate_notin
                 (fun k => sum_of number num_add num_zero num_isna
                             (map row_Amount
                                (filter (fun t => date (row_Date t) =? k)
                                        (map (row_of_Z of_Z) all))))
                 k _ Hin).
      rewrite zero_exact. f_equal. unfold g.
      rewrite rows_group_nil; [reflexivity|].
      intros H. apply Hin. apply sorted_unique_Z_In. exact H. }
  assert (Hdaily_b : Zsum (map (fun kv : Z * Z => Z.abs (snd kv))
                             (map (fun k => (k, g k)) days)) <= bound).
  { rewrite map_map. cbn [snd].
    pose proof (magnitudes_groups_le key days (days_between_NoDup _ _) all) as Hle.
    assert (Hterm : forall l : list Z,
              Zsum (map (fun k => Z.abs (g k)) l) <=
              Zsum (map (fun k => magnitudes (filter (fun t => key t =? k) all)) l)).
    { intros l. induction l as [|k l IH]; [simpl; lia|].
      cbn [map]. change (Zsum (?x :: ?r)) with (x + Zsum r).
      pose proof (Zsum_abs_le (filter (fun t => key t =? k) all)) as Hk.
      change (Zsum (map row_Amount (filter (fun t => key t =? k) all))) with (g k) in Hk.
      lia. }
    specialize (Hterm days).
    lia. }
  assert (Hmachine :
            get_balance_over_time_history_of number num_add num_zero num_isna
              datetime64 (map (row_of_Z of_Z) all) =
            Ok (map (fun kv => (fst kv, of_Z (snd kv)))
                    (cumsum_of Z Z.add 0 (fun _ => false)
                       (map (fun k => (k, g k)) days)))).
  { unfold get_balance_over_time_history_of. cbn [dt bind].
    assert (Hdates : map row_Date (map (row_of_Z of_Z) all) = map row_Date all).
    { rewrite map_map. reflexivity. }
    rewrite Hdates, Hrange. cbn [bind].
    rewrite Hreindex. rewrite cumsum_of_exact by exact Hdaily_b. reflexivity. }
  assert (Hlast : last (map snd (cumsum_of Z Z.add 0 (fun _ => false)
                                   (map (fun k => (k, g k)) days))) 0 =
                  Zsum (map row_Amount all)).
  { rewrite exact_cumsum_last.
    - rewrite map_map. cbn [snd].
      apply (Zsum_groups row_Amount key days (days_between_NoDup _ _) all Hcover).
    - intros E. apply map_eq_nil in E. contradiction. }
  eexists. split; [exact Hexact|]. split; [exact Hmachine|]. split; [exact Hlast|].
  rewrite map_map. cbn [snd].
  rewrite <- (map_map snd of_Z).
  rewrite zero_exact.
  rewrite <- Hlast.
  generalize (map snd (cumsum_of Z Z.add 0 (fun _ => false)
                         (map (fun k => (k, g k)) days))).
  intros l. generalize 0. induction l as [|a l IH]; intros d; [reflexivity|].
  destruct l as [|b l]; [reflexivity|].
  change (last (map of_Z (b :: l)) (of_Z d) = of_Z (last (b :: l) d)).
  apply IH.
Qed.
End MachineSumsFacts.

Lemma int64_add_exact : exact_up_to int64_add (fun z => z) int64_max.
Proof.
  intros a b Ha Hb Hab. unfold int64_add, int64_wrap, int64_max in *.
  rewrite Z.mod_small; lia.
Qed.

Lemma map_row_of_Z_id (df : list (Row Z)) : map (row_of_Z (fun z => z)) df = df.
Proof.
  induction df as [|[d a c s] df IH]; simpl; [reflexivity|].
  rewrite IH. reflexivity.
Qed.

(** C3 (as the code has it): on a non-empty store whose Date column is a
    datetime column the balance history has one entry per calendar day from
    the earliest to the latest transaction date, both included, so its
    length is the inclusive day count.  Its last value is the running sum of
    the daily sums in the arithmetic of the Amount column.  It is the sum of
    all amounts when the amounts are whole numbers that stay within the
    bound up to which the addition of the column is exact: this holds on
    every number type with such an addition, and so on an int64 column
    whose magnitudes add up to at most 2^63 - 1.  On the store of scenario A
    the history is [(2024-01-01, -50); (2024-01-02, 950)], on exact numbers,
    on int64 and on float64.  On a Date column of dtype object there is no
    history: the call fails with AttributeError. *)
Theorem balance_history_spec :
  (forall df : DataFrame, df <> [] ->
     exists (h : Series) (first_day last_day : Z),
       get_balance_over_time_history_on datetime64 df = Ok h /\
       (exists t, In t df /\ date (Date t) = first_day) /\
       (exists t, In t df /\ date (Date t) = last_day) /\
       (forall t, In t df -> first_day <= date (Date t) <= last_day) /\
       map fst h = days_between first_day last_day /\
       length h = Z.to_nat (last_day - first_day + 1)) /\
  (forall (number : Type) (num_add : number -> number -> number)
          (num_zero : number) (num_isna : number -> bool)
          (of_Z : Z -> number) (bound : Z),
     exact_up_to num_add of_Z bound ->
     num_zero = of_Z 0 ->
     (forall z : Z, num_isna (of_Z z) = false) ->
     forall df : list (Row Z), df <> [] -> magnitudes df <= bound ->
       exists h : list (Z * number),
         get_balance_over_time_history_of number num_add num_zero num_isna
           datetime64 (map (row_of_Z of_Z) df) = Ok h /\
         last (map snd h) num_zero = of_Z (Zsum (map row_Amount df))) /\
  (forall df : list (Row Z), df <> [] -> magnitudes df <= int64_max ->
     exists h : list (Z * Z),
       int64_get_balance_over_time_history datetime64 df = Ok h /\
       last (map snd h) 0 = Zsum (map row_Amount df)) /\
  (forall df : DataFrame,
     get_balance_over_time_history_on object df = Raise "AttributeError"%string) /\
  (get_balance_over_time_history_on datetime64
     [on_day 2024 1 1 (-50) "Food" "lunch"; on_day 2024 1 2 1000 "Income" "salary"] =
   Ok [(days_from_civil 2024 1 1, (-50)%Q); (days_from_civil 2024 1 2, 950%Q)] /\
   int64_get_balance_over_time_history datetime64
     [mkRow (midnight 2024 1 1) (-50) "Food"%string "lunch"%string;
      mkRow (midnight 2024 1 2) 1000 "Income"%string "salary"%string] =
   Ok [(days_from_civil 2024 1 1, -50); (days_from_civil 2024 1 2, 950)] /\
   f64_get_balance_over_time_history datetime64
     [mkRow (midnight 2024 1 1) (-50)%float "Food"%string "lunch"%string;
      mkRow (midnight 2024 1 2) 1000%float "Income"%string "salary"%string] =
   Ok [(days_from_civil 2024 1 1, (-50)%float);
       (days_from_civil 2024 1 2, 950%float)]).
Proof.
  split; [|split; [|split; [|split]]].
  - intros df Hne.
    destruct (balance_history_nonempty df Hne)
      as [h [first_day [last_day [Hh [H1 [H2 [H3 [H4 [H5 _]]]]]]]]].
    exists h, first_day, last_day.
    rewrite get_balance_over_time_history_on_datetime64.
    repeat (split; [assumption|]). exact H5.
  - intros number num_add num_zero num_isna of_Z bound Hadd Hzero Hna df Hne Hb.
    destruct (machine_balance_history number num_add num_zero num_isna of_Z bound
                Hadd Hzero Hna df Hne Hb) as [hz [_ [Hm [_ Hlast]]]].
    eexists. split; [exact Hm|exact Hlast].
  - intros df Hne Hb.
    destruct (machine_balance_history Z int64_add 0 (fun _ => false) (fun z => z)
                int64_max int64_add_exact eq_refl (fun _ => eq_refl) df Hne Hb)
      as [hz [_ [Hm [_ Hlast]]]].
    rewrite map_row_of_Z_id in Hm.
    eexists. split; [exact Hm|exact Hlast].
  - intros df. reflexivity.
  - split; [vm_compute; reflexivity|]. split; vm_compute; reflexivity.
Qed.

Lemma balance_history_spec_witness :
  (exists (h : Series) (first_day last_day : Z),
     get_balance_over_time_history_on datetime64
       [on_day 2024 3 10 (-20) "Food" "snack"; on_day 2024 3 14 (-5) "Other" "pen";
        on_day 2024 3 12 100 "Income" "gift"] = Ok h /\
     first_day = days_from_civil 2024 3 10 /\ last_day = days_from_civil 2024 3 14 /\
     length h = 5%nat) /\
  (exists h : list (Z * Z),
     int64_get_balance_over_time_history datetime64
       [mkRow (midnight 2024 3 10) (-20) "Food"%string "snack"%string;
        mkRow (midnight 2024 3 14) (-5) "Other"%string "pen"%string;
        mkRow (midnight 2024 3 12) 100 "Income"%string "gift"%string] = Ok h /\
     last (map snd h) 0 = 75).
Proof.
  split.
  - destruct (proj1 balance_history_spec
                [on_day 2024 3 10 (-20) "Food" "snack";
                 on_day 2024 3 14 (-5) "Other" "pen";
                 on_day 2024 3 12 100 "Income" "gift"])
      as [h [first_day [last_day [Hh _]]]]; [discriminate|].
    exists h, (days_from_civil 2024 3 10), (days_from_civil 2024 3 14).
    split; [exact Hh|].
    split; [reflexivity|]. split; [reflexivity|].
    vm_compute in Hh. injection Hh as <-. reflexivity.
  - destruct (proj1 (proj2 (proj2 balance_history_spec))
                [mkRow (midnight 2024 3 10) (-20) "Food"%string "snack"%string;
                 mkRow (midnight 2024 3 14) (-5) "Other"%string "pen"%string;
                 mkRow (midnight 2024 3 12) 100 "Income"%string "gift"%string])
      as [h [Hh Hlast]]; [discriminate|vm_compute; discriminate|].
    exists h. split; [exact Hh|]. rewrite Hlast. reflexivity.
Defined.

(** C3 (as claimed) fails on a float64 column, where every addition is
    rounded.  The file holds 0.2 and 0.1 as Income, dated 2024-01-02 and
    2024-01-01; after it is loaded and 0.3 is added as Food on 2024-01-03
    the table holds -0.3, 0.2 and 0.1, latest first.  The history ends at
    2^-54 (5.55e-17); the amounts add up to 2^-55 (2.78e-17), whether they
    are added as the table holds them with float64 additions or exactly. *)
Lemma balance_last_value_counterexample :
  f64_add_transaction iso_to_datetime
    (f64_load_data []
       (Some [mkRow (midnight 2024 1 2) 0x1.999999999999ap-3%float
                    "Income"%string "b"%string;
              mkRow (midnight 2024 1 1) 0x1.999999999999ap-4%float
                    "Income"%string "a"%string]))
    (DateStr "2024-01-03") 0x1.3333333333333p-2 "Food" "c" =
  Ok (mkDashboard_of
        [mkRow (midnight 2024 1 3) (-0x1.3333333333333p-2)%float
               "Food"%string "c"%string;
         mkRow (midnight 2024 1 2) 0x1.999999999999ap-3%float
               "Income"%string "b"%string;
         mkRow (midnight 2024 1 1) 0x1.999999999999ap-4%float
               "Income"%string "a"%string]
        (Some
           [mkRow (midnight 2024 1 3) (-0x1.3333333333333p-2)%float
                  "Food"%string "c"%string;
            mkRow (midnight 2024 1 2) 0x1.999999999999ap-3%float
                  "Income"%string "b"%string;
            mkRow (midnight 2024 1 1) 0x1.999999999999ap-4%float
                  "Income"%string "a"%string])) /\
  f64_get_balance_over_time_history datetime64
    [mkRow (midnight 2024 1 3) (-0x1.3333333333333p-2)%float "Food"%string "c"%string;
     mkRow (midnight 2024 1 2) 0x1.999999999999ap-3%float "Income"%string "b"%string;
     mkRow (midnight 2024 1 1) 0x1.999999999999ap-4%float "Income"%string "a"%string] =
  Ok [(days_from_civil 2024 1 1, 0x1.999999999999ap-4%float);
      (days_from_civil 2024 1 2, 0x1.3333333333334p-2%float);
      (days_from_civil 2024 1 3, 0x1p-54%float)] /\
  f64_sum [(-0x1.3333333333333p-2)%float; 0x1.999999999999ap-3%float;
           0x1.999999999999ap-4%float] = 0x1p-55%float /\
  (Qsum (map f64_exact [(-0x1.3333333333333p-2)%float; 0x1.999999999999ap-3%float;
                        0x1.999999999999ap-4%float]) == f64_exact 0x1p-55)%Q /\
  PrimFloat.eqb 0x1p-54 0x1p-55 = false /\
  Qeq_bool (f64_exact 0x1p-54) (f64_exact 0x1p-55) = false.
Proof.
  split; [|split; [|split; [|split; [|split]]]]; vm_compute; reflexivity.
Qed.

(** C4 (as the code has it): on an empty store the call fails and returns no
    series, with an exception of the library.  The only empty table the
    program loads comes from a file with nothing but the header line; its
    Date column has the dtype object, and the first line of the function
    fails with AttributeError.  On an empty table with a datetime column
    there is no earliest and no latest date, and the construction of the
    date range fails with ValueError.  Neither is EmptyDataset. *)
Theorem balance_history_empty :
  get_balance_over_time_history_on (read_csv_Date_dtype []) [] =
    Raise "AttributeError"%string /\
  get_balance_over_time_history_on datetime64 [] = Raise "ValueError"%string /\
  (forall Date_dtype : dtype,
     exists e : exn,
       get_balance_over_time_history_on Date_dtype [] = Raise e /\
       (e = "AttributeError"%string \/ e = "ValueError"%string) /\
       e <> "EmptyDataset"%string).
Proof.
  split; [reflexivity|]. split; [reflexivity|].
  intros [|]; eexists; (split; [reflexivity|]); split; auto; discriminate.
Qed.

(** C4 (as claimed) fails: the error on an empty store is AttributeError, or
    ValueError on a datetime column, and not EmptyDataset. *)
Lemma balance_history_empty_not_EmptyDataset :
  get_balance_over_time_history_on (read_csv_Date_dtype []) [] =
    Raise "AttributeError"%string /\
  get_balance_over_time_history_on datetime64 [] = Raise "ValueError"%string /\
  String.eqb "AttributeError" "EmptyDataset" = false /\
  String.eqb "ValueError" "EmptyDataset" = false.
Proof. repeat split. Qed.

(** ** The store *)

Lemma load_data_transactions (sample : DataFrame) (file : option DataFrame) :
  transactions (load_data sample file) =
  apply_sign_convention (match file with Some rows => rows | None => sample end).
Proof. destruct file; reflexivity. Qed.

Lemma add_transaction_inv to_datetime (d d' : Dashboard) (date : date_arg)
    (amount : Q) (category description : string) :
  add_transaction to_datetime d date amount category description = Ok d' ->
  exists ts,
    parse_date to_datetime date = Ok ts /\
    transactions d' =
      sort_values_Date_desc
        (transactions d ++
         [mkTransaction ts (normalize_amount category amount) category description]) /\
    data_file d' = Some (transactions d').
Proof.
  unfold add_transaction.
  destruct (parse_date to_datetime date) as [ts|e]; simpl; [|discriminate].
  intros H. injection H as <-. exists ts. simpl. auto.
Qed.

Lemma reachable_sign_ok to_datetime (d : Dashboard) :
  reachable to_datetime d -> Forall sign_ok (transactions d).
Proof.
  induction 1 as [sample file|d d' date amount category description Hr IH Hadd].
  - rewrite load_data_transactions, apply_sign_convention_map.
    apply Forall_map, Forall_forall. intros t _. apply sign_row_ok.
  - apply add_transaction_inv in Hadd. destruct Hadd as [ts [_ [Ht _]]].
    rewrite Ht. eapply Permutation_Forall.
    + symmetry. apply sort_values_Date_desc_perm.
    + apply Forall_app. split; [exact IH|].
      constructor; [apply normalize_amount_ok|constructor].
Qed.

(** ** The sign convention in every number type *)

Section AnyNumberFacts.
Variable number : Type.
Variables col_abs col_neg : number -> number.
Variables num_abs num_neg : number -> number.
Variables num_pos num_negative : number -> bool.

(** [unordered a]: [a] is outside the order (NaN), or is the one value whose
    magnitude does not exist (the smallest int64). *)
Variable unordered : number -> Prop.
Variables le0 ge0 : number -> Prop.

Hypothesis col_abs_ge0 : forall a, unordered (col_abs a) \/ ge0 (col_abs a).
Hypothesis col_neg_abs_le0 :
  forall a, unordered (col_neg (col_abs a)) \/ le0 (col_neg (col_abs a)).

Lemma apply_sign_convention_of_map (df : list (Row number)) :
  apply_sign_convention_of number col_abs col_neg df =
  map (fun t => if is_Income (row_Category t)
                then row_set_Amount number t (col_abs (row_Amount t))
                else row_set_Amount number t (col_neg (col_abs (row_Amount t)))) df.
Proof.
  unfold apply_sign_convention_of, assign_Amount_where_of.
  rewrite map_map. apply map_ext. intros t.
  destruct (is_Income (row_Category t)) eqn:E; simpl; rewrite E; reflexivity.
Qed.

Lemma apply_sign_convention_of_ok (df : list (Row number)) :
  Forall (sign_ok_of number unordered le0 ge0) (apply_sign_convention_of number col_abs col_neg df).
Proof.
  rewrite apply_sign_convention_of_map. apply Forall_map, Forall_forall.
  intros t _. unfold sign_ok_of.
  destruct (is_Income (row_Category t)) eqn:E; simpl.
  - destruct (col_abs_ge0 (row_Amount t)) as [H|H]; [left; exact H|right].
    split; [intros _; exact H|]. intros Hn. apply is_Income_true in E. contradiction.
  - destruct (col_neg_abs_le0 (row_Amount t)) as [H|H]; [left; exact H|right].
    split; [|intros _; exact H]. intros Hi. apply is_Income_false in E. contradiction.
Qed.

Hypothesis num_neg_pos : forall a, num_pos a = true -> le0 (num_neg a).
Hypothesis num_abs_negative :
  forall a, num_negative a = true -> unordered (num_abs a) \/ ge0 (num_abs a).
Hypothesis not_pos : forall a, num_pos a = false -> unordered a \/ le0 a.
Hypothesis not_negative : forall a, num_negative a = false -> unordered a \/ ge0 a.

Lemma normalize_amount_of_ok (ts : Timestamp) (category description : string)
    (amount : number) :
  sign_ok_of number unordered le0 ge0
    (mkRow ts (normalize_amount_of number num_abs num_neg num_pos
                          num_negative category amount)
                    category description).
Proof.
  unfold sign_ok_of, normalize_amount_of. simpl.
  destruct (is_Income category) eqn:E; simpl.
  - apply is_Income_true in E.
    destruct (num_negative amount) eqn:L.
    + destruct (num_abs_negative amount L) as [H|H]; [left; exact H|right].
      split; [intros _; exact H|intros Hn; contradiction].
    + destruct (not_negative amount L) as [H|H]; [left; exact H|right].
      split; [intros _; exact H|intros Hn; contradiction].
  - apply is_Income_false in E.
    destruct (num_pos amount) eqn:L.
    + right. split; [intros Hi; contradiction|intros _; apply num_neg_pos, L].
    + destruct (not_pos amount L) as [H|H]; [left; exact H|right].
      split; [intros Hi; contradiction|intros _; exact H].
Qed.

Lemma insert_desc_of_perm (t : Row number) (l : list (Row number)) :
  Permutation (insert_desc_of number t l) (t :: l).
Proof.
  induction l as [|u l IH]; simpl.
  - apply Permutation_refl.
  - destruct (row_Date t <? row_Date u).
    + rewrite IH. apply perm_swap.
    + apply Permutation_refl.
Qed.

Lemma sort_values_Date_desc_of_perm (df : list (Row number)) :
  Permutation (sort_values_Date_desc_of number df) df.
Proof.
  induction df as [|t df IH]; simpl.
  - constructor.
  - rewrite insert_desc_of_perm. constructor. exact IH.
Qed.

Lemma reachable_of_sign_ok to_datetime (d : Dashboard_of number) :
  reachable_of number col_abs col_neg num_abs num_neg num_pos num_negative
               to_datetime d ->
  Forall (sign_ok_of number unordered le0 ge0) (transactions_of d).
Proof.
  induction 1 as [sample file|d d' date amount category description Hr IH Hadd].
  - destruct file; simpl; apply apply_sign_convention_of_ok.
  - unfold add_transaction_of in Hadd.
    destruct (parse_date to_datetime date) as [ts|e]; simpl in Hadd; [|discriminate].
    injection Hadd as <-. simpl.
    eapply Permutation_Forall.
    + symmetry. apply sort_values_Date_desc_of_perm.
    + apply Forall_app. split; [exact IH|].
      constructor; [apply normalize_amount_of_ok|constructor].
Qed.
End AnyNumberFacts.

(** *** float64 *)

Lemma f64_isnan_spec (a : float) :
  f64_isnan a = true <-> Prim2SF a = S754_nan.
Proof.
  unfold f64_isnan. rewrite negb_true_iff, FloatAxioms.eqb_spec.
  destruct (Prim2SF a) as [s|s| |s m e]; simpl.
  - split; discriminate.
  - destruct s; simpl; split; discriminate.
  - split; reflexivity.
  - unfold SFeqb, SFcompare. destruct s; rewrite Z.compare_refl;
      rewrite Pos.compare_cont_refl; simpl; split; discriminate.
Qed.

Lemma Prim2SF_zero : Prim2SF 0 = S754_zero false.
Proof. reflexivity. Qed.

Ltac f64_cases a :=
  unfold f64_unordered, f64_le0, f64_ge0, f64_pos, f64_negative;
  repeat first [rewrite f64_isnan_spec | rewrite FloatAxioms.leb_spec
               | rewrite FloatAxioms.ltb_spec | rewrite FloatAxioms.opp_spec
               | rewrite FloatAxioms.abs_spec | rewrite Prim2SF_zero];
  destruct (Prim2SF a) as [s|s| |s m e]; try destruct s; simpl;
  unfold SFleb, SFltb; simpl; auto; try discriminate.

Lemma f64_abs_ge0 (a : float) :
  f64_unordered (PrimFloat.abs a) \/ f64_ge0 (PrimFloat.abs a).
Proof. f64_cases a. Qed.

Lemma f64_neg_abs_le0 (a : float) :
  f64_unordered (- PrimFloat.abs a)%float \/ f64_le0 (- PrimFloat.abs a)%float.
Proof. f64_cases a. Qed.

Lemma f64_neg_pos (a : float) : f64_pos a = true -> f64_le0 (- a)%float.
Proof. f64_cases a. Qed.

Lemma f64_abs_negative (a : float) :
  f64_negative a = true ->
  f64_unordered (PrimFloat.abs a) \/ f64_ge0 (PrimFloat.abs a).
Proof. intros _. apply f64_abs_ge0. Qed.

Lemma f64_not_pos (a : float) : f64_pos a = false -> f64_unordered a \/ f64_le0 a.
Proof. f64_cases a. Qed.

Lemma f64_not_negative (a : float) :
  f64_negative a = false -> f64_unordered a \/ f64_ge0 a.
Proof. f64_cases a. Qed.

(** *** int64 *)

Lemma int64_wrap_id (z : Z) : int64_range z -> int64_wrap z = z.
Proof.
  unfold int64_range, int64_min, int64_max, int64_wrap. intros H.
  rewrite Z.mod_small; lia.
Qed.

Lemma int64_abs_spec (z : Z) :
  int64_range z ->
  (z = int64_min /\ int64_abs z = int64_min) \/
  (z <> int64_min /\ int64_abs z = Z.abs z /\ 0 <= int64_abs z <= int64_max).
Proof.
  unfold int64_range, int64_abs. intros H.
  destruct (Z.eq_dec z int64_min) as [->|Hne].
  - left. split; reflexivity.
  - right. split; [exact Hne|].
    rewrite int64_wrap_id; unfold int64_range, int64_min, int64_max in *; lia.
Qed.

Lemma int64_neg_abs_spec (z : Z) :
  int64_range z ->
  (z = int64_min /\ int64_neg (int64_abs z) = int64_min) \/
  (z <> int64_min /\ int64_neg (int64_abs z) = - Z.abs z /\
   int64_min < int64_neg (int64_abs z) <= 0).
Proof.
  intros H. destruct (int64_abs_spec z H) as [[-> _]|[Hne [Ha Hr]]].
  - left. split; reflexivity.
  - right. split; [exact Hne|]. rewrite Ha in *. unfold int64_neg.
    rewrite int64_wrap_id; unfold int64_range, int64_min, int64_max in *; lia.
Qed.

Lemma f64_apply_sign_convention_ok (df : list (Row float)) :
  Forall (sign_ok_of float f64_unordered f64_le0 f64_ge0)
         (f64_apply_sign_convention df).
Proof.
  apply apply_sign_convention_of_ok; [apply f64_abs_ge0|apply f64_neg_abs_le0].
Qed.

Lemma f64_normalize_amount_ok (ts : Timestamp) (category description : string)
    (amount : float) :
  sign_ok_of float f64_unordered f64_le0 f64_ge0
    (mkRow ts (f64_normalize_amount category amount) category description).
Proof.
  apply normalize_amount_of_ok.
  - apply f64_neg_pos.
  - apply f64_abs_negative.
  - apply f64_not_pos.
  - apply f64_not_negative.
Qed.

Lemma f64_reachable_sign_ok to_datetime (d : Dashboard_of float) :
  f64_reachable to_datetime d ->
  Forall (sign_ok_of float f64_unordered f64_le0 f64_ge0) (transactions_of d).
Proof.
  apply reachable_of_sign_ok.
  - apply f64_abs_ge0.
  - apply f64_neg_abs_le0.
  - apply f64_neg_pos.
  - apply f64_abs_negative.
  - apply f64_not_pos.
  - apply f64_not_negative.
Qed.

Lemma f64_add_transaction_inv to_datetime (d d' : Dashboard_of float)
    (date : date_arg) (amount : float) (category description : string) :
  f64_add_transaction to_datetime d date amount category description = Ok d' ->
  exists ts,
    parse_date to_datetime date = Ok ts /\
    Permutation (transactions_of d')
      (transactions_of d ++
       [mkRow ts (f64_normalize_amount category amount) category description]).
Proof.
  unfold f64_add_transaction, add_transaction_of.
  destruct (parse_date to_datetime date) as [ts|e]; simpl; [|discriminate].
  intros H. injection H as <-. exists ts. split; [reflexivity|]. simpl.
  apply sort_values_Date_desc_of_perm.
Qed.

Lemma int64_apply_sign_convention_ok (rows : list (Row Z)) :
  Forall (fun t => int64_range (row_Amount t)) rows ->
  Forall (sign_ok_of Z int64_unordered (fun z => z <= 0) (fun z => 0 <= z))
         (int64_apply_sign_convention rows).
Proof.
  intros Hr. unfold int64_apply_sign_convention.
  rewrite apply_sign_convention_of_map. apply Forall_map.
  eapply Forall_impl; [|exact Hr]. intros t Ht. unfold sign_ok_of, int64_unordered.
  destruct (is_Income (row_Category t)) eqn:E; simpl.
  - destruct (int64_abs_spec _ Ht) as [[_ H]|[_ [_ H]]]; [left; exact H|right].
    split; [intros _; lia|]. intros Hn. apply is_Income_true in E. contradiction.
  - destruct (int64_neg_abs_spec _ Ht) as [[_ H]|[_ [_ H]]]; [left; exact H|right].
    split; [|intros _; lia]. intros Hi. apply is_Income_false in E. contradiction.
Qed.

(** C2 (as the code has it): in every state the program reaches, by loading
    and by adding, an Income transaction has an amount of at least 0 and a
    transaction of any other category an amount of at most 0, with two
    exceptions that the code lets through: an amount that is NaN stays NaN,
    and in an int64 column the smallest int64, which has no magnitude, stays
    as it is.  This holds of exact numbers, of a float64 column (the states
    reached by loading and adding, and every single [add_transaction]: the
    rows before are kept and the row added is NaN or has the sign of its
    category) and of an int64 column as loaded.  NaN is the NaN of
    binary64, the smallest int64 is -2^63, and on ordinary amounts the
    convention gives 40 and -25 for an Income of -40 and a Food of 25. *)
Theorem sign_convention_invariant :
  (forall to_datetime (d : Dashboard),
      reachable to_datetime d ->
      forall t, In t (transactions d) ->
        (Category t = "Income"%string -> (0 <= Amount t)%Q) /\
        (Category t <> "Income"%string -> (Amount t <= 0)%Q)) /\
  (forall to_datetime (d : Dashboard_of float),
      f64_reachable to_datetime d ->
      forall t, In t (transactions_of d) ->
        f64_isnan (row_Amount t) = true \/
        ((row_Category t = "Income"%string ->
          PrimFloat.leb 0 (row_Amount t) = true) /\
         (row_Category t <> "Income"%string ->
          PrimFloat.leb (row_Amount t) 0 = true))) /\
  (forall to_datetime (d d' : Dashboard_of float) (date : date_arg)
          (amount : float) (category description : string),
      f64_add_transaction to_datetime d date amount category description = Ok d' ->
      exists (ts : Timestamp) (stored : float),
        Permutation (transactions_of d')
          (transactions_of d ++ [mkRow ts stored category description]) /\
        (f64_isnan stored = true \/
         ((category = "Income"%string -> PrimFloat.leb 0 stored = true) /\
          (category <> "Income"%string -> PrimFloat.leb stored 0 = true)))) /\
  (forall rows : list (Row Z),
      Forall (fun t => int64_min <= row_Amount t <= int64_max) rows ->
      forall t, In t (int64_apply_sign_convention rows) ->
        row_Amount t = int64_min \/
        ((row_Category t = "Income"%string -> 0 <= row_Amount t) /\
         (row_Category t <> "Income"%string -> row_Amount t <= 0))) /\
  (f64_isnan (f64_normalize_amount "Income" nan) = true /\
   map (fun t => f64_isnan (row_Amount t))
       (f64_apply_sign_convention
          [mkRow (midnight 2024 1 5) nan "Income"%string "bonus"%string;
           mkRow (midnight 2024 1 6) nan "Food"%string "lunch"%string]) =
     [true; true] /\
   map row_Amount
       (int64_apply_sign_convention
          [mkRow (midnight 2024 1 5) int64_min "Income"%string "bonus"%string]) =
     [int64_min]) /\
  ((forall a : float, f64_isnan a = true <-> Prim2SF a = S754_nan) /\
   f64_isnan 0 = false /\
   int64_min = -9223372036854775808 /\ int64_max = 9223372036854775807 /\
   map row_Amount
       (f64_apply_sign_convention
          [mkRow (midnight 2024 1 5) (-40)%float "Income"%string "bonus"%string;
           mkRow (midnight 2024 1 6) 25%float "Food"%string "lunch"%string]) =
     [40%float; (-25)%float] /\
   map row_Amount
       (int64_apply_sign_convention
          [mkRow (midnight 2024 1 5) (-40) "Income"%string "bonus"%string;
           mkRow (midnight 2024 1 6) 25 "Food"%string "lunch"%string]) =
     [40; -25]).
Proof.
  split; [|split; [|split; [|split; [|split]]]].
  - intros to_datetime d Hr t Ht. apply reachable_sign_ok in Hr.
    rewrite Forall_forall in Hr. exact (Hr t Ht).
  - intros to_datetime d Hr t Ht. apply f64_reachable_sign_ok in Hr.
    rewrite Forall_forall in Hr. exact (Hr t Ht).
  - intros to_datetime d d' date amount category description Hadd.
    apply f64_add_transaction_inv in Hadd. destruct Hadd as [ts [_ Hperm]].
    exists ts, (f64_normalize_amount category amount). split; [exact Hperm|].
    exact (f64_normalize_amount_ok ts category description amount).
  - intros rows Hrows t Ht.
    pose proof (int64_apply_sign_convention_ok rows Hrows) as Hok.
    rewrite Forall_forall in Hok. exact (Hok t Ht).
  - repeat split.
  - split; [exact f64_isnan_spec|]. repeat split.
Qed.

Lemma sign_convention_invariant_witness :
  In (on_day 2024 1 6 (-25) "Food" "lunch")
     (transactions
        (load_data [] (Some [on_day 2024 1 5 (-40) "Income" "bonus";
                             on_day 2024 1 6 25 "Food" "lunch"]))) /\
  (Amount (on_day 2024 1 6 (-25) "Food" "lunch") <= 0)%Q.
Proof.
  split.
  - right. left. reflexivity.
  - apply (proj1 sign_convention_invariant iso_to_datetime
             (load_data [] (Some [on_day 2024 1 5 (-40) "Income" "bonus";
                                  on_day 2024 1 6 25 "Food" "lunch"]))).
    + apply reach_load.
    + right. left. reflexivity.
    + discriminate.
Defined.

(** C2 (as claimed) fails: a loaded Income row whose amount is 0 is stored
    with amount 0, which is not strictly positive; so is one that is added. *)
Lemma strict_income_sign_counterexample :
  reachable iso_to_datetime
    (load_data [] (Some [on_day 2024 1 5 0 "Income" "refund"])) /\
  In (on_day 2024 1 5 0 "Income" "refund")
     (transactions (load_data [] (Some [on_day 2024 1 5 0 "Income" "refund"]))) /\
  add_transaction iso_to_datetime (mkDashboard [] None)
    (DateStr "2024-01-05") 0 "Income" "refund" =
    Ok (mkDashboard [on_day 2024 1 5 0 "Income" "refund"]
                    (Some [on_day 2024 1 5 0 "Income" "refund"])) /\
  Category (on_day 2024 1 5 0 "Income" "refund") = "Income"%string /\
  ~ (0 < Amount (on_day 2024 1 5 0 "Income" "refund"))%Q.
Proof.
  split; [apply reach_load|].
  split; [left; reflexivity|].
  split; [reflexivity|].
  split; [reflexivity|].
  simpl. intros H. apply Qlt_irrefl in H. exact H.
Qed.

(** C6: [add_transaction] stores the amount negated when the category is
    not Income and the amount is positive, its absolute value when the
    category is Income and the amount is negative, and the amount itself
    otherwise; the new table is the old one with exactly this one record
    more, sorted by date, latest first, and it is what the file then holds.
    Adding ("2024-02-01", 200, "Food", "dinner") stores -200. *)
Theorem add_transaction_spec :
  (forall to_datetime (d : Dashboard) (date : date_arg) (amount : Q)
          (category description : string) (ts : Timestamp),
      parse_date to_datetime date = Ok ts ->
      exists (stored : Q) (d' : Dashboard),
        add_transaction to_datetime d date amount category description = Ok d' /\
        (category <> "Income"%string -> (0 < amount)%Q -> stored = (- amount)%Q) /\
        (category = "Income"%string -> (amount < 0)%Q -> stored = Qabs amount) /\
        (~ (category <> "Income"%string /\ (0 < amount)%Q) ->
         ~ (category = "Income"%string /\ (amount < 0)%Q) -> stored = amount) /\
        Permutation (transactions d')
          (transactions d ++ [mkTransaction ts stored category description]) /\
        length (transactions d') = S (length (transactions d)) /\
        StronglySorted date_desc (transactions d') /\
        data_file d' = Some (transactions d')) /\
  (forall d : Dashboard,
      exists d' : Dashboard,
        add_transaction iso_to_datetime d (DateStr "2024-02-01") 200 "Food" "dinner" =
          Ok d' /\
        Permutation (transactions d')
          (transactions d ++ [on_day 2024 2 1 (-200) "Food" "dinner"])).
Proof.
  split.
  - intros to_datetime d date amount category description ts Hp.
    exists (normalize_amount category amount).
    eexists. split; [apply add_transaction_ok; exact Hp|]. simpl.
    assert (Hperm : Permutation
              (sort_values_Date_desc
                 (transactions d ++
                  [mkTransaction ts (normalize_amount category amount)
                                 category description]))
              (transactions d ++
               [mkTransaction ts (normalize_amount category amount)
                              category description]))
      by apply sort_values_Date_desc_perm.
    repeat split.
    + intros Hc Ha. unfold normalize_amount.
      apply is_Income_false in Hc. apply Qltb_lt in Ha. rewrite Hc, Ha. reflexivity.
    + intros Hc Ha. unfold normalize_amount.
      apply is_Income_true in Hc. apply Qltb_lt in Ha. rewrite Hc, Ha. reflexivity.
    + intros H1 H2. unfold normalize_amount.
      destruct (is_Income category) eqn:Hc; simpl.
      * destruct (Qltb amount 0) eqn:Ha; [|reflexivity].
        exfalso. apply H2. split; [apply is_Income_true, Hc|apply Qltb_lt, Ha].
      * destruct (Qltb 0 amount) eqn:Ha; [|reflexivity].
        exfalso. apply H1. split; [apply is_Income_false, Hc|apply Qltb_lt, Ha].
    + exact Hperm.
    + rewrite (Permutation_length Hperm), length_app. simpl. lia.
    + apply sort_values_Date_desc_sorted.
  - intros d. eexists. split.
    + apply add_transaction_ok. reflexivity.
    + simpl. apply sort_values_Date_desc_perm.
Qed.

Lemma add_transaction_spec_witness :
  exists (stored : Q) (d' : Dashboard),
    add_transaction iso_to_datetime
      (mkDashboard [on_day 2024 3 1 500 "Income" "salary"] None)
      (DateStr "2024-02-01") (-120) "Income" "refund" = Ok d' /\
    stored = Qabs (-120) /\
    length (transactions d') = 2%nat /\
    StronglySorted date_desc (transactions d').
Proof.
  destruct (proj1 add_transaction_spec iso_to_datetime
              (mkDashboard [on_day 2024 3 1 500 "Income" "salary"] None)
              (DateStr "2024-02-01") (-120)%Q "Income"%string "refund"%string
              (midnight 2024 2 1) eq_refl)
    as [stored [d' [Hadd [_ [Habs [_ [_ [Hlen [Hsorted _]]]]]]]]].
  exists stored, d'.
  split; [exact Hadd|].
  split; [apply Habs; [reflexivity|reflexivity]|].
  split; [exact Hlen|exact Hsorted].
Defined.

(** C5 (as the code has it): [add_transaction] does not look at the set of
    categories.  It fails exactly when the date cannot be read, with that
    error, and otherwise stores the record, whatever its category. *)
Theorem add_transaction_any_category to_datetime (d : Dashboard) (date : date_arg)
    (amount : Q) (category description : string) :
  (forall e : exn,
      add_transaction to_datetime d date amount category description = Raise e <->
      parse_date to_datetime date = Raise e) /\
  (forall ts : Timestamp,
      parse_date to_datetime date = Ok ts ->
      exists d' : Dashboard,
        add_transaction to_datetime d date amount category description = Ok d' /\
        In (mkTransaction ts (normalize_amount category amount) category description)
           (transactions d') /\
        data_file d' = Some (transactions d')).
Proof.
  split.
  - intros e. apply add_transaction_raise.
  - intros ts Hp. eexists. split; [apply add_transaction_ok; exact Hp|].
    simpl. split; [|reflexivity].
    eapply Permutation_in.
    + symmetry. apply sort_values_Date_desc_perm.
    + apply in_or_app. right. left. reflexivity.
Qed.

(** C5 (as claimed) fails: "Gift" is not one of the ten categories, and
    adding a record with it succeeds and stores the record. *)
Lemma invalid_category_counterexample :
  ~ In "Gift"%string categories /\
  add_transaction iso_to_datetime (mkDashboard [] None)
    (DateStr "2024-02-01") 50 "Gift" "present" =
    Ok (mkDashboard [on_day 2024 2 1 (-50) "Gift" "present"]
                    (Some [on_day 2024 2 1 (-50) "Gift" "present"])) /\
  add_transaction iso_to_datetime (mkDashboard [] None)
    (DateStr "2024-02-01") 50 "Gift" "present" <> Raise "InvalidCategory"%string.
Proof.
  split.
  - unfold categories. simpl. intros H.
    repeat (destruct H as [H|H]; [discriminate|]). exact H.
  - split; [reflexivity|discriminate].
Qed.

(** ** Saving and loading *)



Lemma apply_sign_convention_perm (l1 l2 : DataFrame) :
  Permutation l1 l2 ->
  Permutation (apply_sign_convention l1) (apply_sign_convention l2).
Proof.
  intros H. rewrite !apply_sign_convention_map. apply Permutation_map. exact H.
Qed.





(** C10: an amount of 0 is stored as it is by [add_transaction], for every
    category, and the sign convention applied by [load_data] leaves a 0
    amount 0; so a stored Income transaction can have amount 0. *)
Theorem zero_amount_is_kept :
  (forall to_datetime (d : Dashboard) (date : date_arg) (amount : Q)
          (category description : string) (ts : Timestamp),
      parse_date to_datetime date = Ok ts ->
      (amount == 0)%Q ->
      normalize_amount category amount = amount /\
      exists d' : Dashboard,
        add_transaction to_datetime d date amount category description = Ok d' /\
        In (mkTransaction ts amount category description) (transactions d')) /\
  (forall df : DataFrame,
      Forall2 (fun t t' => Date t' = Date t /\ Category t' = Category t /\
                           Description t' = Description t /\
                           ((Amount t == 0)%Q -> (Amount t' == 0)%Q))
              df (apply_sign_convention df)) /\
  (add_transaction iso_to_datetime (mkDashboard [] None)
     (DateStr "2024-02-01") 0 "Income" "nothing" =
     Ok (mkDashboard [on_day 2024 2 1 0 "Income" "nothing"]
                     (Some [on_day 2024 2 1 0 "Income" "nothing"])) /\
   transactions (load_data [] (Some [on_day 2024 2 1 0 "Income" "nothing"])) =
     [on_day 2024 2 1 0 "Income" "nothing"]).
Proof.
  split; [|split].
  - intros to_datetime d date amount category description ts Hp Hz.
    assert (Hn : normalize_amount category amount = amount).
    { unfold normalize_amount.
      assert (H1 : Qltb 0 amount = false) by (apply Qltb_ge; lra).
      assert (H2 : Qltb amount 0 = false) by (apply Qltb_ge; lra).
      rewrite H1, H2, !andb_false_r. reflexivity. }
    split; [exact Hn|].
    eexists. split; [apply add_transaction_ok; exact Hp|].
    simpl. rewrite Hn. eapply Permutation_in.
    + symmetry. apply sort_values_Date_desc_perm.
    + apply in_or_app. right. left. reflexivity.
  - intros df. rewrite apply_sign_convention_map.
    induction df as [|t df IH]; simpl; constructor; [|exact IH].
    unfold sign_row. destruct (is_Income (Category t)); simpl;
      repeat split; intros Hz.
    + rewrite Hz. reflexivity.
    + rewrite Hz. reflexivity.
  - split; reflexivity.
Qed.

Lemma zero_amount_is_kept_witness :
  exists d' : Dashboard,
    add_transaction iso_to_datetime (mkDashboard [] None)
      (DateStr "2024-02-01") 0 "Food" "free sample" = Ok d' /\
    In (on_day 2024 2 1 0 "Food" "free sample") (transactions d').
Proof.
  apply (proj1 zero_amount_is_kept iso_to_datetime (mkDashboard [] None)
           (DateStr "2024-02-01") 0%Q "Food"%string "free sample"%string
           (midnight 2024 2 1) eq_refl).
  reflexivity.
Defined.

(** ** Monthly summary *)

Lemma existsb_eqb_In (k : Z) (l : list Z) : existsb (Z.eqb k) l = true <-> In k l.
Proof.
  rewrite existsb_exists. split.
  - intros [x [Hx E]]. apply Z.eqb_eq in E. subst. exact Hx.
  - intros H. exists k. split; [exact H|apply Z.eqb_refl].
Qed.

Lemma groupby_sum_index (key : Transaction -> Z) (df : DataFrame) :
  map fst (groupby_sum key df) = sorted_unique Z.compare (map key df).
Proof. unfold groupby_sum. rewrite map_map. simpl. apply map_id. Qed.

Lemma In_Month_income (df : DataFrame) (m : Period) :
  In m (map Month (income_of df)) <->
  exists t, In t df /\ Month t = m /\ (0 < Amount t)%Q.
Proof.
  unfold income_of. rewrite in_map_iff. split.
  - intros [t [Hm Ht]]. apply filter_In in Ht. destruct Ht as [Ht Hp].
    exists t. repeat split; auto. apply Qltb_lt, Hp.
  - intros [t [Ht [Hm Hp]]]. exists t. split; [exact Hm|].
    apply filter_In. split; [exact Ht|apply Qltb_lt, Hp].
Qed.

Lemma In_Month_expenses (df : DataFrame) (m : Period) :
  In m (map Month (expenses_of df)) <->
  exists t, In t df /\ Month t = m /\ (Amount t < 0)%Q.
Proof.
  unfold expenses_of. rewrite map_map. rewrite in_map_iff. split.
  - intros [t [Hm Ht]]. apply filter_In in Ht. destruct Ht as [Ht Hp].
    exists t. repeat split; auto. apply Qltb_lt, Hp.
  - intros [t [Ht [Hm Hp]]]. exists t. split; [exact Hm|].
    apply filter_In. split; [exact Ht|apply Qltb_lt, Hp].
Qed.

Lemma Qsum_pos (l : list Q) :
  l <> [] -> Forall (fun x => 0 < x)%Q l -> (0 < Qsum l)%Q.
Proof.
  intros Hne H. induction H as [|x l Hx Hl IH]; [congruence|].
  simpl. destruct l as [|y l].
  - simpl. lra.
  - assert (0 < Qsum (y :: l))%Q by (apply IH; discriminate). lra.
Qed.

Lemma income_of_pos (df : DataFrame) :
  Forall (fun t => 0 < Amount t)%Q (income_of df).
Proof.
  apply Forall_forall. intros t Ht. apply filter_In in Ht.
  apply Qltb_lt. tauto.
Qed.

Lemma expenses_of_pos (df : DataFrame) :
  Forall (fun t => 0 < Amount t)%Q (expenses_of df).
Proof.
  apply Forall_forall. intros t Ht. unfold expenses_of in Ht.
  apply in_map_iff in Ht. destruct Ht as [u [<- Hu]].
  apply filter_In in Hu. destruct Hu as [_ Hu]. apply Qltb_lt in Hu.
  simpl. apply Qabs_case; intros; lra.
Qed.

Lemma group_sum_pos (key : Transaction -> Z) (k : Z) (rows : DataFrame) :
  Forall (fun t => 0 < Amount t)%Q rows ->
  In k (map key rows) ->
  (0 < Qsum (map Amount (group key k rows)))%Q.
Proof.
  intros Hpos Hin. apply Qsum_pos.
  - intros E. apply map_eq_nil in E. apply group_nil_iff in E. contradiction.
  - apply Forall_map. unfold group.
    apply Forall_forall. intros t Ht. apply filter_In in Ht.
    rewrite Forall_forall in Hpos. apply Hpos. tauto.
Qed.

Lemma aligned_groupby_sum (key : Transaction -> Z) (df : DataFrame) (k : Z) :
  fillna 0 (aligned (groupby_sum key df) k) =
  Finite (if existsb (Z.eqb k) (map key df)
          then Qsum (map Amount (group key k df)) else 0%Q).
Proof.
  unfold aligned. rewrite lookup_groupby_sum.
  destruct (existsb (Z.eqb k) (map key df)); reflexivity.
Qed.

Lemma summary_months_In (df : DataFrame) (m : Period) :
  In m (sorted_unique Z.compare
          (map fst (groupby_sum Month (income_of df)) ++
           map fst (groupby_sum Month (expenses_of df)))) <->
  In m (map Month (income_of df)) \/ In m (map Month (expenses_of df)).
Proof.
  rewrite sorted_unique_Z_In, in_app_iff, !groupby_sum_index, !sorted_unique_Z_In.
  tauto.
Qed.

Lemma summary_row_present (df : DataFrame) (m : Period) :
  In m (map Month (income_of df)) \/ In m (map Month (expenses_of df)) ->
  summary_row m (get_income_vs_expenses_chart df) =
  Some (summary_of_month (groupby_sum Month (income_of df))
                         (groupby_sum Month (expenses_of df)) m).
Proof.
  intros H. unfold summary_row, get_income_vs_expenses_chart.
  apply (lookup_tabulate_In
           (summary_of_month (groupby_sum Month (income_of df))
                             (groupby_sum Month (expenses_of df)))).
  apply summary_months_In. exact H.
Qed.

Lemma summary_row_absent (df : DataFrame) (m : Period) :
  ~ (In m (map Month (income_of df)) \/ In m (map Month (expenses_of df))) ->
  summary_row m (get_income_vs_expenses_chart df) = None.
Proof.
  intros H. unfold summary_row, get_income_vs_expenses_chart.
  apply (lookup_tabulate_notin
           (summary_of_month (groupby_sum Month (income_of df))
                             (groupby_sum Month (expenses_of df)))).
  rewrite summary_months_In. exact H.
Qed.

Lemma In_dec_Z (k : Z) (l : list Z) : In k l \/ ~ In k l.
Proof. destruct (in_dec Z.eq_dec k l); auto. Qed.

(** Every row of the summary, spelled out. *)
Lemma summary_row_inv (df : DataFrame) (m : Period) (r : SummaryRow) :
  summary_row m (get_income_vs_expenses_chart df) = Some r ->
  exists i e : Q,
    Income r = Finite i /\ Expenses r = Finite e /\ Savings r = Finite (i - e) /\
    Savings_Rate r =
      fillna 0 (fmul (fdiv (Finite (i - e)) (Finite i)) (Finite 100)) /\
    (In m (map Month (income_of df)) \/ In m (map Month (expenses_of df))) /\
    (In m (map Month (income_of df)) -> i = month_income df m /\ (0 < i)%Q) /\
    (~ In m (map Month (income_of df)) -> i = 0%Q) /\
    (In m (map Month (expenses_of df)) -> e = month_expenses df m /\ (0 < e)%Q) /\
    (~ In m (map Month (expenses_of df)) -> e = 0%Q).
Proof.
  intros Hr.
  assert (Hin : In m (map Month (income_of df)) \/ In m (map Month (expenses_of df))).
  { destruct (In_dec_Z m (map Month (income_of df))) as [H|H]; [auto|].
    destruct (In_dec_Z m (map Month (expenses_of df))) as [H'|H']; [auto|].
    rewrite summary_row_absent in Hr by tauto. discriminate. }
  rewrite (summary_row_present df m Hin) in Hr. injection Hr as <-.
  unfold summary_of_month. rewrite !aligned_groupby_sum.
  exists (if existsb (Z.eqb m) (map Month (income_of df))
          then month_income df m else 0%Q),
         (if existsb (Z.eqb m) (map Month (expenses_of df))
          then month_expenses df m else 0%Q).
  split; [reflexivity|]. split; [reflexivity|]. split; [reflexivity|].
  split; [reflexivity|]. split; [exact Hin|].
  repeat split.
  - apply existsb_eqb_In in H. rewrite H. reflexivity.
  - apply existsb_eqb_In in H. rewrite H.
    apply group_sum_pos; [apply income_of_pos|apply existsb_eqb_In, H].
  - intros H. destruct (existsb (Z.eqb m) (map Month (income_of df))) eqn:E;
      [|reflexivity].
    apply existsb_eqb_In in E. contradiction.
  - apply existsb_eqb_In in H. rewrite H. reflexivity.
  - apply existsb_eqb_In in H. rewrite H.
    apply group_sum_pos; [apply expenses_of_pos|apply existsb_eqb_In, H].
  - intros H. destruct (existsb (Z.eqb m) (map Month (expenses_of df))) eqn:E;
      [|reflexivity].
    apply existsb_eqb_In in E. contradiction.
Qed.

Lemma Qis_zero_true (q : Q) : Qis_zero q = true <-> (q == 0)%Q.
Proof. unfold Qis_zero. apply Qeq_bool_iff. Qed.

Lemma Qis_zero_false (q : Q) : Qis_zero q = false <-> ~ (q == 0)%Q.
Proof.
  rewrite <- Qis_zero_true. destruct (Qis_zero q); split; congruence.
Qed.

(** C8: a month appears in the summary exactly when it has a transaction
    with a non-zero amount, so a month with only income or only expenses
    appears too; its missing side is 0, and its savings are its income
    minus its expenses.  The month of a transaction is the year and month
    of the civil date of its day.  A table with income of 1000 only in
    January 2024 and an expense of 300 only in February 2024 has the two
    rows January: 1000, 0, 1000 and February: 0, 300, -300. *)
Theorem monthly_summary_spec :
  (forall (df : DataFrame) (m : Period),
     ((exists t, In t df /\ Month t = m /\
                 ((0 < Amount t)%Q \/ (Amount t < 0)%Q)) <->
      (exists r, summary_row m (get_income_vs_expenses_chart df) = Some r)) /\
     (forall r : SummaryRow,
        summary_row m (get_income_vs_expenses_chart df) = Some r ->
        exists i e : Q,
          Income r = Finite i /\ Expenses r = Finite e /\
          Savings r = Finite (i - e) /\
          Savings r = fsub (Income r) (Expenses r) /\
          ((forall t, In t df -> Month t = m -> ~ (0 < Amount t)%Q) -> i = 0%Q) /\
          ((forall t, In t df -> Month t = m -> ~ (Amount t < 0)%Q) -> e = 0%Q) /\
          ((exists t, In t df /\ Month t = m /\ (0 < Amount t)%Q) ->
           i = month_income df m) /\
          ((exists t, In t df /\ Month t = m /\ (Amount t < 0)%Q) ->
           e = month_expenses df m))) /\
  (forall t : Transaction,
     exists y mo d : Z,
       civil_from_days (date (Date t)) = (y, mo, d) /\
       Month t = month_period y mo) /\
  (Month (on_day 2024 1 10 1000 "Income" "salary") = month_period 2024 1 /\
   Month (on_day 2024 2 5 (-300) "Food" "groceries") = month_period 2024 2 /\
   month_period 2024 1 + 1 = month_period 2024 2 /\
   map (fun mr => (fst mr, Income (snd mr), Expenses (snd mr), Savings (snd mr)))
       (get_income_vs_expenses_chart
          [on_day 2024 2 5 (-300) "Food" "groceries";
           on_day 2024 1 10 1000 "Income" "salary"]) =
     [(month_period 2024 1, Finite 1000, Finite 0, Finite 1000);
      (month_period 2024 2, Finite 0, Finite 300, Finite (-300))]).
Proof.
  split; [|split].
  - intros df m. split.
    + split.
      * intros [t [Ht [Hm Hs]]]. eexists. apply summary_row_present.
        destruct Hs as [Hs|Hs].
        -- left. apply In_Month_income. exists t. auto.
        -- right. apply In_Month_expenses. exists t. auto.
      * intros [r Hr]. apply summary_row_inv in Hr.
        destruct Hr as [i [e [_ [_ [_ [_ [Hin _]]]]]]].
        destruct Hin as [H|H].
        -- apply In_Month_income in H. destruct H as [t [Ht [Hm Hp]]].
           exists t. auto.
        -- apply In_Month_expenses in H. destruct H as [t [Ht [Hm Hp]]].
           exists t. auto.
    + intros r Hr. apply summary_row_inv in Hr.
      destruct Hr as [i [e [Hi [He [Hs [_ [_ [Hi1 [Hi0 [He1 He0]]]]]]]]]].
      exists i, e. split; [exact Hi|]. split; [exact He|]. split; [exact Hs|].
      split; [rewrite Hi, He; exact Hs|].
      repeat split.
      * intros Hno. apply Hi0. intros Hin. apply In_Month_income in Hin.
        destruct Hin as [t [Ht [Hm Hp]]]. exact (Hno t Ht Hm Hp).
      * intros Hno. apply He0. intros Hin. apply In_Month_expenses in Hin.
        destruct Hin as [t [Ht [Hm Hp]]]. exact (Hno t Ht Hm Hp).
      * intros Hx. apply Hi1. apply In_Month_income. exact Hx.
      * intros Hx. apply He1. apply In_Month_expenses. exact Hx.
  - intros t. unfold Month, to_period_M, period_of_day, month_period.
    destruct (civil_from_days (date (Date t))) as [[y mo] d].
    exists y, mo, d. split; reflexivity.
  - vm_compute. repeat split.
Qed.

(** C1 (what the code computes): in a row of the summary whose income is
    not 0 the rate is savings / income * 100; in a row whose income is 0 the
    rate is minus infinity, because such a month has expenses, the division
    of the negative savings by 0 is an infinity, and [fillna(0)] replaces
    only NaN.  For a month with expenses 300 and no income the row is
    income 0, expenses 300, savings -300, rate minus infinity. *)
Theorem savings_rate_of_month :
  (forall (df : DataFrame) (m : Period) (r : SummaryRow),
      summary_row m (get_income_vs_expenses_chart df) = Some r ->
      exists i e : Q,
        Income r = Finite i /\ Savings r = Finite (i - e) /\
        ((i == 0)%Q -> Savings_Rate r = NegInf) /\
        (~ (i == 0)%Q -> Savings_Rate r = Finite ((i - e) / i * 100))) /\
  get_income_vs_expenses_chart [on_day 2024 1 15 (-300) "Food" "groceries"] =
    [(month_period 2024 1,
      mkSummaryRow (Finite 0) (Finite 300) (Finite (-300)) NegInf)].
Proof.
  split; [|vm_compute; reflexivity].
  intros df m r Hr. apply summary_row_inv in Hr.
  destruct Hr as [i [e [Hi [_ [Hs [Hrate [Hin [Hi1 [Hi0 [He1 _]]]]]]]]]].
  exists i, e. split; [exact Hi|]. split; [exact Hs|]. split.
  - intros Hz.
    assert (Hno : ~ In m (map Month (income_of df))).
    { intros H. destruct (Hi1 H) as [_ Hpos]. lra. }
    assert (He : (0 < e)%Q) by (destruct Hin as [H|H]; [contradiction|apply He1, H]).
    rewrite Hrate. rewrite (Hi0 Hno). unfold fdiv.
    assert (Hz' : Qis_zero 0 = true) by reflexivity.
    assert (Hnz : Qis_zero (0 - e) = false) by (apply Qis_zero_false; lra).
    assert (Hlt : Qltb 0 (0 - e) = false) by (apply Qltb_ge; lra).
    rewrite Hz', Hnz, Hlt. reflexivity.
  - intros Hnz. rewrite Hrate. unfold fdiv.
    apply Qis_zero_false in Hnz. rewrite Hnz. reflexivity.
Qed.

(** ** Monthly spending by category *)

Section Position.
Context {A : Type} (eqb : A -> A -> bool).
Hypothesis eqb_eq : forall a b, eqb a b = true <-> a = b.

Lemma position_In (x : A) (l : list A) :
  In x l -> exists i, position eqb x l = Some i.
Proof.
  induction l as [|y l IH]; simpl; [intros []|].
  intros H. destruct (eqb y x) eqn:E; [eauto|].
  destruct H as [H|H].
  - apply eqb_eq in H. congruence.
  - destruct (IH H) as [i Hi]. rewrite Hi. simpl. eauto.
Qed.

Lemma position_nth_error (x : A) (l : list A) (i : nat) :
  position eqb x l = Some i -> nth_error l i = Some x.
Proof.
  revert i. induction l as [|y l IH]; simpl; intros i; [discriminate|].
  destruct (eqb y x) eqn:E.
  - intros H. injection H as <-. apply eqb_eq in E. subst. reflexivity.
  - destruct (position eqb x l) as [j|]; simpl; [|discriminate].
    intros H. injection H as <-. simpl. apply IH. reflexivity.
Qed.
End Position.

Lemma expenses_of_In (df : DataFrame) (t : Transaction) :
  In t (expenses_of df) <->
  exists u, In u df /\ (Amount u < 0)%Q /\ t = set_Amount u (Qabs (Amount u)).
Proof.
  unfold expenses_of. rewrite in_map_iff. split.
  - intros [u [<- Hu]]. apply filter_In in Hu. destruct Hu as [Hu Hn].
    exists u. repeat split; [exact Hu|apply Qltb_lt, Hn].
  - intros [u [Hu [Hn ->]]]. exists u. split; [reflexivity|].
    apply filter_In. split; [exact Hu|apply Qltb_lt, Hn].
Qed.

Lemma pair_sum_fill (rows : DataFrame) (m : Period) (c : string) :
  match pair_sum rows m c with Some v => v | None => 0%Q end =
  Qsum (map Amount
          (filter (fun t => (Month t =? m) && String.eqb (Category t) c) rows)).
Proof.
  unfold pair_sum.
  destruct (filter (fun t => (Month t =? m) && String.eqb (Category t) c) rows);
    reflexivity.
Qed.

Lemma pivot_table_cell (rows : DataFrame) (fill : Q) (m : Period) (c : string) :
  In m (map Month rows) -> In c (map Category rows) ->
  cell (pivot_table rows fill) m c =
  Some (match pair_sum rows m c with Some v => v | None => fill end).
Proof.
  intros Hm Hc. unfold cell, pivot_table. cbn [index columns values].
  unfold Period in *.
  apply sorted_unique_Z_In in Hm. apply sorted_unique_string_In in Hc.
  destruct (position_In Z.eqb Z.eqb_eq m _ Hm) as [i Hi].
  destruct (position_In String.eqb String.eqb_eq c _ Hc) as [j Hj].
  rewrite Hi, Hj.
  apply (position_nth_error Z.eqb Z.eqb_eq) in Hi.
  apply (position_nth_error String.eqb String.eqb_eq) in Hj.
  rewrite nth_error_map, Hi. cbn [option_map].
  rewrite nth_error_map, Hj. reflexivity.
Qed.

(** C7: the matrix is built from the transactions with a negative amount,
    with their absolute values.  Its rows are the months of these
    transactions, in ascending order, its columns their categories, and it
    is dense: every row has a cell for every column, the sum of the group, 0
    when the month has no expense of that category.  Two expenses of -30 and
    -70 in one month and one category give a cell of 100. *)
Theorem monthly_category_matrix_spec :
  (forall df : DataFrame,
      let p := get_monthly_spending_by_category df in
      StronglySorted Z.lt (index p) /\
      (forall m, In m (index p) <->
                 exists t, In t df /\ (Amount t < 0)%Q /\ Month t = m) /\
      (forall c, In c (columns p) <->
                 exists t, In t df /\ (Amount t < 0)%Q /\ Category t = c) /\
      length (values p) = length (index p) /\
      Forall (fun row => length row = length (columns p)) (values p) /\
      (forall m c, In m (index p) -> In c (columns p) ->
         exists v : Q,
           cell p m c = Some v /\
           v = Qsum (map (fun t => Qabs (Amount t))
                      (filter (fun t => (Month t =? m) && String.eqb (Category t) c)
                              (filter (fun t => Qltb (Amount t) 0) df))) /\
           ((forall t, In t df -> (Amount t < 0)%Q -> Month t = m ->
                       Category t <> c) -> v = 0%Q))) /\
  cell (get_monthly_spending_by_category
          [on_day 2024 1 10 (-30) "Food" "lunch"; on_day 2024 1 20 (-70) "Food" "dinner"])
       (month_period 2024 1) "Food" = Some 100%Q.
Proof.
  split; [|vm_compute; reflexivity].
  intros df p.
  assert (Hidx : forall m, In m (index p) <->
                   exists t, In t df /\ (Amount t < 0)%Q /\ Month t = m).
  { intros m. unfold p, get_monthly_spending_by_category, pivot_table. simpl.
    rewrite sorted_unique_Z_In, in_map_iff. split.
    - intros [t [Hm Ht]]. apply expenses_of_In in Ht.
      destruct Ht as [u [Hu [Hn ->]]]. exists u. auto.
    - intros [u [Hu [Hn Hm]]]. exists (set_Amount u (Qabs (Amount u))).
      split; [exact Hm|]. apply expenses_of_In. exists u. auto. }
  assert (Hcol : forall c, In c (columns p) <->
                   exists t, In t df /\ (Amount t < 0)%Q /\ Category t = c).
  { intros c. unfold p, get_monthly_spending_by_category, pivot_table. simpl.
    rewrite sorted_unique_string_In, in_map_iff. split.
    - intros [t [Hm Ht]]. apply expenses_of_In in Ht.
      destruct Ht as [u [Hu [Hn ->]]]. exists u. auto.
    - intros [u [Hu [Hn Hm]]]. exists (set_Amount u (Qabs (Amount u))).
      split; [exact Hm|]. apply expenses_of_In. exists u. auto. }
  split; [apply sorted_unique_Z_sorted|].
  split; [exact Hidx|]. split; [exact Hcol|].
  split; [apply length_map|].
  split.
  { unfold p, get_monthly_spending_by_category, pivot_table. simpl.
    apply Forall_map, Forall_forall. intros m _. apply length_map. }
  intros m c Hm Hc.
  assert (Hv : cell p m c =
               Some (Qsum (map (fun t => Qabs (Amount t))
                      (filter (fun t => (Month t =? m) && String.eqb (Category t) c)
                              (filter (fun t => Qltb (Amount t) 0) df))))).
  { unfold p, get_monthly_spending_by_category.
    rewrite pivot_table_cell.
    - rewrite pair_sum_fill. f_equal. unfold expenses_of.
      generalize (filter (fun t => Qltb (Amount t) 0) df) as neg.
      intros neg. induction neg as [|t neg IH]; simpl; [reflexivity|].
      change (Month (set_Amount t (Qabs (Amount t)))) with (Month t).
      destruct ((Month t =? m) && String.eqb (Category t) c); simpl;
        rewrite IH; reflexivity.
    - apply (proj1 (sorted_unique_Z_In _ _)). exact Hm.
    - apply (proj1 (sorted_unique_string_In _ _)). exact Hc. }
  eexists. split; [exact Hv|]. split; [reflexivity|].
  intros Hno.
  assert (E : filter (fun t => (Month t =? m) && String.eqb (Category t) c)
                     (filter (fun t => Qltb (Amount t) 0) df) = []).
  { destruct (filter (fun t => (Month t =? m) && String.eqb (Category t) c)
                     (filter (fun t => Qltb (Amount t) 0) df)) as [|t l] eqn:E;
      [reflexivity|].
    assert (Ht : In t (t :: l)) by (left; reflexivity).
    rewrite <- E in Ht. apply filter_In in Ht. destruct Ht as [Ht Hmc].
    apply filter_In in Ht. destruct Ht as [Ht Hn].
    apply andb_true_iff in Hmc. destruct Hmc as [Hm' Hc'].
    apply Z.eqb_eq in Hm'. apply String.eqb_eq in Hc'. apply Qltb_lt in Hn.
    exfalso. exact (Hno t Ht Hn Hm' Hc'). }
  rewrite E. reflexivity.
Qed.

(* ------------------------------------------------------------------ *)
(** * Further properties of the store, the views and the menu *)

(** ** Order facts *)

Lemma StronglySorted_app_inv {A : Type} (R : A -> A -> Prop) (l1 l2 : list A) :
  StronglySorted R (l1 ++ l2) ->
  forall a b, In a l1 -> In b l2 -> R a b.
Proof.
  induction l1 as [|x l1 IH]; simpl; intros Hs a b Ha Hb; [contradiction|].
  inversion Hs as [|? ? Hs' Hx]; subst.
  destruct Ha as [<-|Ha].
  - rewrite Forall_forall in Hx. apply Hx. apply in_or_app. right. exact Hb.
  - apply IH; assumption.
Qed.

Lemma StronglySorted_lt_NoDup (l : list Z) : StronglySorted Z.lt l -> NoDup l.
Proof.
  induction 1 as [|x l Hs IH Hx]; constructor; [|exact IH].
  intros Hin. rewrite Forall_forall in Hx. specialize (Hx x Hin). lia.
Qed.

Lemma string_compare_OT (a b : string) :
  String.compare a b = OrdersEx.String_as_OT.compare a b.
Proof.
  reflexivity.
Qed.

Lemma string_lt_trans (a b c : string) : string_lt a b -> string_lt b c -> string_lt a c.
Proof.
  unfold string_lt. rewrite !string_compare_OT.
  apply OrdersEx.String_as_OT.lt_strorder.
Qed.

Lemma string_lt_irrefl (a : string) : ~ string_lt a a.
Proof.
  unfold string_lt. rewrite string_compare_OT.
  apply OrdersEx.String_as_OT.lt_strorder.
Qed.

Lemma string_compare_Gt (a b : string) : String.compare a b = Gt -> string_lt b a.
Proof.
  unfold string_lt. intros H. rewrite String.compare_antisym, H. reflexivity.
Qed.

Lemma insert_unique_string_sorted (x : string) (l : list string) :
  StronglySorted string_lt l ->
  StronglySorted string_lt (insert_unique String.compare x l).
Proof.
  induction 1 as [|y l Hs IH Hy]; simpl.
  - repeat constructor.
  - destruct (String.compare x y) eqn:E.
    + constructor; assumption.
    + constructor.
      * constructor; assumption.
      * constructor; [exact E|].
        eapply Forall_impl; [|exact Hy]. intros z Hz.
        exact (string_lt_trans x y z E Hz).
    + apply string_compare_Gt in E. constructor; [exact IH|].
      apply Forall_forall. intros z Hz.
      apply insert_unique_In_inv in Hz. destruct Hz as [->|Hz]; [exact E|].
      rewrite Forall_forall in Hy. auto.
Qed.

Lemma sorted_unique_string_sorted (l : list string) :
  StronglySorted string_lt (sorted_unique String.compare l).
Proof.
  induction l as [|x l IH]; simpl.
  - constructor.
  - apply insert_unique_string_sorted, IH.
Qed.

Lemma sorted_unique_string_NoDup (l : list string) :
  NoDup (sorted_unique String.compare l).
Proof.
  generalize (sorted_unique_string_sorted l).
  generalize (sorted_unique String.compare l). intros s.
  induction 1 as [|x s Hs IH Hx]; constructor; [|exact IH].
  intros Hin. rewrite Forall_forall in Hx.
  exact (string_lt_irrefl x (Hx x Hin)).
Qed.

(** ** What the sign convention keeps *)

Lemma sign_row_keeps (t : Transaction) :
  Date (sign_row t) = Date t /\ Category (sign_row t) = Category t /\
  Description (sign_row t) = Description t /\
  Qabs (Amount (sign_row t)) = Qabs (Amount t).
Proof.
  unfold sign_row. destruct (is_Income (Category t)); simpl; repeat split.
  - destruct (Amount t) as [n k]. simpl. f_equal. apply Z.abs_idemp.
  - destruct (Amount t) as [n k]. simpl. f_equal.
    rewrite Z.abs_opp. apply Z.abs_idemp.
Qed.

(** X2: the sign convention of [load_data] changes nothing but the sign:
    row by row, the date, the category, the description and the magnitude
    of the amount are kept, and the number of rows too. *)
Theorem sign_convention_keeps_magnitude (df : DataFrame) :
  length (apply_sign_convention df) = length df /\
  Forall2 (fun t t' => Date t' = Date t /\ Category t' = Category t /\
                       Description t' = Description t /\
                       Qabs (Amount t') = Qabs (Amount t))
          df (apply_sign_convention df).
Proof.
  rewrite apply_sign_convention_map. split; [apply length_map|].
  induction df as [|t df IH]; simpl; constructor; [|exact IH].
  apply sign_row_keeps.
Qed.


(** ** Recent transactions and the last six months *)

Lemma iloc_last_suffix {A : Type} (n : nat) (l : list A) :
  (0 < n)%nat ->
  firstn (length l - n) l ++ iloc_last n l = l /\
  length (iloc_last n l) = Nat.min n (length l).
Proof.
  intros Hn. unfold iloc_last.
  destruct (Nat.eqb n 0) eqn:E; [apply Nat.eqb_eq in E; lia|].
  split; [apply firstn_skipn|]. rewrite length_skipn. lia.
Qed.

Lemma last_six_suffix {A : Type} (l : list A) :
  l <> [] ->
  firstn (length l - 6) l ++ last_six l = l /\
  length (last_six l) = Nat.min 6 (length l).
Proof.
  intros Hne. unfold last_six.
  assert (Hlen : (0 < length l)%nat) by (destruct l; [congruence|simpl; lia]).
  destruct (iloc_last_suffix (Nat.min 6 (length l)) l) as [Happ Hl]; [lia|].
  split; [|lia].
  replace (length l - 6)%nat with (length l - Nat.min 6 (length l))%nat by lia.
  exact Happ.
Qed.

Lemma summary_months_sorted (df : DataFrame) :
  StronglySorted Z.lt (map fst (get_income_vs_expenses_chart df)).
Proof.
  unfold get_income_vs_expenses_chart. rewrite map_map. simpl.
  rewrite map_id. apply sorted_unique_Z_sorted.
Qed.

Lemma StronglySorted_app_r {A : Type} (R : A -> A -> Prop) (l1 l2 : list A) :
  StronglySorted R (l1 ++ l2) -> StronglySorted R l2.
Proof.
  induction l1 as [|x l1 IH]; simpl; intros H; [exact H|].
  inversion H; subst. auto.
Qed.

(** X3: when the summary is not empty, the income and expenses plot of the
    dashboard shows its last rows, six of them or all if there are fewer,
    and these are the latest months: every month left out is earlier than
    every month shown, and the months shown are in ascending order. *)
Theorem dashboard_shows_latest_months (now : Timestamp) (df : DataFrame)
    (v : DashboardData) :
  visualize_dashboard now df = Ok v ->
  get_income_vs_expenses_chart df <> [] ->
  exists left_out shown,
    income_expenses_plot v = Some shown /\
    savings_rate_plot v =
      Some (map (fun mr => (fst mr, Savings_Rate (snd mr))) shown) /\
    get_income_vs_expenses_chart df = left_out ++ shown /\
    length shown = Nat.min 6 (length (get_income_vs_expenses_chart df)) /\
    StronglySorted Z.lt (map fst shown) /\
    (forall m m', In m (map fst left_out) -> In m' (map fst shown) -> m < m').
Proof.
  intros Hv Hne. unfold visualize_dashboard in Hv.
  destruct (get_balance_over_time_history df) as [b|e]; simpl in Hv; [|discriminate].
  injection Hv as <-. cbn [income_expenses_plot savings_rate_plot].
  pose proof (summary_months_sorted df) as Hsorted.
  destruct (last_six_suffix (get_income_vs_expenses_chart df) Hne) as [Happ Hlen].
  set (s := get_income_vs_expenses_chart df) in *.
  assert (Hshown : last_six s <> []).
  { intros E. rewrite E in Hlen. simpl in Hlen.
    destruct s; [congruence|simpl in Hlen; lia]. }
  exists (firstn (length s - 6) s), (last_six s).
  assert (Hcase : match s with [] => s | _ :: _ => last_six s end = last_six s)
    by (destruct s; [congruence|reflexivity]).
  rewrite Hcase.
  rewrite <- Happ, map_app in Hsorted.
  split; [destruct (last_six s); [congruence|reflexivity]|].
  split; [destruct (last_six s); [congruence|reflexivity]|].
  split; [symmetry; exact Happ|]. split; [exact Hlen|]. split.
  - exact (StronglySorted_app_r _ _ _ Hsorted).
  - intros m m'. apply StronglySorted_app_inv. exact Hsorted.
Qed.

Lemma dashboard_shows_latest_months_witness :
  exists left_out shown,
    get_income_vs_expenses_chart
      [on_day 2024 1 3 (-1) "Food" "a"; on_day 2024 2 3 (-2) "Food" "b";
       on_day 2024 3 3 (-3) "Food" "c"; on_day 2024 4 3 (-4) "Food" "d";
       on_day 2024 5 3 (-5) "Food" "e"; on_day 2024 6 3 (-6) "Food" "f";
       on_day 2024 7 3 70 "Income" "g"] = left_out ++ shown /\
    length shown = 6%nat.
Proof.
  destruct (visualize_dashboard (midnight 2024 7 4)
      [on_day 2024 1 3 (-1) "Food" "a"; on_day 2024 2 3 (-2) "Food" "b";
       on_day 2024 3 3 (-3) "Food" "c"; on_day 2024 4 3 (-4) "Food" "d";
       on_day 2024 5 3 (-5) "Food" "e"; on_day 2024 6 3 (-6) "Food" "f";
       on_day 2024 7 3 70 "Income" "g"]) as [v|e] eqn:Hv;
    [|vm_compute in Hv; discriminate Hv].
  destruct (dashboard_shows_latest_months _ _ v Hv)
    as [left_out [shown [_ [_ [Happ [Hlen _]]]]]]; [vm_compute; discriminate|].
  exists left_out, shown. split; [exact Happ|].
  rewrite Hlen. vm_compute. reflexivity.
Defined.

(** X4: after a transaction has been added, menu entry 3 shows the first
    ten rows of the table, or all if there are fewer, and these are the
    latest: no row left out has a later date than a row shown. *)
Theorem recent_transactions_are_latest to_datetime (d d' : Dashboard)
    (date : date_arg) (amount : Q) (category description : string) :
  add_transaction to_datetime d date amount category description = Ok d' ->
  length (recent_transactions d') = Nat.min 10 (S (length (transactions d))) /\
  exists older,
    transactions d' = recent_transactions d' ++ older /\
    forall t u, In t (recent_transactions d') -> In u older -> Date u <= Date t.
Proof.
  intros Hadd. apply add_transaction_inv in Hadd. destruct Hadd as [ts [_ [Ht _]]].
  assert (Hlen : length (transactions d') = S (length (transactions d))).
  { rewrite Ht, (Permutation_length (sort_values_Date_desc_perm _)), length_app.
    simpl. lia. }
  unfold recent_transactions. split.
  - rewrite length_firstn, Hlen. lia.
  - exists (skipn (Nat.min 10 (length (transactions d'))) (transactions d')).
    split; [symmetry; apply firstn_skipn|].
    intros t u Hin Hu.
    assert (Hs : StronglySorted date_desc (transactions d'))
      by (rewrite Ht; apply sort_values_Date_desc_sorted).
    rewrite <- (firstn_skipn (Nat.min 10 (length (transactions d')))) in Hs.
    exact (StronglySorted_app_inv date_desc _ _ Hs t u Hin Hu).
Qed.

Lemma recent_transactions_are_latest_witness :
  length (recent_transactions
            (mkDashboard [on_day 2024 3 1 500 "Income" "salary";
                          on_day 2024 2 1 (-120) "Food" "dinner"]
                         (Some [on_day 2024 3 1 500 "Income" "salary";
                                on_day 2024 2 1 (-120) "Food" "dinner"]))) = 2%nat.
Proof.
  apply (recent_transactions_are_latest iso_to_datetime
           (mkDashboard [on_day 2024 3 1 500 "Income" "salary"] None)
           _ (DateStr "2024-02-01") 120 "Food" "dinner").
  vm_compute. reflexivity.
Defined.

(** ** The running balance *)

Lemma days_between_sorted (first_day last_day : Z) :
  StronglySorted Z.lt (days_between first_day last_day).
Proof.
  unfold days_between.
  generalize (Z.to_nat (last_day - first_day + 1)) as n.
  generalize 0%nat as s. intros s n. revert s.
  induction n as [|n IH]; intros s; simpl; constructor; [apply IH|].
  apply Forall_forall. intros y Hy. apply in_map_iff in Hy.
  destruct Hy as [i [<- Hi]]. apply in_seq in Hi. lia.
Qed.

Lemma StronglySorted_middle (l1 l2 : list Z) (k : Z) :
  StronglySorted Z.lt (l1 ++ k :: l2) ->
  (forall j, In j l1 -> j < k) /\ (forall j, In j l2 -> k < j).
Proof.
  intros Hs. split.
  - intros j Hj. apply (StronglySorted_app_inv Z.lt l1 (k :: l2) Hs); simpl; auto.
  - intros j Hj. apply StronglySorted_app_r in Hs. inversion Hs as [|? ? _ Hk]; subst.
    rewrite Forall_forall in Hk. auto.
Qed.

Lemma Qsum_cons (a : Q) (l : list Q) : Qsum (a :: l) = (a + Qsum l)%Q.
Proof. reflexivity. Qed.

(** An entry of a running sum is the sum of the column up to it. *)
Lemma cumsum_from_entry (acc : Q) (s : Series) (k : Z) (v : Q) :
  In (k, v) (cumsum_from acc s) ->
  exists pre x post,
    s = pre ++ (k, x) :: post /\ (v == acc + Qsum (map snd pre) + x)%Q.
Proof.
  revert acc. induction s as [|[k' x'] s IH]; intros acc; simpl; [intros []|].
  intros [H|H].
  - injection H as -> <-. exists [], x', s. split; [reflexivity|]. simpl. lra.
  - destruct (IH _ H) as [pre [x [post [-> Hv]]]].
    exists ((k', x') :: pre), x, post. split; [reflexivity|].
    simpl. rewrite Hv. lra.
Qed.

Lemma cumsum_entry (s : Series) (k : Z) (v : Q) :
  In (k, v) (cumsum s) ->
  exists pre x post,
    s = pre ++ (k, x) :: post /\ (v == Qsum (map snd pre) + x)%Q.
Proof.
  destruct s as [|[k' x'] s]; simpl; [intros []|].
  intros [H|H].
  - injection H as -> <-. exists [], x', s. split; [reflexivity|]. simpl. lra.
  - destruct (cumsum_from_entry _ _ _ _ H) as [pre [x [post [-> Hv]]]].
    exists ((k', x') :: pre), x, post. split; [reflexivity|].
    simpl. rewrite Hv. lra.
Qed.

Lemma group_filter_upto (key : Transaction -> Z) (j k : Z) (df : DataFrame) :
  j <= k ->
  group key j (filter (fun t => key t <=? k) df) = group key j df.
Proof.
  intros Hj. unfold group. induction df as [|t df IH]; simpl; [reflexivity|].
  destruct (key t <=? k) eqn:E; simpl.
  - destruct (key t =? j); [f_equal|]; exact IH.
  - apply Z.leb_gt in E.
    destruct (key t =? j) eqn:E'; [apply Z.eqb_eq in E'; lia|exact IH].
Qed.

Lemma balance_history_inv (df : DataFrame) (h : Series) :
  get_balance_over_time_history df = Ok h ->
  exists first_day last_day,
    (forall t, In t df -> first_day <= date (Date t) <= last_day) /\
    h = cumsum (map (fun k => (k, Qsum (map Amount
                                 (group (fun t => date (Date t)) k df))))
                    (days_between first_day last_day)).
Proof.
  intros Hh. destruct df as [|t0 df]; [discriminate|].
  unfold get_balance_over_time_history in Hh.
  cbn [map Series_min Series_max date_range bind] in Hh.
  fold (days_between
          (date (fold_left Z.min (map Date df) (Date t0)))
          (date (fold_left Z.max (map Date df) (Date t0)))) in Hh.
  rewrite reindex_groupby_sum in Hh. injection Hh as <-.
  destruct (fold_min_spec (map Date df) (Date t0)) as [_ Hlo].
  destruct (fold_max_spec (map Date df) (Date t0)) as [_ Hhi].
  eexists. eexists. split; [|reflexivity].
  intros t Ht. split; apply date_monotone.
  - apply Hlo. change (In (Date t) (map Date (t0 :: df))). apply in_map, Ht.
  - apply Hhi. change (In (Date t) (map Date (t0 :: df))). apply in_map, Ht.
Qed.

(** X5: on whole amounts, where the sums of the machine are exact, every
    entry of the balance history is the balance at the end of its day: the
    sum of the amounts of all transactions dated on that day or before. *)
Theorem balance_history_is_running_balance (df : DataFrame) (h : Series)
    (day : Z) (v : Q) :
  whole_amounts df = true ->
  get_balance_over_time_history df = Ok h ->
  In (day, v) h ->
  (v == Qsum (map Amount (filter (fun t => date (Date t) <=? day) df)))%Q.
Proof.
  intros _ Hh Hin.
  destruct (balance_history_inv df h Hh) as [first_day [last_day [Hcover ->]]].
  set (key := fun t : Transaction => date (Date t)) in *.
  set (S := fun k : Z => Qsum (map Amount (group key k df))) in *.
  destruct (cumsum_entry _ _ _ Hin) as [pre [x [post [Hsplit Hv]]]].
  apply map_eq_app in Hsplit. destruct Hsplit as [d1 [d2' [Hdays [Hpre Hrest]]]].
  apply map_eq_cons in Hrest. destruct Hrest as [k' [d2 [-> [Hk Hpost]]]].
  injection Hk as -> Hx. subst pre x.
  pose proof (days_between_sorted first_day last_day) as Hsorted.
  pose proof (days_between_NoDup first_day last_day) as Hnd.
  rewrite Hdays in Hsorted, Hnd.
  destruct (StronglySorted_middle _ _ _ Hsorted) as [Hbefore Hafter].
  assert (Hday : first_day <= day <= last_day).
  { apply days_between_In. rewrite Hdays. apply in_or_app. right. left. reflexivity. }
  assert (Hv' : (v == Qsum (map S d1) + S day)%Q)
    by (rewrite Hv, map_map; reflexivity).
  rewrite Hv'. clear Hv Hv'.
  set (upto := filter (fun t => key t <=? day) df).
  assert (Hsum : (Qsum (map (fun k => Qsum (map Amount (group key k upto)))
                          (day :: d1)) == Qsum (map Amount upto))%Q).
  { apply Qsum_groups.
    - apply NoDup_app_remove_r with (l' := d2).
      apply (Permutation_NoDup (l := d1 ++ day :: d2)); [|exact Hnd].
      symmetry. apply (Permutation_middle d1 d2 day).
    - intros t Ht. apply filter_In in Ht. destruct Ht as [Ht Hle].
      apply Z.leb_le in Hle.
      destruct (Z.eq_dec (key t) day) as [E|E]; [left; auto|right].
      assert (Hin' : In (key t) (d1 ++ day :: d2)).
      { rewrite <- Hdays. apply days_between_In.
        specialize (Hcover t Ht). unfold key. lia. }
      apply in_app_or in Hin'. destruct Hin' as [H|[H|H]]; [exact H|congruence|].
      specialize (Hafter _ H). lia. }
  change (filter (fun t => date (Date t) <=? day) df) with upto.
  rewrite <- Hsum. cbn [map]. rewrite Qsum_cons.
  unfold upto. rewrite group_filter_upto by lia. fold (S day).
  assert (Heq : map (fun k => Qsum (map Amount
                       (group key k (filter (fun t => key t <=? day) df)))) d1 =
                map S d1).
  { apply map_ext_in. intros j Hj. rewrite group_filter_upto; [reflexivity|].
    specialize (Hbefore j Hj). lia. }
  rewrite Heq. lra.
Qed.

Lemma balance_history_is_running_balance_witness :
  (950 == Qsum (map Amount
        (filter (fun t => date (Date t) <=? days_from_civil 2024 1 2)
           [on_day 2024 1 1 (-50) "Food" "lunch";
            on_day 2024 1 2 1000 "Income" "salary";
            on_day 2024 1 4 (-20) "Other" "pen"])))%Q.
Proof.
  apply (balance_history_is_running_balance
           [on_day 2024 1 1 (-50) "Food" "lunch";
            on_day 2024 1 2 1000 "Income" "salary";
            on_day 2024 1 4 (-20) "Other" "pen"]
           [(days_from_civil 2024 1 1, -50); (days_from_civil 2024 1 2, 950);
            (days_from_civil 2024 1 3, 950); (days_from_civil 2024 1 4, 930)]%Q
           (days_from_civil 2024 1 2) 950).
  - vm_compute. reflexivity.
  - vm_compute. reflexivity.
  - right. left. reflexivity.
Defined.



(** ** The monthly summary as a whole *)

Lemma summary_In_row (df : DataFrame) (m : Period) (r : SummaryRow) :
  In (m, r) (get_income_vs_expenses_chart df) ->
  summary_row m (get_income_vs_expenses_chart df) = Some r.
Proof.
  intros Hin. unfold get_income_vs_expenses_chart in Hin.
  apply in_map_iff in Hin. destruct Hin as [m' [Heq Hm]].
  injection Heq as -> <-.
  apply summary_row_present. apply summary_months_In. exact Hm.
Qed.

Lemma group_absent_sum (key : Transaction -> Z) (k : Z) (rows : DataFrame) :
  ~ In k (map key rows) -> Qsum (map Amount (group key k rows)) = 0%Q.
Proof.
  intros H. apply group_nil_iff in H. rewrite H. reflexivity.
Qed.

(** The columns of a row are the two monthly sums and their difference. *)
Lemma summary_row_sums (df : DataFrame) (m : Period) (r : SummaryRow) :
  In (m, r) (get_income_vs_expenses_chart df) ->
  Income r = Finite (month_income df m) /\
  Expenses r = Finite (month_expenses df m) /\
  Savings r = Finite (month_income df m - month_expenses df m) /\
  (0 <= month_income df m)%Q /\ (0 <= month_expenses df m)%Q.
Proof.
  intros Hin. apply summary_In_row in Hin. apply summary_row_inv in Hin.
  destruct Hin as [i [e [Hi [He [Hs [_ [_ [Hi1 [Hi0 [He1 He0]]]]]]]]]].
  assert (Ei : i = month_income df m /\ (0 <= i)%Q).
  { destruct (In_dec_Z m (map Month (income_of df))) as [H|H].
    - destruct (Hi1 H) as [-> Hp]. split; [reflexivity|lra].
    - rewrite (Hi0 H). split; [|lra].
      symmetry. apply group_absent_sum. exact H. }
  assert (Ee : e = month_expenses df m /\ (0 <= e)%Q).
  { destruct (In_dec_Z m (map Month (expenses_of df))) as [H|H].
    - destruct (He1 H) as [-> Hp]. split; [reflexivity|lra].
    - rewrite (He0 H). split; [|lra].
      symmetry. apply group_absent_sum. exact H. }
  destruct Ei as [-> Hi']. destruct Ee as [-> He'].
  repeat split; assumption.
Qed.

(** X7: on whole amounts, which are finite and whose sums are exact, in
    every row of the monthly summary the income and the expenses are finite
    and not negative, and the savings rate is either minus infinity or a
    finite number of at most 100; it is never NaN and never plus
    infinity. *)
Theorem savings_rate_range (df : DataFrame) (m : Period) (r : SummaryRow) :
  whole_amounts df = true ->
  In (m, r) (get_income_vs_expenses_chart df) ->
  (exists i e : Q, Income r = Finite i /\ Expenses r = Finite e /\
                   (0 <= i)%Q /\ (0 <= e)%Q) /\
  (Savings_Rate r = NegInf \/
   exists q : Q, Savings_Rate r = Finite q /\ (q <= 100)%Q).
Proof.
  intros _ Hin. pose proof (summary_row_sums df m r Hin) as [Hi [He [_ [Hi0 He0]]]].
  split; [exists (month_income df m), (month_expenses df m); auto|].
  apply summary_In_row in Hin. apply summary_row_inv in Hin.
  destruct Hin as [i [e [Hi' [He' [_ [Hrate [Hor [Hi1 [Hi2 [He1 _]]]]]]]]]].
  rewrite Hi in Hi'. injection Hi' as <-.
  rewrite He in He'. injection He' as <-.
  rewrite Hrate. unfold fdiv.
  destruct (Qis_zero (month_income df m)) eqn:Ez.
  - left. apply Qis_zero_true in Ez.
    assert (Hno : ~ In m (map Month (income_of df))).
    { intros H. destruct (Hi1 H) as [_ Hp]. lra. }
    assert (Hpos : (0 < month_expenses df m)%Q)
      by (destruct Hor as [H|H]; [contradiction|apply He1, H]).
    assert (Hnz : Qis_zero (month_income df m - month_expenses df m) = false)
      by (apply Qis_zero_false; lra).
    assert (Hlt : Qltb 0 (month_income df m - month_expenses df m) = false)
      by (apply Qltb_ge; lra).
    rewrite Hnz, Hlt. reflexivity.
  - right. eexists. split; [reflexivity|].
    apply Qis_zero_false in Ez.
    set (i := month_income df m) in *. set (e := month_expenses df m) in *.
    assert (Hipos : (0 < i)%Q) by (destruct (Qlt_le_dec 0 i); [assumption|lra]).
    assert (Hinv : (0 < / i)%Q) by (apply Qinv_lt_0_compat; exact Hipos).
    assert (Hq : ((i - e) / i * 100 == 100 - e * / i * 100)%Q) by (field; exact Ez).
    rewrite Hq.
    assert (0 <= e * / i)%Q by (apply Qmult_le_0_compat; lra).
    lra.
Qed.

Lemma savings_rate_range_witness :
  Savings_Rate (mkSummaryRow (Finite 1000) (Finite 250) (Finite 750)
                             (Finite (750 / 1000 * 100))) = NegInf \/
  exists q : Q,
    Savings_Rate (mkSummaryRow (Finite 1000) (Finite 250) (Finite 750)
                               (Finite (750 / 1000 * 100))) = Finite q /\
    (q <= 100)%Q.
Proof.
  apply (savings_rate_range
           [on_day 2024 2 1 1000 "Income" "salary"; on_day 2024 2 3 (-250) "Food" "food"]
           (month_period 2024 2)).
  - vm_compute. reflexivity.
  - vm_compute. left. reflexivity.
Defined.

Lemma Qsum_map_sub {A : Type} (f g : A -> Q) (l : list A) :
  (Qsum (map (fun x => f x - g x) l) == Qsum (map f l) - Qsum (map g l))%Q.
Proof.
  induction l as [|x l IH]; simpl; [lra|]. rewrite IH. lra.
Qed.

Lemma Qsum_income_expenses (df : DataFrame) :
  (Qsum (map Amount df) ==
   Qsum (map Amount (income_of df)) - Qsum (map Amount (expenses_of df)))%Q.
Proof.
  unfold income_of, expenses_of.
  induction df as [|t df IH]; simpl; [lra|].
  destruct (Qltb 0 (Amount t)) eqn:Ep; destruct (Qltb (Amount t) 0) eqn:En; simpl.
  - apply Qltb_lt in Ep. apply Qltb_lt in En. lra.
  - rewrite IH. lra.
  - apply Qltb_lt in En. rewrite IH.
    rewrite (Qabs_neg (Amount t)) by lra. lra.
  - apply Qltb_ge in Ep. apply Qltb_ge in En. rewrite IH. lra.
Qed.

Lemma summary_months_cover (df : DataFrame) (rows : DataFrame) :
  rows = income_of df \/ rows = expenses_of df ->
  forall t, In t rows ->
    In (Month t) (map fst (get_income_vs_expenses_chart df)).
Proof.
  intros Hrows t Ht. unfold get_income_vs_expenses_chart.
  rewrite map_map. simpl. rewrite map_id. apply summary_months_In.
  destruct Hrows as [->| ->]; [left|right]; apply in_map; exact Ht.
Qed.

Lemma summary_column (df : DataFrame) (col : SummaryRow -> float64)
    (f : Period -> Q) :
  (forall m r, In (m, r) (get_income_vs_expenses_chart df) -> col r = Finite (f m)) ->
  map (fun mr => finite_part (col (snd mr))) (get_income_vs_expenses_chart df) =
  map f (map fst (get_income_vs_expenses_chart df)).
Proof.
  intros H. rewrite map_map. apply map_ext_in. intros [m r] Hin.
  simpl. rewrite (H m r Hin). reflexivity.
Qed.

(** X8: on whole amounts, where the sums of the machine are exact, over
    the months of the summary the incomes add up to the sum of the positive
    amounts of the table, the expenses to the sum of the magnitudes of its
    negative amounts, and the savings to the sum of all its amounts, which
    is the last balance of the balance history. *)
Theorem summary_totals (df : DataFrame) :
  whole_amounts df = true ->
  let s := get_income_vs_expenses_chart df in
  (Qsum (map (fun mr => finite_part (Income (snd mr))) s) ==
   Qsum (map Amount (income_of df)))%Q /\
  (Qsum (map (fun mr => finite_part (Expenses (snd mr))) s) ==
   Qsum (map Amount (expenses_of df)))%Q /\
  (Qsum (map (fun mr => finite_part (Savings (snd mr))) s) ==
   Qsum (map Amount df))%Q /\
  (forall h, get_balance_over_time_history df = Ok h ->
     (last (map snd h) 0 ==
      Qsum (map (fun mr => finite_part (Savings (snd mr))) s))%Q).
Proof.
  intros _ s. unfold s.
  pose proof (StronglySorted_lt_NoDup _ (summary_months_sorted df)) as Hnd.
  assert (Hinc : (Qsum (map (month_income df)
                          (map fst (get_income_vs_expenses_chart df))) ==
                  Qsum (map Amount (income_of df)))%Q).
  { apply (Qsum_groups Month _ Hnd (income_of df)).
    apply summary_months_cover. left. reflexivity. }
  assert (Hexp : (Qsum (map (month_expenses df)
                          (map fst (get_income_vs_expenses_chart df))) ==
                  Qsum (map Amount (expenses_of df)))%Q).
  { apply (Qsum_groups Month _ Hnd (expenses_of df)).
    apply summary_months_cover. right. reflexivity. }
  assert (Hsav : (Qsum (map (fun mr => finite_part (Savings (snd mr)))
                          (get_income_vs_expenses_chart df)) ==
                  Qsum (map Amount df))%Q).
  { rewrite (summary_column df Savings
               (fun m => month_income df m - month_expenses df m)%Q)
      by (intros m r Hin; apply (summary_row_sums df m r Hin)).
    rewrite Qsum_map_sub, Hinc, Hexp. symmetry. apply Qsum_income_expenses. }
  split; [|split; [|split]].
  - rewrite (summary_column df Income (month_income df))
      by (intros m r Hin; apply (summary_row_sums df m r Hin)).
    exact Hinc.
  - rewrite (summary_column df Expenses (month_expenses df))
      by (intros m r Hin; apply (summary_row_sums df m r Hin)).
    exact Hexp.
  - exact Hsav.
  - intros h Hh. rewrite Hsav.
    destruct df as [|t0 df]; [discriminate|].
    destruct (balance_history_nonempty (t0 :: df))
      as [h' [a [b [Hh' [_ [_ [_ [_ [_ Hlast]]]]]]]]]; [discriminate|].
    rewrite Hh in Hh'. injection Hh' as <-. exact Hlast.
Qed.

Lemma summary_totals_witness :
  (Qsum (map (fun mr => finite_part (Savings (snd mr)))
             (get_income_vs_expenses_chart
                [on_day 2024 2 5 (-300) "Food" "groceries";
                 on_day 2024 1 10 1000 "Income" "salary"])) ==
   Qsum (map Amount [on_day 2024 2 5 (-300) "Food" "groceries";
                     on_day 2024 1 10 1000 "Income" "salary"]))%Q.
Proof.
  assert (Hwhole : whole_amounts
             [on_day 2024 2 5 (-300) "Food" "groceries";
              on_day 2024 1 10 1000 "Income" "salary"] = true)
    by (vm_compute; reflexivity).
  exact (proj1 (proj2 (proj2 (summary_totals _ Hwhole)))).
Defined.

(** ** Spending by category, by month and in the current month *)

Lemma filter_category_other (c c0 : string) (rows : DataFrame) :
  c <> c0 ->
  filter (fun t => String.eqb (Category t) c)
         (filter (fun t => negb (String.eqb (Category t) c0)) rows) =
  filter (fun t => String.eqb (Category t) c) rows.
Proof.
  intros Hc. induction rows as [|t rows IH]; simpl; [reflexivity|].
  destruct (String.eqb (Category t) c0) eqn:E0; simpl.
  - apply String.eqb_eq in E0.
    destruct (String.eqb (Category t) c) eqn:E;
      [apply String.eqb_eq in E; congruence|exact IH].
  - destruct (String.eqb (Category t) c); [f_equal|]; exact IH.
Qed.

(** Summing the groups of every category of a duplicate-free list that
    covers the rows gives the sum of the whole column. *)
Lemma Qsum_categories (idx : list string) :
  NoDup idx ->
  forall rows : DataFrame,
    (forall t, In t rows -> In (Category t) idx) ->
    (Qsum (map (fun c => Qsum (map Amount
                   (filter (fun t => String.eqb (Category t) c) rows))) idx) ==
     Qsum (map Amount rows))%Q.
Proof.
  induction 1 as [|c0 idx Hc0 Hnd IH]; intros rows Hcover.
  - destruct rows as [|t rows]; [simpl; lra|].
    exfalso. exact (Hcover t (or_introl eq_refl)).
  - cbn [map]. rewrite Qsum_cons.
    rewrite (Qsum_partition (fun t => String.eqb (Category t) c0) rows).
    set (rest := filter (fun t => negb (String.eqb (Category t) c0)) rows).
    assert (Hrest : forall t, In t rest -> In (Category t) idx).
    { intros t Ht. apply filter_In in Ht. destruct Ht as [Ht Hne].
      apply negb_true_iff, String.eqb_neq in Hne.
      destruct (Hcover t Ht) as [H|H]; [congruence|exact H]. }
    rewrite <- (IH rest Hrest).
    assert (Heq : map (fun c => Qsum (map Amount
                         (filter (fun t => String.eqb (Category t) c) rest))) idx =
                  map (fun c => Qsum (map Amount
                         (filter (fun t => String.eqb (Category t) c) rows))) idx).
    { apply map_ext_in. intros c Hc. unfold rest.
      rewrite filter_category_other; [reflexivity|].
      intros ->. contradiction. }
    rewrite Heq. lra.
Qed.

Lemma filter_month_category (m : Period) (c : string) (rows : DataFrame) :
  filter (fun t => String.eqb (Category t) c) (group Month m rows) =
  filter (fun t => (Month t =? m) && String.eqb (Category t) c) rows.
Proof.
  unfold group. induction rows as [|t rows IH]; simpl; [reflexivity|].
  destruct (Month t =? m); simpl; [|exact IH].
  destruct (String.eqb (Category t) c); [f_equal|]; exact IH.
Qed.

Lemma position_notin {A : Type} (eqb : A -> A -> bool) (x : A) (l : list A) :
  (forall a b, eqb a b = true -> a = b) ->
  ~ In x l -> position eqb x l = None.
Proof.
  intros Heq. induction l as [|y l IH]; simpl; [reflexivity|].
  intros Hn. destruct (eqb y x) eqn:E.
  - apply Heq in E. exfalso. auto.
  - rewrite IH by auto. reflexivity.
Qed.

(** A cell, 0 where the table has none. *)
Lemma cell_or_zero (df : DataFrame) (m : Period) (c : string) :
  In c (columns (get_monthly_spending_by_category df)) ->
  match cell (get_monthly_spending_by_category df) m c with
  | Some v => v
  | None => 0%Q
  end =
  Qsum (map Amount
          (filter (fun t => (Month t =? m) && String.eqb (Category t) c)
                  (expenses_of df))).
Proof.
  intros Hc. unfold get_monthly_spending_by_category in *.
  destruct (In_dec_Z m (map Month (expenses_of df))) as [Hm|Hm].
  - rewrite pivot_table_cell; [apply pair_sum_fill|exact Hm|].
    apply (proj1 (sorted_unique_string_In _ _)). exact Hc.
  - unfold cell, pivot_table. cbn [index columns values]. unfold Period in *.
    rewrite (position_notin Z.eqb m).
    + rewrite <- filter_month_category.
      apply group_nil_iff in Hm. rewrite Hm. reflexivity.
    + intros a b. apply Z.eqb_eq.
    + rewrite sorted_unique_Z_In. exact Hm.
Qed.

(** X9: on whole amounts, where the sums of the machine are exact, the two
    monthly views agree: for every month of the summary, its expenses are
    the sum of the cells of that month's row in the matrix of spending by
    category (0 when the matrix has no such row). *)
Theorem matrix_row_adds_up_to_expenses (df : DataFrame) (m : Period)
    (r : SummaryRow) :
  whole_amounts df = true ->
  In (m, r) (get_income_vs_expenses_chart df) ->
  exists e : Q,
    Expenses r = Finite e /\
    (Qsum (map (fun c =>
                  match cell (get_monthly_spending_by_category df) m c with
                  | Some v => v
                  | None => 0%Q
                  end)
               (columns (get_monthly_spending_by_category df))) == e)%Q.
Proof.
  intros _ Hin. destruct (summary_row_sums df m r Hin) as [_ [He _]].
  exists (month_expenses df m). split; [exact He|].
  rewrite (map_ext_in _ _ _ (fun c Hc => cell_or_zero df m c Hc)).
  unfold month_expenses.
  rewrite <- (Qsum_categories (columns (get_monthly_spending_by_category df))
                (sorted_unique_string_NoDup _) (group Month m (expenses_of df))).
  - rewrite (map_ext _ _ (fun c => f_equal (fun l => Qsum (map Amount l))
                                     (filter_month_category m c (expenses_of df)))).
    reflexivity.
  - intros t Ht. apply filter_In in Ht. destruct Ht as [Ht _].
    unfold get_monthly_spending_by_category, pivot_table. cbn [columns].
    apply sorted_unique_string_In. apply in_map. exact Ht.
Qed.

Lemma matrix_row_adds_up_to_expenses_witness :
  exists e : Q,
    Finite 100 = Finite e /\
    (Qsum (map (fun c =>
                  match cell (get_monthly_spending_by_category
                                [on_day 2024 1 10 (-30) "Food" "lunch";
                                 on_day 2024 1 20 (-70) "Other" "pen"])
                             (month_period 2024 1) c with
                  | Some v => v
                  | None => 0%Q
                  end)
               (columns (get_monthly_spending_by_category
                           [on_day 2024 1 10 (-30) "Food" "lunch";
                            on_day 2024 1 20 (-70) "Other" "pen"]))) == e)%Q.
Proof.
  apply (matrix_row_adds_up_to_expenses
           [on_day 2024 1 10 (-30) "Food" "lunch"; on_day 2024 1 20 (-70) "Other" "pen"]
           (month_period 2024 1)
           (mkSummaryRow (Finite 0) (Finite 100) (Finite (0 - 100)) NegInf)).
  - vm_compute. reflexivity.
  - vm_compute. left. reflexivity.
Defined.

Lemma current_expenses_filter (cm : Period) (c : string) (df : DataFrame) :
  filter (fun t => String.eqb (Category t) c)
    (map (fun t => set_Amount t (Qabs (Amount t)))
       (filter (fun t => (Month t =? cm) && Qltb (Amount t) 0) df)) =
  filter (fun t => (Month t =? cm) && String.eqb (Category t) c) (expenses_of df).
Proof.
  unfold expenses_of. induction df as [|t df IH]; simpl; [reflexivity|].
  change (Month t) with (to_period_M (Date t)).
  destruct (Qltb (Amount t) 0); simpl.
  - change (Month (set_Amount t (Qabs (Amount t)))) with (to_period_M (Date t)).
    destruct (to_period_M (Date t) =? cm); simpl; [|exact IH].
    destruct (String.eqb (Category t) c); [f_equal|]; exact IH.
  - rewrite andb_false_r. exact IH.
Qed.

Lemma current_expenses_month (cm : Period) (df : DataFrame) :
  map (fun t => set_Amount t (Qabs (Amount t)))
      (filter (fun t => (Month t =? cm) && Qltb (Amount t) 0) df) =
  group Month cm (expenses_of df).
Proof.
  unfold expenses_of, group. induction df as [|t df IH]; simpl; [reflexivity|].
  change (Month t) with (to_period_M (Date t)).
  destruct (Qltb (Amount t) 0); simpl.
  - change (Month (set_Amount t (Qabs (Amount t)))) with (to_period_M (Date t)).
    destruct (to_period_M (Date t) =? cm); simpl; [f_equal|]; exact IH.
  - rewrite andb_false_r. exact IH.
Qed.

Lemma Qsum_pos_nonempty (l : list Q) :
  l <> [] -> Forall (fun x => 0 < x)%Q l -> (0 < Qsum l)%Q.
Proof. apply Qsum_pos. Qed.

(** X10: the spending of the current month lists exactly the categories
    that have an expense in the month of [now], in ascending order and
    without repetition; each amount is positive and is the cell of that
    month and category in the monthly matrix; so the filter of the dashboard
    that keeps the positive amounts removes nothing. *)
Theorem current_month_spending_spec (now : Timestamp) (df : DataFrame) :
  let s := get_current_month_spending now df in
  StronglySorted string_lt (map fst s) /\
  (forall c, In c (map fst s) <->
             exists t, In t df /\ Month t = to_period_M now /\
                       (Amount t < 0)%Q /\ Category t = c) /\
  (forall c v, In (c, v) s ->
     (0 < v)%Q /\
     cell (get_monthly_spending_by_category df) (to_period_M now) c = Some v) /\
  filter (fun cv => Qltb 0 (snd cv)) s = s.
Proof.
  intros s. unfold s, get_current_month_spending.
  set (cm := to_period_M now).
  set (cur := map (fun t => set_Amount t (Qabs (Amount t)))
                  (filter (fun t => (Month t =? cm) && Qltb (Amount t) 0) df)).
  assert (Hcur : cur = group Month cm (expenses_of df))
    by apply current_expenses_month.
  assert (Hkeys : forall c, In c (sorted_unique String.compare (map Category cur)) <->
                    exists t, In t df /\ Month t = cm /\ (Amount t < 0)%Q /\
                              Category t = c).
  { intros c. rewrite sorted_unique_string_In. unfold cur.
    rewrite map_map, in_map_iff. simpl. split.
    - intros [t [Hc Ht]]. apply filter_In in Ht. destruct Ht as [Ht Hb].
      apply andb_true_iff in Hb. destruct Hb as [Hm Hn].
      exists t. repeat split; [exact Ht|apply Z.eqb_eq, Hm|apply Qltb_lt, Hn|exact Hc].
    - intros [t [Ht [Hm [Hn Hc]]]]. exists t. split; [exact Hc|].
      apply filter_In. split; [exact Ht|].
      apply andb_true_iff. split; [apply Z.eqb_eq, Hm|apply Qltb_lt, Hn]. }
  assert (Hentry : forall c v,
            In (c, v)
               (map (fun c => (c, Qsum (map Amount
                         (filter (fun t => String.eqb (Category t) c) cur))))
                    (sorted_unique String.compare (map Category cur))) ->
            (0 < v)%Q /\
            cell (get_monthly_spending_by_category df) cm c = Some v).
  { intros c v Hin. apply in_map_iff in Hin. destruct Hin as [c' [Heq Hc]].
    injection Heq as -> <-.
    pose proof (proj1 (sorted_unique_string_In _ _) Hc) as Hc'.
    split.
    - apply Qsum_pos.
      + intros E. apply map_eq_nil in E.
        apply in_map_iff in Hc'. destruct Hc' as [t [Ht Hin]].
        assert (Hf : In t (filter (fun t => String.eqb (Category t) c) cur))
          by (apply filter_In; split; [exact Hin|apply String.eqb_eq, Ht]).
        rewrite E in Hf. exact Hf.
      + apply Forall_map, Forall_forall. intros t Ht.
        apply filter_In in Ht. destruct Ht as [Ht _].
        rewrite Hcur in Ht. apply filter_In in Ht. destruct Ht as [Ht _].
        pose proof (expenses_of_pos df) as Hpos.
        rewrite Forall_forall in Hpos. exact (Hpos t Ht).
    - unfold get_monthly_spending_by_category.
      rewrite pivot_table_cell.
      + rewrite pair_sum_fill. unfold cur.
        rewrite current_expenses_filter. reflexivity.
      + apply in_map_iff in Hc'. destruct Hc' as [t [_ Hin]].
        rewrite Hcur in Hin. apply filter_In in Hin. destruct Hin as [Hin Hm].
        apply Z.eqb_eq in Hm. rewrite <- Hm. apply in_map. exact Hin.
      + apply in_map_iff in Hc'. destruct Hc' as [t [Ht Hin]].
        rewrite Hcur in Hin. apply filter_In in Hin. destruct Hin as [Hin _].
        rewrite <- Ht. apply in_map. exact Hin. }
  split; [|split; [|split]].
  - rewrite map_map. simpl. rewrite map_id. apply sorted_unique_string_sorted.
  - intros c. rewrite map_map. simpl. rewrite map_id. apply Hkeys.
  - exact Hentry.
  - apply forallb_filter_id. apply forallb_forall. intros [c v] Hin.
    simpl. apply Qltb_lt. apply (Hentry c v Hin).
Qed.

(** X11: on whole amounts, where the sums of the machine are exact, the
    amounts of the current month add up to the expenses of that month in
    the monthly summary; when the summary has no row for the month there is
    no spending to show. *)
Theorem current_month_total (now : Timestamp) (df : DataFrame) :
  whole_amounts df = true ->
  (forall r, summary_row (to_period_M now) (get_income_vs_expenses_chart df) = Some r ->
     exists e : Q,
       Expenses r = Finite e /\
       (Qsum (map snd (get_current_month_spending now df)) == e)%Q) /\
  (summary_row (to_period_M now) (get_income_vs_expenses_chart df) = None ->
     get_current_month_spending now df = []).
Proof.
  intros _. unfold get_current_month_spending.
  set (cm := to_period_M now).
  rewrite (current_expenses_month cm df).
  split.
  - intros r Hr.
    assert (Hin : In (cm, r) (get_income_vs_expenses_chart df)).
    { unfold summary_row in Hr. clear - Hr.
      induction (get_income_vs_expenses_chart df) as [|[m' r'] l IH];
        simpl in *; [discriminate|].
      destruct (m' =? cm) eqn:E.
      - apply Z.eqb_eq in E. injection Hr as ->. left. congruence.
      - right. auto. }
    destruct (summary_row_sums df cm r Hin) as [_ [He _]].
    exists (month_expenses df cm). split; [exact He|].
    rewrite map_map. simpl. unfold month_expenses.
    apply Qsum_categories; [apply sorted_unique_string_NoDup|].
    intros t Ht. apply sorted_unique_string_In. apply in_map. exact Ht.
  - intros Hnone.
    assert (Hno : ~ In cm (map Month (expenses_of df))).
    { intros H. rewrite summary_row_present in Hnone by (right; exact H).
      discriminate. }
    apply group_nil_iff in Hno. rewrite Hno. reflexivity.
Qed.

Lemma current_month_total_witness :
  exists e : Q,
    Finite 100 = Finite e /\
    (Qsum (map snd (get_current_month_spending (midnight 2024 1 25)
                      [on_day 2024 1 10 (-30) "Food" "lunch";
                       on_day 2024 1 20 (-70) "Other" "pen"])) == e)%Q.
Proof.
  assert (Hwhole : whole_amounts
             [on_day 2024 1 10 (-30) "Food" "lunch";
              on_day 2024 1 20 (-70) "Other" "pen"] = true)
    by (vm_compute; reflexivity).
  apply (proj1 (current_month_total (midnight 2024 1 25) _ Hwhole)
           (mkSummaryRow (Finite 0) (Finite 100) (Finite (0 - 100)) NegInf)).
  vm_compute. reflexivity.
Defined.

(** ** The menu *)

Lemma in_categories_In (c : string) : in_categories c = true <-> In c categories.
Proof.
  unfold in_categories. rewrite existsb_exists. split.
  - intros [x [Hx E]]. apply String.eqb_eq in E. subst. exact Hx.
  - intros H. exists c. split; [exact H|apply String.eqb_refl].
Qed.

(** X12: the category prompt returns the first line read that is one of
    the ten categories, after rejecting every line before it; it fails only
    at the end of the input, when no line was a category. *)
Theorem prompt_category_spec (stdin : list string) :
  match prompt_category stdin with
  | Ok (category, rest) =>
      In category categories /\
      exists rejected,
        stdin = rejected ++ category :: rest /\
        Forall (fun line => ~ In line categories) rejected
  | Raise e =>
      e = "EOFError"%string /\ Forall (fun line => ~ In line categories) stdin
  end.
Proof.
  induction stdin as [|line stdin IH]; simpl.
  - split; [reflexivity|constructor].
  - destruct (in_categories line) eqn:E.
    + split; [apply in_categories_In, E|].
      exists []. split; [reflexivity|constructor].
    + assert (Hn : ~ In line categories).
      { intros H. apply in_categories_In in H. congruence. }
      destruct (prompt_category stdin) as [[category rest]|e].
      * destruct IH as [Hc [rejected [-> Hr]]]. split; [exact Hc|].
        exists (line :: rejected). split; [reflexivity|].
        constructor; assumption.
      * destruct IH as [-> Hr]. split; [reflexivity|].
        constructor; assumption.
Qed.

Section MenuFacts.
Variable to_datetime : string -> outcome Timestamp.
Variable float : string -> outcome Q.
Variable strip : string -> string.

Lemma prompt_date_inv (now : Timestamp) (stdin : list string) :
  match prompt_date to_datetime strip now stdin with
  | Ok (_, rest) => exists line, stdin = line :: rest
  | Raise e => e = "EOFError"%string
  end.
Proof.
  unfold prompt_date. destruct stdin as [|line rest]; simpl; [reflexivity|].
  destruct (String.eqb (strip line) EmptyString); [eauto|].
  destruct (to_datetime line); eauto.
Qed.

Lemma prompt_amount_inv (stdin : list string) :
  match prompt_amount float stdin with
  | Ok (_, rest) => (length rest < length stdin)%nat
  | Raise e => e = "EOFError"%string
  end.
Proof.
  induction stdin as [|line stdin IH]; simpl; [reflexivity|].
  destruct (float line) as [a|e0]; [lia|].
  destruct (prompt_amount float stdin) as [[a rest]|e]; [lia|exact IH].
Qed.

Lemma prompt_category_inv (stdin : list string) :
  match prompt_category stdin with
  | Ok (category, rest) =>
      In category categories /\ (length rest < length stdin)%nat
  | Raise e => e = "EOFError"%string
  end.
Proof.
  induction stdin as [|line stdin IH]; simpl; [reflexivity|].
  destruct (in_categories line) eqn:E.
  - split; [apply in_categories_In, E|lia].
  - destruct (prompt_category stdin) as [[category rest]|e]; [|exact IH].
    destruct IH as [Hc Hlen]. split; [exact Hc|lia].
Qed.

(** What menu entry 2 does when it succeeds, and how it can fail. *)
Lemma menu_add_transaction_inv (now : Timestamp) (d : Dashboard)
    (stdin : list string) :
  match menu_add_transaction to_datetime float strip now d stdin with
  | Ok (d', rest) =>
      (length rest + 4 <= length stdin)%nat /\
      exists date amount category description,
        In category categories /\
        add_transaction to_datetime d (DateTime date) amount category description =
          Ok d'
  | Raise e => e = "EOFError"%string
  end.
Proof.
  unfold menu_add_transaction.
  pose proof (prompt_date_inv now stdin) as Hd.
  destruct (prompt_date to_datetime strip now stdin) as [[date s1]|e];
    cbn [bind]; [|exact Hd].
  destruct Hd as [l1 ->].
  pose proof (prompt_amount_inv s1) as Ha.
  destruct (prompt_amount float s1) as [[amount s2]|e]; cbn [bind]; [|exact Ha].
  pose proof (prompt_category_inv s2) as Hc.
  destruct (prompt_category s2) as [[category s3]|e]; cbn [bind]; [|exact Hc].
  destruct Hc as [Hc Hlen].
  destruct s3 as [|description rest]; cbn [input bind]; [reflexivity|].
  rewrite (add_transaction_ok to_datetime d (DateTime date) amount category
             description date eq_refl).
  cbn [bind]. split; [simpl in *; lia|].
  exists date, amount, category, description. split; [exact Hc|].
  apply add_transaction_ok. reflexivity.
Qed.

(** X13: "Add Transaction" of the menu never fails on the date or on the
    category: it fails only when the input ends.  When it succeeds it has
    read at least four lines and has added exactly one record, whose
    category is one of the ten; the table is sorted by date, latest first,
    and is what the file holds. *)
Theorem menu_add_transaction_spec (now : Timestamp) (d : Dashboard)
    (stdin : list string) :
  match menu_add_transaction to_datetime float strip now d stdin with
  | Ok (d', rest) =>
      (length rest + 4 <= length stdin)%nat /\
      (exists t, In (Category t) categories /\
                 Permutation (transactions d') (transactions d ++ [t])) /\
      StronglySorted date_desc (transactions d') /\
      data_file d' = Some (transactions d')
  | Raise e => e = "EOFError"%string
  end.
Proof.
  pose proof (menu_add_transaction_inv now d stdin) as H.
  destruct (menu_add_transaction to_datetime float strip now d stdin)
    as [[d' rest]|e]; [|exact H].
  destruct H as [Hlen [date [amount [category [description [Hc Hadd]]]]]].
  apply add_transaction_inv in Hadd. destruct Hadd as [ts [_ [Ht Hf]]].
  split; [exact Hlen|]. split; [|split; [|exact Hf]].
  - eexists. split; [|rewrite Ht; apply sort_values_Date_desc_perm]. exact Hc.
  - rewrite Ht. apply sort_values_Date_desc_sorted.
Qed.

Lemma visualize_dashboard_inv (now : Timestamp) (df : DataFrame) :
  match visualize_dashboard now df with
  | Ok _ => df <> []
  | Raise e => e = "ValueError"%string /\ df = []
  end.
Proof.
  unfold visualize_dashboard. destruct df as [|t df].
  - simpl. auto.
  - destruct (balance_history_nonempty (t :: df)) as [h [a [b [Hh _]]]];
      [discriminate|].
    rewrite Hh. cbn [bind]. discriminate.
Qed.

Lemma menu_turn_inv (Date_dtype : dtype) (now : Timestamp) (d : Dashboard)
    (stdin : list string) :
  match menu_turn to_datetime float strip Date_dtype now d stdin with
  | Ok (GoOn d' rest) | Ok (Leave d' rest) =>
      (length rest < length stdin)%nat /\ menu_step to_datetime d d'
  | Raise e =>
      e = "EOFError"%string \/
      (e = "AttributeError"%string /\ Date_dtype = object) \/
      (e = "ValueError"%string /\ Date_dtype = datetime64 /\ transactions d = [])
  end.
Proof.
  unfold menu_turn. destruct stdin as [|choice rest]; cbn [input bind]; [auto|].
  destruct (String.eqb choice "1").
  { destruct Date_dtype; cbn [dt bind]; [|right; left; auto].
    pose proof (visualize_dashboard_inv now (transactions d)) as Hv.
    destruct (visualize_dashboard now (transactions d)); cbn [bind].
    - split; [simpl; lia|left; reflexivity].
    - right. right. destruct Hv as [-> Hv]. auto. }
  destruct (String.eqb choice "2").
  { pose proof (menu_add_transaction_inv now d rest) as Ha.
    destruct (menu_add_transaction to_datetime float strip now d rest)
      as [[d' rest']|e]; cbn [bind].
    - destruct Ha as [Hlen Hadd]. split; [simpl; lia|right; exact Hadd].
    - left. exact Ha. }
  destruct (String.eqb choice "3").
  { destruct Date_dtype; cbn [dt bind]; [|right; left; auto].
    split; [simpl; lia|left; reflexivity]. }
  destruct (String.eqb choice "4").
  { destruct Date_dtype; cbn [dt bind]; [|right; left; auto].
    split; [simpl; lia|left; reflexivity]. }
  destruct (String.eqb choice "5"); split; try (simpl; lia); left; reflexivity.
Qed.

Lemma menu_step_grows (d d' : Dashboard) :
  menu_step to_datetime d d' ->
  (reachable to_datetime d -> reachable to_datetime d') /\
  (forall t, In t (transactions d') ->
             In t (transactions d) \/ In (Category t) categories) /\
  (forall t, In t (transactions d) -> In t (transactions d')) /\
  (length (transactions d) <= length (transactions d'))%nat.
Proof.
  intros [->|[date [amount [category [description [Hc Hadd]]]]]].
  - repeat split; auto.
  - pose proof Hadd as Hinv. apply add_transaction_inv in Hinv.
    destruct Hinv as [ts [_ [Ht _]]].
    assert (Hperm : Permutation (transactions d')
              (transactions d ++
               [mkTransaction ts (normalize_amount category amount)
                              category description]))
      by (rewrite Ht; apply sort_values_Date_desc_perm).
    repeat split.
    + intros Hr. eapply reach_add; eassumption.
    + intros t Hin. apply (Permutation_in _ Hperm) in Hin.
      apply in_app_or in Hin. destruct Hin as [Hin|[<-|[]]]; [left; exact Hin|].
      right. exact Hc.
    + intros t Hin. apply (Permutation_in _ (Permutation_sym Hperm)).
      apply in_or_app. left. exact Hin.
    + rewrite (Permutation_length Hperm), length_app. simpl. lia.
Qed.

Lemma run_cli_turns_inv (Date_dtypes : nat -> dtype) (clock : nat -> Timestamp)
    (fuel : nat) :
  forall (d : Dashboard) (stdin : list string),
    (length stdin < fuel)%nat ->
    match run_cli_turns to_datetime float strip fuel Date_dtypes clock d stdin with
    | Ok (d', rest) =>
        (length rest < length stdin)%nat /\
        (reachable to_datetime d -> reachable to_datetime d') /\
        (forall t, In t (transactions d') ->
                   In t (transactions d) \/ In (Category t) categories) /\
        (forall t, In t (transactions d) -> In t (transactions d')) /\
        (length (transactions d) <= length (transactions d'))%nat
    | Raise e =>
        e = "EOFError"%string \/
        (e = "AttributeError"%string /\ exists n, Date_dtypes n = object) \/
        (e = "ValueError"%string /\ transactions d = [] /\
         exists n, Date_dtypes n = datetime64)
    end.
Proof.
  induction fuel as [|fuel IH]; intros d stdin Hfuel; [lia|].
  cbn [run_cli_turns].
  pose proof (menu_turn_inv (Date_dtypes fuel) (clock fuel) d stdin) as Ht.
  destruct (menu_turn to_datetime float strip (Date_dtypes fuel) (clock fuel) d stdin)
    as [[d1 s1|d1 s1]|e]; cbn [bind].
  - destruct Ht as [Hlen Hstep].
    destruct (menu_step_grows d d1 Hstep) as [Hr [Hcat [Hkeep Hgrow]]].
    specialize (IH d1 s1 ltac:(lia)).
    destruct (run_cli_turns to_datetime float strip fuel Date_dtypes clock d1 s1)
      as [[d' rest]|e].
    + destruct IH as [Hlen' [Hr' [Hcat' [Hkeep' Hgrow']]]].
      split; [lia|]. split; [auto|]. split; [|split; [auto|lia]].
      intros t Hin. destruct (Hcat' t Hin) as [H|H]; [apply Hcat, H|right; exact H].
    + destruct IH as [->|[[-> Hobj]|[-> [Hempty Hdt]]]];
        [left; reflexivity|right; left; auto|].
      right. right. split; [reflexivity|]. split; [|exact Hdt].
      destruct (transactions d) as [|t l]; [reflexivity|].
      rewrite Hempty in Hgrow. simpl in Hgrow. lia.
  - destruct Ht as [Hlen Hstep].
    destruct (menu_step_grows d d1 Hstep) as [Hr [Hcat [Hkeep Hgrow]]].
    auto.
  - destruct Ht as [->|[[-> Hobj]|[-> [Hdt Hempty]]]].
    + left. reflexivity.
    + right. left. split; [reflexivity|]. exists fuel. exact Hobj.
    + right. right. split; [reflexivity|]. split; [exact Hempty|].
      exists fuel. exact Hdt.
Qed.

(** X14: a run of the menu ends: it returns when entry 5 is chosen, or it
    fails with EOFError at the end of the input, or with AttributeError,
    when entry 1, 3 or 4 is chosen in a turn in which the Date column has
    the dtype object, or with ValueError, and this only when it was started
    on an empty table (entry 1 on an empty table with a datetime column).
    It never runs out of turns.  When it returns, every row it started with
    is still there, every row it added has one of the ten categories, and a
    state the program could reach is again one. *)
Theorem run_cli_spec (Date_dtypes : nat -> dtype) (clock : nat -> Timestamp)
    (d : Dashboard) (stdin : list string) :
  match run_cli to_datetime float strip Date_dtypes clock d stdin with
  | Ok (d', rest) =>
      (length rest < length stdin)%nat /\
      (reachable to_datetime d -> reachable to_datetime d') /\
      (forall t, In t (transactions d') ->
                 In t (transactions d) \/ In (Category t) categories) /\
      (forall t, In t (transactions d) -> In t (transactions d')) /\
      (length (transactions d) <= length (transactions d'))%nat
  | Raise e =>
      e = "EOFError"%string \/
      (e = "AttributeError"%string /\ exists n, Date_dtypes n = object) \/
      (e = "ValueError"%string /\ transactions d = [] /\
       exists n, Date_dtypes n = datetime64)
  end.
Proof.
  unfold run_cli. apply run_cli_turns_inv. lia.
Qed.

(** X15: the menu entries that only show something (1, 3, 4 and any
    unknown choice) leave the table and the file as they are when they go
    on.  Entries 1, 3 and 4 fail with AttributeError when the Date column
    has the dtype object, as it has in a table read from a file that holds
    only the header line.  On a datetime column entry 1 fails with
    ValueError on an empty table and goes on otherwise, and entries 3 and 4
    go on; an unknown choice goes on in every case. *)
Theorem menu_views_keep_state (Date_dtype : dtype) (now : Timestamp)
    (d : Dashboard) (choice : string) (stdin : list string) :
  choice <> "2"%string -> choice <> "5"%string ->
  ((choice = "1"%string \/ choice = "3"%string \/ choice = "4"%string) ->
   Date_dtype = object ->
   menu_turn to_datetime float strip Date_dtype now d (choice :: stdin) =
     Raise "AttributeError"%string) /\
  (choice = "1"%string -> Date_dtype = datetime64 -> transactions d = [] ->
   menu_turn to_datetime float strip Date_dtype now d (choice :: stdin) =
     Raise "ValueError"%string) /\
  ((choice = "1"%string /\ Date_dtype = datetime64 /\ transactions d <> []) \/
   ((choice = "3"%string \/ choice = "4"%string) /\ Date_dtype = datetime64) \/
   (choice <> "1"%string /\ choice <> "3"%string /\ choice <> "4"%string) ->
   menu_turn to_datetime float strip Date_dtype now d (choice :: stdin) =
     Ok (GoOn d stdin)) /\
  menu_turn to_datetime float strip (read_csv_Date_dtype []) now
    (load_data [] (Some [])) ("3"%string :: stdin) = Raise "AttributeError"%string.
Proof.
  intros H2 H5. apply String.eqb_neq in H2. apply String.eqb_neq in H5.
  unfold menu_turn. cbn [input bind]. rewrite H2, H5.
  pose proof (visualize_dashboard_inv now (transactions d)) as Hv.
  split; [|split; [|split]].
  - intros [->|[->| ->]] ->; reflexivity.
  - intros -> -> Hempty. cbn [String.eqb Ascii.eqb Bool.eqb dt bind].
    destruct (visualize_dashboard now (transactions d)); [contradiction|].
    destruct Hv as [-> _]. reflexivity.
  - intros [[-> [-> Hne]]|[[[->| ->] ->]|[H1 [H3 H4]]]].
    + cbn [String.eqb Ascii.eqb Bool.eqb dt bind].
      destruct (visualize_dashboard now (transactions d)); [reflexivity|].
      destruct Hv as [_ Hv]. contradiction.
    + reflexivity.
    + reflexivity.
    + apply String.eqb_neq in H1, H3, H4. rewrite H1, H3, H4. reflexivity.
  - reflexivity.
Qed.
End MenuFacts.

Lemma menu_views_keep_state_witness :
  menu_turn iso_to_datetime (fun _ => Raise "ValueError"%string) (fun s => s)
    datetime64 (midnight 2024 7 4)
    (mkDashboard [on_day 2024 3 1 500 "Income" "salary"] None)
    ["4"%string; "5"%string] =
  Ok (GoOn (mkDashboard [on_day 2024 3 1 500 "Income" "salary"] None) ["5"%string]).
Proof.
  apply (menu_views_keep_state iso_to_datetime (fun _ => Raise "ValueError"%string)
           (fun s => s) datetime64 (midnight 2024 7 4)
           (mkDashboard [on_day 2024 3 1 500 "Income" "salary"] None)
           "4"%string ["5"%string]).
  - discriminate.
  - discriminate.
  - right. left. split; [right; reflexivity|reflexivity].
Defined.

(** ** The first start *)

Lemma StronglySorted_map_seq {A : Type} (R : A -> A -> Prop) (g : nat -> A)
    (s n : nat) :
  (forall i j, (s <= i)%nat -> (i < j)%nat -> (j < s + n)%nat -> R (g i) (g j)) ->
  StronglySorted R (map g (seq s n)).
Proof.
  revert s. induction n as [|n IH]; intros s H; simpl; constructor.
  - apply IH. intros i j Hi Hij Hj. apply H; lia.
  - apply Forall_forall. intros y Hy. apply in_map_iff in Hy.
    destruct Hy as [j [<- Hj]]. apply in_seq in Hj. apply H; lia.
Qed.

Lemma ns_per_day_pos : 0 < ns_per_day.
Proof. reflexivity. Qed.

(** X16: on the first start, when there is no file, the program writes the
    thirty sample rows to the file as drawn and holds them with the sign
    convention applied: thirty rows, each with one of the ten categories
    and an amount of magnitude at most 100, dated on thirty days in strictly
    ascending order.  The table is therefore not latest first: menu entry 3
    shows its first ten rows, which are the ten oldest. *)
Theorem first_start_sample (nows : nat -> Timestamp) (amounts : nat -> Z)
    (choices : nat -> string) :
  (forall i j, (i <= j)%nat -> nows i <= nows j) ->
  (forall k, (k < 30)%nat -> -100 <= amounts k < 100) ->
  (forall k, (k < 30)%nat -> In (choices k) categories) ->
  let d := load_data (sample_dataset nows amounts choices) None in
  data_file d = Some (sample_dataset nows amounts choices) /\
  length (transactions d) = 30%nat /\
  (forall t, In t (transactions d) ->
     In (Category t) categories /\ (Qabs (Amount t) <= 100)%Q) /\
  StronglySorted date_asc (transactions d) /\
  exists later,
    transactions d = recent_transactions d ++ later /\
    length (recent_transactions d) = 10%nat /\
    forall t u, In t (recent_transactions d) -> In u later -> Date t < Date u.
Proof.
  intros Hclock Hamounts Hchoices d.
  assert (Ht : transactions d =
               map sign_row (sample_dataset nows amounts choices)).
  { unfold d. rewrite load_data_transactions. apply apply_sign_convention_map. }
  assert (Hlen : length (transactions d) = 30%nat).
  { rewrite Ht. unfold sample_dataset. rewrite !length_map. apply length_seq. }
  assert (Hsorted : StronglySorted date_asc (transactions d)).
  { rewrite Ht. unfold sample_dataset. rewrite map_map.
    apply StronglySorted_map_seq. intros i j Hi Hij Hj. unfold date_asc.
    rewrite (proj1 (sign_row_keeps _)), (proj1 (sign_row_keeps _)).
    cbn [Date]. specialize (Hclock i j ltac:(lia)).
    pose proof ns_per_day_pos. nia. }
  split; [reflexivity|]. split; [exact Hlen|]. split; [|split; [exact Hsorted|]].
  - intros t Hin. rewrite Ht in Hin. apply in_map_iff in Hin.
    destruct Hin as [u [<- Hu]].
    destruct (sign_row_keeps u) as [_ [-> [_ ->]]].
    unfold sample_dataset in Hu. apply in_map_iff in Hu.
    destruct Hu as [k [<- Hk]]. apply in_seq in Hk. cbn [Category Amount].
    split; [apply Hchoices; lia|].
    specialize (Hamounts k ltac:(lia)).
    unfold inject_Z, Qabs, Qle. simpl. lia.
  - exists (skipn 10 (transactions d)).
    assert (Hrecent : recent_transactions d = firstn 10 (transactions d))
      by (unfold recent_transactions; rewrite Hlen; reflexivity).
    rewrite Hrecent. split; [symmetry; apply firstn_skipn|].
    split; [rewrite length_firstn, Hlen; reflexivity|].
    intros t u Hin Hu.
    rewrite <- (firstn_skipn 10 (transactions d)) in Hsorted.
    exact (StronglySorted_app_inv date_asc _ _ Hsorted t u Hin Hu).
Qed.

Lemma first_start_sample_witness :
  length (transactions
            (load_data (sample_dataset (fun _ => midnight 2024 7 1)
                                       (fun k => Z.of_nat k - 15)
                                       (fun _ => "Food"%string)) None)) = 30%nat.
Proof.
  apply (first_start_sample (fun _ => midnight 2024 7 1)
           (fun k => Z.of_nat k - 15) (fun _ => "Food"%string)).
  - intros i j _. apply Z.le_refl.
  - intros k Hk. lia.
  - intros k _. left. reflexivity.
Defined.
